(** * IEBus controller: bit codec and link-layer framer

    A shallow embedding of [src/src/Driver.cpp], [src/src/Controller.cpp]
    and [src/src/Message.cpp] (with the data model of
    [include/iebus/Message.hpp]) and the properties of the frame reader and
    writer that the specification states.

    Integers are modelled as [Z]; a conversion to an unsigned C++ type is
    written out as a reduction modulo a power of two.  The hardware (pins and
    the microsecond clock) is an explicit [Bus] state threaded through a small
    monad whose outcomes are a normal return, a wait that never ends, and an
    access outside the payload array. *)

From Stdlib Require Import ZArith Lia Bool.
From Stdlib Require Ascii.
From stdpp Require Import base list.

Local Open Scope Z_scope.

(** ** Scalar types of [Message.hpp] and [Driver.hpp] *)

(** [Bit = Byte = std::uint8_t], [Address = Data = std::uint16_t],
    [Size = std::size_t], [Driver::Time = std::int64_t]. *)
Definition Bit := Z.
Definition Byte := Z.
Definition Address := Z.
Definition Data := Z.
Definition Size := Z.
Definition Time := Z.

(** Conversions to [std::uint8_t] and [std::uint16_t]. *)
Definition to_u8 (x : Z) : Z := x mod 2 ^ 8.
Definition to_u16 (x : Z) : Z := x mod 2 ^ 16.

Definition MAX_MESSAGE_SIZE : Z := 256.

Inductive BroadcastType := BROADCAST | FOR_DEVICE.
Inductive AcknowledgmentType := ACK | NAK.

Definition BroadcastType_eqb (x y : BroadcastType) : bool :=
  match x, y with
  | BROADCAST, BROADCAST | FOR_DEVICE, FOR_DEVICE => true
  | _, _ => false
  end.

Definition AcknowledgmentType_eqb (x y : AcknowledgmentType) : bool :=
  match x, y with
  | ACK, ACK | NAK, NAK => true
  | _, _ => false
  end.

(** [struct Message]; [data] is the [std::array<Byte, 256>]. *)
Record Message := mkMessage {
  broadcast : BroadcastType;
  master : Address;
  slave : Address;
  control : Byte;
  dataLength : Size;
  data : list Byte
}.

(** [Message message = {}]: every member value-initialised. *)
Definition emptyMessage : Message :=
  mkMessage BROADCAST 0 0 0 0 (replicate (Z.to_nat MAX_MESSAGE_SIZE) 0).

Definition set_broadcast (m : Message) (v : BroadcastType) : Message :=
  mkMessage v (master m) (slave m) (control m) (dataLength m) (data m).
Definition set_master (m : Message) (v : Address) : Message :=
  mkMessage (broadcast m) v (slave m) (control m) (dataLength m) (data m).
Definition set_slave (m : Message) (v : Address) : Message :=
  mkMessage (broadcast m) (master m) v (control m) (dataLength m) (data m).
Definition set_control (m : Message) (v : Byte) : Message :=
  mkMessage (broadcast m) (master m) (slave m) v (dataLength m) (data m).
Definition set_dataLength (m : Message) (v : Size) : Message :=
  mkMessage (broadcast m) (master m) (slave m) (control m) v (data m).
Definition set_data (m : Message) (v : list Byte) : Message :=
  mkMessage (broadcast m) (master m) (slave m) (control m) (dataLength m) v.

(** ** Constants of the two translation units *)

Definition MASTER_ADDRESS_BIT_SIZE : Size := 12.
Definition SLAVE_ADDRESS_BIT_SIZE : Size := 12.
Definition CONTROL_BIT_SIZE : Size := 4.
Definition DATA_LENGTH_BIT_SIZE : Size := 8.
Definition DATA_BIT_SIZE : Size := 8.

Definition START_BIT_TOTAL_US : Time := 190.
Definition START_BIT_HIGH_US : Time := 171.
Definition START_BIT_LOW_US : Time := START_BIT_TOTAL_US - START_BIT_HIGH_US.
Definition START_BIT_THRESHOLD_US : Time := 20.

Definition DATA_BIT_TOTAL_US : Time := 39.
Definition DATA_BIT_0_HIGH_US : Time := 33.
Definition DATA_BIT_0_LOW_US : Time := DATA_BIT_TOTAL_US - DATA_BIT_0_HIGH_US.
Definition DATA_BIT_1_HIGH_US : Time := 20.
Definition DATA_BIT_1_LOW_US : Time := DATA_BIT_TOTAL_US - DATA_BIT_1_HIGH_US.

(** ** Pure functions *)

(** [decodeBit] of Driver.cpp.  [Time] is a signed 64-bit integer; for every
    width in [-2^63 + 33, 2^63) neither subtraction leaves that range, so the
    differences are the mathematical ones. *)
Definition decodeBit (pulseWidthUs : Time) : Bit :=
  let diff0 := Z.abs (pulseWidthUs - DATA_BIT_0_HIGH_US) in
  let diff1 := Z.abs (pulseWidthUs - DATA_BIT_1_HIGH_US) in
  if diff1 <? diff0 then 1 else 0.

(** The loop of [Controller::calculateParity]: [n] iterations remain, [i] is
    the loop variable and [parity] the accumulator (a [std::uint8_t]). *)
Fixpoint calculateParity_loop (data : Data) (n : nat) (i : Z) (parity : Bit) : Bit :=
  match n with
  | O => parity
  | S n' =>
      calculateParity_loop data n' (i + 1)
        (to_u8 (Z.lxor parity (Z.land (Z.shiftr data i) 1)))
  end.

Definition calculateParity (data : Data) (size : Size) : Bit :=
  calculateParity_loop data (Z.to_nat size) 0 0.

Definition checkParity (data : Data) (size : Size) (parity : Bit) : bool :=
  calculateParity data size =? parity.

(** ** The bus seen from one controller *)

(** What the driver does to, or observes on, its pins, oldest first. *)
Inductive Event :=
| RxPulse (highDuration : Time)  (* waitBusHigh, waitBusLow and the two clock reads around them *)
| BusSense (free : bool)         (* one isBusFree() poll *)
| SetLevel (level : bool)        (* gpio_set_level(m_txPin, level) *)
| Delay (us : Time).             (* delayUs(us) *)

(** [rxPulses] are the high-durations the driver will measure on the receive
    pin, in order of arrival; when none is left the line stays low and a wait
    for a level change never ends.  [busFree] are the answers the following
    [isBusFree] polls will give; when none is left the bus stays busy. *)
Record Bus := mkBus {
  m_isEnabled : bool;
  rxPulses : list Time;
  busFree : list bool;
  log : list Event
}.

Inductive Outcome (A : Type) :=
| Ret (a : A) (b : Bus)   (* the call returned [a] *)
| Hang (b : Bus)          (* the call waits for ever *)
| Fault (b : Bus).        (* the call indexed the payload array outside its bounds *)
Arguments Ret {A} a b.
Arguments Hang {A} b.
Arguments Fault {A} b.

Definition M (A : Type) : Type := Bus -> Outcome A.

Definition ret {A} (a : A) : M A := fun b => Ret a b.

Definition bind {A B} (m : M A) (k : A -> M B) : M B :=
  fun b =>
    match m b with
    | Ret a b' => k a b'
    | Hang b' => Hang b'
    | Fault b' => Fault b'
    end.

Notation "x <- m ;; k" := (bind m (fun x => k))
  (at level 100, m at next level, k at level 200, right associativity).

(** The bus as the call left it, whatever the outcome. *)
Definition final {A} (o : Outcome A) : Bus :=
  match o with
  | Ret _ b | Hang b | Fault b => b
  end.

Definition record (e : Event) : M unit :=
  fun b => Ret tt (mkBus (m_isEnabled b) (rxPulses b) (busFree b) (log b ++ [e])).

Definition hang {A} : M A := fun b => Hang b.

(** C++ truth value of an integer. *)
Definition truthy (x : Z) : bool := negb (x =? 0).

(** ** Hardware primitives *)

Definition gpio_set_level (level : bool) : M unit := record (SetLevel level).
Definition delayUs (us : Time) : M unit := record (Delay us).

(** [waitBusHigh(); startTime = getTimeUs(); waitBusLow(); stopTime =
    getTimeUs(); highDuration = stopTime - startTime], the common prefix of
    [receiveStartBit] and [receiveBit]. *)
Definition measureHigh : M Time :=
  fun b =>
    match rxPulses b with
    | [] => Hang b
    | w :: rest =>
        Ret w (mkBus (m_isEnabled b) rest (busFree b) (log b ++ [RxPulse w]))
    end.

(** Indexing [std::array<Byte, 256>]: outside the array the behaviour is
    undefined, here [Fault]. *)
Definition arrayGet (a : list Byte) (i : Size) : M Byte :=
  fun b =>
    match a !! Z.to_nat i with
    | Some x => Ret x b
    | None => Fault b
    end.

Definition arraySet (a : list Byte) (i : Size) (v : Byte) : M (list Byte) :=
  fun b =>
    if (Z.to_nat i <? length a)%nat then Ret (<[Z.to_nat i := v]> a) b
    else Fault b.

(** ** Driver *)

Definition isEnabled : M bool := fun b => Ret (m_isEnabled b) b.

(** [enable] and [disable] set the flag; the level they write to the enable
    pin is not part of the log. *)
Definition enable : M unit :=
  fun b => Ret tt (mkBus true (rxPulses b) (busFree b) (log b)).

Definition disable : M unit :=
  fun b => Ret tt (mkBus false (rxPulses b) (busFree b) (log b)).

(** [Driver::isBusFree] samples the receive pin against the clock for one
    bit period; whether the line stayed low that long is the next answer of
    the bus.  With no answer left the line is taken to be busy. *)
Definition isBusFree : M bool :=
  fun b =>
    match busFree b with
    | [] => Ret false (mkBus (m_isEnabled b) (rxPulses b) [] (log b ++ [BusSense false]))
    | f :: rest =>
        Ret f (mkBus (m_isEnabled b) (rxPulses b) rest (log b ++ [BusSense f]))
    end.

Definition receiveStartBit : M bool :=
  let startBitMinHighUs := START_BIT_HIGH_US - START_BIT_THRESHOLD_US in
  let startBitMaxHighUs := START_BIT_HIGH_US + START_BIT_THRESHOLD_US in
  highDuration <- measureHigh ;;
  let isStartBit :=
    (startBitMinHighUs <=? highDuration) && (highDuration <=? startBitMaxHighUs) in
  ret isStartBit.

Definition receiveBit : M Bit :=
  highDuration <- measureHigh ;;
  let bit := decodeBit highDuration in
  ret bit.

(** The loop of [Driver::receiveBits]; [n] iterations remain. *)
Fixpoint receiveBits_loop (numBits : Size) (n : nat) (i : Size) (result : Data) : M Data :=
  match n with
  | O => ret result
  | S n' =>
      bit <- receiveBit ;;
      let bitValue := if truthy bit then 1 else 0 in
      let bitShift := numBits - 1 - i in
      receiveBits_loop numBits n' (i + 1)
        (to_u16 (Z.lor result (Z.shiftl bitValue bitShift)))
  end.

Definition receiveBits (numBits : Size) : M Data :=
  receiveBits_loop numBits (Z.to_nat numBits) 0 0.

Definition receiveAckBit : M AcknowledgmentType :=
  ackBit <- receiveBit ;;
  if ackBit =? 0 then ret ACK else ret NAK.

Definition transmitStartBit : M unit :=
  _ <- gpio_set_level true ;;
  _ <- delayUs START_BIT_HIGH_US ;;
  _ <- gpio_set_level false ;;
  delayUs START_BIT_LOW_US.

Definition transmitBit (bit : Bit) : M unit :=
  let highDuration := if truthy bit then DATA_BIT_1_HIGH_US else DATA_BIT_0_HIGH_US in
  let lowDuration := if truthy bit then DATA_BIT_1_LOW_US else DATA_BIT_0_LOW_US in
  _ <- gpio_set_level true ;;
  _ <- delayUs highDuration ;;
  _ <- gpio_set_level false ;;
  delayUs lowDuration.

(** The loop of [Driver::transmitBits]; [n] iterations remain. *)
Fixpoint transmitBits_loop (data : Data) (numBits : Size) (n : nat) (i : Size) : M unit :=
  match n with
  | O => ret tt
  | S n' =>
      let bitPosition := numBits - 1 - i in
      let bit := to_u8 (Z.land (Z.shiftr data bitPosition) 1) in
      _ <- transmitBit bit ;;
      transmitBits_loop data numBits n' (i + 1)
  end.

Definition transmitBits (data : Data) (numBits : Size) : M unit :=
  transmitBits_loop data numBits (Z.to_nat numBits) 0.

Definition sendAckBit (ack : AcknowledgmentType) : M unit :=
  if AcknowledgmentType_eqb ack ACK then transmitBit 0 else transmitBit 1.

(** ** Controller *)

(** The payload loop of [Controller::readMessage]; [n] iterations remain and
    [i] is the loop variable. *)
Fixpoint readMessage_data (m_address : Address) (n : nat) (i : Size)
    (message : Message) : M (option Message) :=
  match n with
  | O => ret (Some message)
  | S n' =>
      v <- receiveBits DATA_BIT_SIZE ;;
      d <- arraySet (data message) i (to_u8 v) ;;
      let message := set_data message d in
      parityBit <- receiveBit ;;
      byte <- arrayGet (data message) i ;;
      let isParityValid := checkParity byte DATA_BIT_SIZE parityBit in
      ackBit <- receiveAckBit ;;
      let isNeedAnswer := AcknowledgmentType_eqb ackBit ACK in
      let isForDevice := BroadcastType_eqb (broadcast message) FOR_DEVICE in
      let isForThisDevice := slave message =? m_address in
      let isAnswer := isNeedAnswer && isForDevice && isForThisDevice in
      if negb isParityValid then
        _ <- (if isAnswer then sendAckBit NAK else ret tt) ;;
        ret None
      else
        _ <- (if isAnswer then sendAckBit ACK else ret tt) ;;
        readMessage_data m_address n' (i + 1) message
  end.

Definition readMessage (m_address : Address) : M (option Message) :=
  enabled <- isEnabled ;;
  if negb enabled then ret None else
  isStartBit <- receiveStartBit ;;
  if negb isStartBit then ret None else
  let message := emptyMessage in
  (* broadcast bit *)
  broadcastBit <- receiveBit ;;
  let message :=
    if broadcastBit =? 0 then set_broadcast message BROADCAST
    else set_broadcast message FOR_DEVICE in
  (* master address *)
  v <- receiveBits MASTER_ADDRESS_BIT_SIZE ;;
  let message := set_master message v in
  masterParityBit <- receiveBit ;;
  let isParityValid :=
    checkParity (master message) MASTER_ADDRESS_BIT_SIZE masterParityBit in
  if negb isParityValid then ret None else
  (* slave address *)
  v <- receiveBits SLAVE_ADDRESS_BIT_SIZE ;;
  let message := set_slave message v in
  parityBit <- receiveBit ;;
  let isParityValid := checkParity (slave message) SLAVE_ADDRESS_BIT_SIZE parityBit in
  ackBit <- receiveAckBit ;;
  let isNeedAnswer := AcknowledgmentType_eqb ackBit ACK in
  let isForDevice := BroadcastType_eqb (broadcast message) FOR_DEVICE in
  let isForThisDevice := slave message =? m_address in
  let isAnswer := isNeedAnswer && isForDevice && isForThisDevice in
  if negb isParityValid then
    _ <- (if isAnswer then sendAckBit NAK else ret tt) ;;
    ret None
  else
  _ <- (if isAnswer then sendAckBit ACK else ret tt) ;;
  (* control *)
  v <- receiveBits CONTROL_BIT_SIZE ;;
  let message := set_control message (to_u8 v) in
  parityBit <- receiveBit ;;
  let isParityValid := checkParity (control message) CONTROL_BIT_SIZE parityBit in
  ackBit <- receiveAckBit ;;
  let isNeedAnswer := AcknowledgmentType_eqb ackBit ACK in
  let isForDevice := BroadcastType_eqb (broadcast message) FOR_DEVICE in
  let isForThisDevice := slave message =? m_address in
  let isAnswer := isNeedAnswer && isForDevice && isForThisDevice in
  if negb isParityValid then
    _ <- (if isAnswer then sendAckBit NAK else ret tt) ;;
    ret None
  else
  _ <- (if isAnswer then sendAckBit ACK else ret tt) ;;
  (* data length *)
  v <- receiveBits DATA_LENGTH_BIT_SIZE ;;
  let message := set_dataLength message v in
  parityBit <- receiveBit ;;
  let isParityValid :=
    checkParity (to_u16 (dataLength message)) DATA_LENGTH_BIT_SIZE parityBit in
  ackBit <- receiveAckBit ;;
  let isNeedAnswer := AcknowledgmentType_eqb ackBit ACK in
  let isForDevice := BroadcastType_eqb (broadcast message) FOR_DEVICE in
  let isForThisDevice := slave message =? m_address in
  let isAnswer := isNeedAnswer && isForDevice && isForThisDevice in
  if negb isParityValid then
    _ <- (if isAnswer then sendAckBit NAK else ret tt) ;;
    ret None
  else
  _ <- (if isAnswer then sendAckBit ACK else ret tt) ;;
  let message :=
    if dataLength message =? 0 then set_dataLength message 256 else message in
  (* payload *)
  readMessage_data m_address (Z.to_nat (dataLength message)) 0 message.

(** [while (not m_driver.isBusFree()) { delayUs(1); }]: [n] is the number of
    answers the bus still holds; once they are used up every further poll
    reports a busy bus and the loop does not end. *)
Fixpoint writeMessage_waitBus (n : nat) : M unit :=
  match n with
  | O => hang
  | S n' =>
      free <- isBusFree ;;
      if negb free then
        _ <- delayUs 1 ;;
        writeMessage_waitBus n'
      else ret tt
  end.

(** The payload loop of [Controller::writeMessage]; [n] iterations remain. *)
Fixpoint writeMessage_data (message : Message) (n : nat) (i : Size) : M bool :=
  match n with
  | O => ret true
  | S n' =>
      byte <- arrayGet (data message) i ;;
      _ <- transmitBits byte 8 ;;
      byte <- arrayGet (data message) i ;;
      let parityBit := calculateParity byte 8 in
      _ <- transmitBit parityBit ;;
      ackBit <- receiveAckBit ;;
      if AcknowledgmentType_eqb ackBit NAK then ret false
      else writeMessage_data message n' (i + 1)
  end.

Definition writeMessage (message : Message) : M bool :=
  enabled <- isEnabled ;;
  if negb enabled then ret false else
  _ <- (fun b => writeMessage_waitBus (length (busFree b)) b) ;;
  _ <- transmitStartBit ;;
  _ <- (if BroadcastType_eqb (broadcast message) BROADCAST then transmitBit 0
        else transmitBit 1) ;;
  (* master address *)
  _ <- transmitBits (master message) 12 ;;
  let parityBit := calculateParity (master message) 12 in
  _ <- transmitBit parityBit ;;
  (* slave address *)
  _ <- transmitBits (slave message) 12 ;;
  let parityBit := calculateParity (slave message) 12 in
  _ <- transmitBit parityBit ;;
  ackBit <- receiveAckBit ;;
  if AcknowledgmentType_eqb ackBit NAK then ret false else
  (* control *)
  _ <- transmitBits (control message) 4 ;;
  let parityBit := calculateParity (control message) 4 in
  _ <- transmitBit parityBit ;;
  ackBit <- receiveAckBit ;;
  if AcknowledgmentType_eqb ackBit NAK then ret false else
  (* data length *)
  _ <- transmitBits (to_u16 (dataLength message)) 8 ;;
  let parityBit := calculateParity (to_u16 (dataLength message)) 8 in
  _ <- transmitBit parityBit ;;
  ackBit <- receiveAckBit ;;
  if AcknowledgmentType_eqb ackBit NAK then ret false else
  (* payload *)
  writeMessage_data message (Z.to_nat (dataLength message)) 0.

(** ** Vocabulary of the statements *)

(** The exclusive-OR of the [n] low-order bits of [v]. *)
Fixpoint xorBits (n : nat) (v : Z) : bool :=
  match n with
  | O => false
  | S n' => xorb (Z.testbit v (Z.of_nat n')) (xorBits n' v)
  end.

(** A received or transmitted bit counts as one when it is not zero. *)
Definition bitValue (bit : Bit) : Z := if truthy bit then 1 else 0.

(** The number whose binary digits, most significant first, are [bits]. *)
Fixpoint msbValue (bits : list Bit) : Z :=
  match bits with
  | [] => 0
  | bit :: rest => bitValue bit * 2 ^ Z.of_nat (length rest) + msbValue rest
  end.

(** The bits of [v] at positions [n-1], ..., [0], in that order. *)
Fixpoint msbBits (n : nat) (v : Z) : list Bit :=
  match n with
  | O => []
  | S n' => Z.b2z (Z.testbit v (Z.of_nat n')) :: msbBits n' v
  end.

(** The four pin operations of one transmitted bit. *)
Definition pulse (bit : Bit) : list Event :=
  [SetLevel true;
   Delay (if truthy bit then DATA_BIT_1_HIGH_US else DATA_BIT_0_HIGH_US);
   SetLevel false;
   Delay (if truthy bit then DATA_BIT_1_LOW_US else DATA_BIT_0_LOW_US)].

(** The pin operations of a field sent as [bits]. *)
Definition pulses (bits : list Bit) : list Event := concat (map pulse bits).

(** An ideal line: the high-durations a receiver measures when the transmit
    pin is driven as [evs] says, the line being at [level] and having been
    high for [acc] microseconds. *)
Fixpoint highDurations (level : bool) (acc : Time) (evs : list Event) : list Time :=
  match evs with
  | [] => []
  | SetLevel true :: rest =>
      if level then highDurations true acc rest else highDurations true 0 rest
  | SetLevel false :: rest =>
      if level then acc :: highDurations false 0 rest
      else highDurations false 0 rest
  | Delay us :: rest =>
      highDurations level (if level then acc + us else acc) rest
  | _ :: rest => highDurations level acc rest
  end.

(** The value a run of measured pulses decodes to. *)
Definition decoded (ws : list Time) : Z := msbValue (map decodeBit ws).

(** The events a call added to the log: [evs] extends the log of [b] to that
    of [b']. *)
Definition logged (b b' : Bus) (evs : list Event) : Prop :=
  log b' = log b ++ evs.

Definition isRx (e : Event) : bool :=
  match e with RxPulse _ => true | _ => false end.

(** The bus after the pulses [ws] have been measured, [rest] remaining. *)
Definition consume (ws rest : list Time) (b : Bus) : Bus :=
  mkBus (m_isEnabled b) rest (busFree b) (log b ++ map RxPulse ws).

(** The bus after the pin operations [evs]. *)
Definition emit (evs : list Event) (b : Bus) : Bus :=
  mkBus (m_isEnabled b) (rxPulses b) (busFree b) (log b ++ evs).

(** *** Received frames *)

(** A field followed by a handshake slot, as it arrives: the pulses of its
    value, of its parity bit, and of the peer's handshake request. *)
Record RxField := mkRxField {
  valuePulses : list Time;
  parityPulse : Time;
  requestPulse : Time
}.

Definition fieldPulses (f : RxField) : list Time :=
  valuePulses f ++ [parityPulse f; requestPulse f].

Definition fieldValue (f : RxField) : Z := decoded (valuePulses f).

(** The field has [n] value bits and its parity bit is the computed one. *)
Definition fieldChecked (n : nat) (f : RxField) : Prop :=
  length (valuePulses f) = n /\
  decodeBit (parityPulse f) = calculateParity (fieldValue f) (Z.of_nat n).

(** The field has [n] value bits and its parity bit is not the computed one. *)
Definition fieldCorrupt (n : nat) (f : RxField) : Prop :=
  length (valuePulses f) = n /\
  decodeBit (parityPulse f) <> calculateParity (fieldValue f) (Z.of_nat n).

(** A whole frame as it arrives. *)
Record RxFrame := mkRxFrame {
  startPulse : Time;
  broadcastPulse : Time;
  masterPulses : list Time;
  masterParityPulse : Time;
  slaveField : RxField;
  controlField : RxField;
  lengthField : RxField;
  dataFields : list RxField
}.

Definition headerPulses (fr : RxFrame) : list Time :=
  startPulse fr :: broadcastPulse fr :: masterPulses fr ++ [masterParityPulse fr].

Definition framePulses (fr : RxFrame) : list Time :=
  headerPulses fr ++ fieldPulses (slaveField fr) ++ fieldPulses (controlField fr) ++
  fieldPulses (lengthField fr) ++ concat (map fieldPulses (dataFields fr)).

Definition isStartPulse (w : Time) : Prop := 151 <= w <= 191.

Definition frameBroadcast (fr : RxFrame) : BroadcastType :=
  if decodeBit (broadcastPulse fr) =? 0 then BROADCAST else FOR_DEVICE.

(** The logical length: the wire value, with 0 standing for 256. *)
Definition frameLength (fr : RxFrame) : Z :=
  if fieldValue (lengthField fr) =? 0 then 256 else fieldValue (lengthField fr).

Definition headerChecked (fr : RxFrame) : Prop :=
  isStartPulse (startPulse fr) /\
  length (masterPulses fr) = 12%nat /\
  decodeBit (masterParityPulse fr) = calculateParity (decoded (masterPulses fr)) 12.

(** Every field of the frame was received and passed its parity check. *)
Definition frameChecked (fr : RxFrame) : Prop :=
  headerChecked fr /\
  fieldChecked 12 (slaveField fr) /\
  fieldChecked 4 (controlField fr) /\
  fieldChecked 8 (lengthField fr) /\
  Z.of_nat (length (dataFields fr)) = frameLength fr /\
  Forall (fieldChecked 8) (dataFields fr).

Definition frameMessage (fr : RxFrame) : Message :=
  mkMessage (frameBroadcast fr) (decoded (masterPulses fr))
    (fieldValue (slaveField fr)) (fieldValue (controlField fr)) (frameLength fr)
    (map fieldValue (dataFields fr) ++
     replicate (Z.to_nat MAX_MESSAGE_SIZE - length (dataFields fr)) 0).

(** The number of value bits of the [k]-th field after the master address:
    slave address, control, length, then payload bytes. *)
Definition fieldWidth (k : nat) : nat :=
  match k with
  | O => 12
  | S O => 4
  | _ => 8
  end.

(** *** Shape of the field blocks *)

(** This node owes handshakes for the frame: it is [FOR_DEVICE] and its slave
    address is the local one. *)
Definition addressed (m_address : Address) (message : Message) : bool :=
  BroadcastType_eqb (broadcast message) FOR_DEVICE && (slave message =? m_address).

(** The second half of the slave, control, length and payload blocks of
    [readMessage], which differ only in the message, the parity verdict and
    what follows ([k]). *)
Definition answerField (m_address : Address) (message : Message)
    (isParityValid : bool) (k : M (option Message)) : M (option Message) :=
  ackBit <- receiveAckBit ;;
  let isNeedAnswer := AcknowledgmentType_eqb ackBit ACK in
  let isForDevice := BroadcastType_eqb (broadcast message) FOR_DEVICE in
  let isForThisDevice := slave message =? m_address in
  let isAnswer := isNeedAnswer && isForDevice && isForThisDevice in
  if negb isParityValid then
    _ <- (if isAnswer then sendAckBit NAK else ret tt) ;;
    ret None
  else
    _ <- (if isAnswer then sendAckBit ACK else ret tt) ;;
    k.

(** What the local node puts on the line in a handshake slot. *)
Definition answer (own : bool) (request : Time) (bit : Bit) : list Event :=
  if (decodeBit request =? 0) && own then pulse bit else [].

(** *** Handshake discipline *)

(** In [evs] nothing is driven unless [own] holds and the latest pulse
    received before it was a handshake request. *)
Definition requested (own : bool) (evs : list Event) : Prop :=
  forall pre l post,
    evs = pre ++ SetLevel l :: post ->
    own = true /\
    exists mid w tl,
      pre = mid ++ RxPulse w :: tl /\ decodeBit w = 0 /\
      Forall (fun e => isRx e = false) tl.

(** A field block of [readMessage] from its first bit on: [upd] stores the
    received value in the message, [chk] is the stored value as it is handed
    to [checkParity], [k] is what follows. *)
Definition fieldBlock (m_address : Address) (numBits : Size)
    (upd : Data -> Message) (chk : Data -> Data)
    (k : Data -> M (option Message)) : M (option Message) :=
  v <- receiveBits numBits ;;
  parityBit <- receiveBit ;;
  answerField m_address (upd v) (checkParity (chk v) numBits parityBit) (k v).

(** What [readMessage] does once the master address has passed its check. *)
Definition afterMaster (m_address : Address) (message : Message) : M (option Message) :=
  fieldBlock m_address SLAVE_ADDRESS_BIT_SIZE (set_slave message) (fun v => v)
    (fun s =>
       fieldBlock m_address CONTROL_BIT_SIZE
         (fun c => set_control (set_slave message s) (to_u8 c)) to_u8
         (fun c =>
            fieldBlock m_address DATA_LENGTH_BIT_SIZE
              (set_dataLength (set_control (set_slave message s) (to_u8 c))) to_u16
              (fun l =>
                 let message :=
                   set_dataLength (set_control (set_slave message s) (to_u8 c)) l in
                 let message :=
                   if dataLength message =? 0 then set_dataLength message 256
                   else message in
                 readMessage_data m_address (Z.to_nat (dataLength message)) 0 message))).

(** [readMessage] up to the check of the master address, with what follows as
    [k]. *)
Definition readHeader (k : Message -> M (option Message)) : M (option Message) :=
  enabled <- isEnabled ;;
  if negb enabled then ret None else
  isStartBit <- receiveStartBit ;;
  if negb isStartBit then ret None else
  broadcastBit <- receiveBit ;;
  v <- receiveBits MASTER_ADDRESS_BIT_SIZE ;;
  masterParityBit <- receiveBit ;;
  if negb (checkParity v MASTER_ADDRESS_BIT_SIZE masterParityBit) then ret None
  else
    k (set_master
         (if broadcastBit =? 0 then set_broadcast emptyMessage BROADCAST
          else set_broadcast emptyMessage FOR_DEVICE) v).

(** What holds of a call whatever its outcome: it stays inside the payload
    array, it waits for ever only on a silent line, and it drives the line
    only when [own] holds and a handshake was requested. *)
Definition disciplined {A} (own : bool) (s : Bus) (o : Outcome A) : Prop :=
  (forall s', o <> Fault s') /\
  (forall s', o = Hang s' -> rxPulses s' = []) /\
  exists evs, logged s (final o) evs /\ requested own evs.

(** What the log must show before the transmit pin is driven during a read:
    the start bit, a broadcast bit that says [FOR_DEVICE], the master field
    and its parity bit, a slave field that decodes to the local address and
    its parity bit, and later a received pulse that asks for a handshake (it
    decodes to 0) with no other pulse received after it. *)
Definition handshakeOwed (m_address : Address) (pre : list Event) : Prop :=
  exists wS wB mws mp sws sp mid w tl,
    pre = map RxPulse (wS :: wB :: mws ++ mp :: sws ++ [sp]) ++
          mid ++ RxPulse w :: tl /\
    length mws = 12%nat /\ length sws = 12%nat /\
    decodeBit wB <> 0 /\ decoded sws = m_address /\
    decodeBit w = 0 /\ Forall (fun e => isRx e = false) tl.

(** The message as it stands once the master address is stored. *)
Definition masterMessage (wB : Time) (mws : list Time) : Message :=
  set_master
    (if decodeBit wB =? 0 then set_broadcast emptyMessage BROADCAST
     else set_broadcast emptyMessage FOR_DEVICE) (decoded mws).

(** *** Transmitted frames *)

(** What [writeMessage] does for a field with a handshake slot: the value,
    its parity bit, the wait for the handshake, and what follows ([k]) when
    the peer acknowledged. *)
Definition sendField (data : Data) (numBits : Size) (k : M bool) : M bool :=
  _ <- transmitBits data numBits ;;
  let parityBit := calculateParity data numBits in
  _ <- transmitBit parityBit ;;
  ackBit <- receiveAckBit ;;
  if AcknowledgmentType_eqb ackBit NAK then ret false else k.

(** The pin operations of a field: its bits, most significant first, and its
    parity bit. *)
Definition txField (v : Data) (n : nat) : list Event :=
  pulses (msbBits n v) ++ pulse (calculateParity v (Z.of_nat n)).

(** The pin operations up to the first handshake slot exclusive of the slave
    field: start bit, broadcast bit, master field. *)
Definition txHeader (message : Message) : list Event :=
  [SetLevel true; Delay START_BIT_HIGH_US; SetLevel false; Delay START_BIT_LOW_US] ++
  pulse (if BroadcastType_eqb (broadcast message) BROADCAST then 0 else 1) ++
  txField (master message) 12.

(** The fields that are followed by a handshake slot, in order: slave,
    control, length, and the payload bytes the array holds below
    [dataLength]. *)
Definition txFields (message : Message) : list (list Event) :=
  txField (slave message) 12 :: txField (control message) 4 ::
  txField (to_u16 (dataLength message)) 8 ::
  map (fun x => txField x 8) (take (Z.to_nat (dataLength message)) (data message)).

(** The write algorithm of the specification over the fields with a handshake
    slot: send a field, await the handshake, go on only when it is not
    Rejected. *)
Fixpoint txTrace (fields : list (list Event)) (acks : list Time) : list Event :=
  match fields with
  | [] => []
  | f :: fields' =>
      f ++
      match acks with
      | [] => []
      | a :: acks' =>
          RxPulse a :: (if decodeBit a =? 0 then txTrace fields' acks' else [])
      end
  end.

(** How that ends: [Some true] when every field was acknowledged,
    [Some false] at the first Rejected, [None] when the peer falls silent. *)
Fixpoint txResult (fields : list (list Event)) (acks : list Time) : option bool :=
  match fields with
  | [] => Some true
  | _ :: fields' =>
      match acks with
      | [] => None
      | a :: acks' => if decodeBit a =? 0 then txResult fields' acks' else Some false
      end
  end.

(** The log of the wait for a free bus, given the answers the bus holds. *)
Fixpoint pollEvents (answers : list bool) : list Event :=
  match answers with
  | [] => []
  | true :: _ => [BusSense true]
  | false :: rest => BusSense false :: Delay 1 :: pollEvents rest
  end.

(** The answers left once the bus has been seen free. *)
Fixpoint afterFree (answers : list bool) : list bool :=
  match answers with
  | [] => []
  | true :: rest => rest
  | false :: rest => afterFree rest
  end.

(** [writeMessage] from the start bit on. *)
Definition writeFrame (message : Message) : M bool :=
  _ <- transmitStartBit ;;
  _ <- (if BroadcastType_eqb (broadcast message) BROADCAST then transmitBit 0
        else transmitBit 1) ;;
  _ <- transmitBits (master message) 12 ;;
  let parityBit := calculateParity (master message) 12 in
  _ <- transmitBit parityBit ;;
  sendField (slave message) 12
    (sendField (control message) 4
       (sendField (to_u16 (dataLength message)) 8
          (writeMessage_data message (Z.to_nat (dataLength message)) 0))).

(** The run [o] of a sender from [s] follows [txTrace fields] over the pulses
    the peer sends, and ends as [txResult] says; when every field was
    acknowledged it returns, unless the payload array was too short
    ([inBounds] false), in which case it reads outside it. *)
Definition wrote (fields : list (list Event)) (inBounds : bool) (s : Bus)
    (o : Outcome bool) : Prop :=
  logged s (final o) (txTrace fields (rxPulses s)) /\
  match txResult fields (rxPulses s) with
  | None => exists s', o = Hang s'
  | Some false => exists s', o = Ret false s'
  | Some true =>
      if inBounds then exists s', o = Ret true s' else exists s', o = Fault s'
  end.

(** A message whose length exceeds the payload array, and a bus that is free
    and acknowledges 259 fields. *)
Definition overlongMessage : Message :=
  mkMessage FOR_DEVICE 0x456 0x123 2 257 (replicate 256 0).

Definition willingBus : Bus := mkBus true (replicate 259 33) [true] [].

(** *** Frames on the wire, for examples *)

(** The high-duration of a well-formed pulse for [bit]. *)
Definition pulseOf (bit : Bit) : Time :=
  if truthy bit then DATA_BIT_1_HIGH_US else DATA_BIT_0_HIGH_US.

(** The [n]-bit field with value [v], its parity bit, and [request] in the
    handshake slot. *)
Definition wireField (n : nat) (v : Data) (request : Bit) : RxField :=
  mkRxField (map pulseOf (msbBits n v))
    (pulseOf (calculateParity v (Z.of_nat n))) (pulseOf request).

(** Scenario 1 of the specification: a frame for device 0x123 from 0x456,
    control 2, one payload byte 0xAB. *)
Definition exampleFrame : RxFrame :=
  mkRxFrame START_BIT_HIGH_US (pulseOf 1)
    (map pulseOf (msbBits 12 0x456)) (pulseOf (calculateParity 0x456 12))
    (wireField 12 0x123 0) (wireField 4 2 0) (wireField 8 1 0)
    [wireField 8 0xAB 0].

Definition exampleBus : Bus := mkBus true (framePulses exampleFrame) [] [].

(** A frame whose length field is 0 on the wire, followed by 256 payload
    bytes 0, 1, ..., 255. *)
Definition longFrame : RxFrame :=
  mkRxFrame START_BIT_HIGH_US (pulseOf 1)
    (map pulseOf (msbBits 12 0x456)) (pulseOf (calculateParity 0x456 12))
    (wireField 12 0x123 0) (wireField 4 2 0) (wireField 8 0 0)
    (map (fun k => wireField 8 (Z.of_nat k) 0) (seq 0 256)).

Definition longBus : Bus := mkBus true (framePulses longFrame) [] [].

(** Scenario 2: as scenario 1 with the parity bit of the slave field flipped. *)
Definition corruptSlave : RxField :=
  mkRxField (map pulseOf (msbBits 12 0x123))
    (pulseOf (1 - calculateParity 0x123 12)) (pulseOf 0).

Definition corruptBus : Bus :=
  mkBus true
    (START_BIT_HIGH_US :: pulseOf 1 :: map pulseOf (msbBits 12 0x456) ++
     pulseOf (calculateParity 0x456 12) :: fieldPulses corruptSlave ++ [33])
    [] [].

(** Scenario 4: the message of scenario 1 written to a bus that becomes free
    at the second poll and whose peer rejects the control field. *)
Definition exampleMessage : Message :=
  mkMessage FOR_DEVICE 0x456 0x123 2 1 (0xAB :: replicate 255 0).

Definition rejectingBus : Bus := mkBus true [33; 20; 33; 33] [false; true] [].

(** Scenario 3: a message of 256 payload bytes. *)
Definition fullMessage : Message :=
  mkMessage FOR_DEVICE 0x456 0x123 2 256 (replicate 256 0).

(** *** The line between two nodes *)

(** The pulses on an ideal line that the log of one node accounts for, in
    order: those the node measured and those it drove itself.  The transmit
    pin is at [level] and has been high for [acc] microseconds. *)
Fixpoint lineHistory (level : bool) (acc : Time) (evs : list Event) : list Time :=
  match evs with
  | [] => []
  | RxPulse w :: rest => w :: lineHistory level acc rest
  | SetLevel true :: rest =>
      if level then lineHistory true acc rest else lineHistory true 0 rest
  | SetLevel false :: rest =>
      if level then acc :: lineHistory false 0 rest
      else lineHistory false 0 rest
  | Delay us :: rest =>
      lineHistory level (if level then acc + us else acc) rest
  | BusSense _ :: rest => lineHistory level acc rest
  end.

(** The level the transmit pin is left at after [evs], starting from [level]. *)
Fixpoint lineLevel (level : bool) (evs : list Event) : bool :=
  match evs with
  | [] => level
  | SetLevel l :: rest => lineLevel l rest
  | _ :: rest => lineLevel level rest
  end.

(** The time spent in [delayUs] over [evs]. *)
Fixpoint delayTotal (evs : list Event) : Z :=
  match evs with
  | [] => 0
  | Delay us :: rest => us + delayTotal rest
  | _ :: rest => delayTotal rest
  end.

(** Logs made of measured pulses and transmitted Acknowledged bits only. *)
Inductive ackTrace : list Event -> Prop :=
| ackTrace_nil : ackTrace []
| ackTrace_rx (w : Time) (evs : list Event) :
    ackTrace evs -> ackTrace (RxPulse w :: evs)
| ackTrace_ack (evs : list Event) :
    ackTrace evs -> ackTrace (pulse 0 ++ evs).

(** What a read adds to the log: measured pulses and Acknowledged bits, and,
    only when it ends with no message, one Rejected bit in last place. *)
Definition readerRun (o : Outcome (option Message)) (evs : list Event) : Prop :=
  ackTrace evs \/
  exists s' pre, o = Ret None s' /\ evs = pre ++ pulse 1 /\ ackTrace pre.

(** The frame a reader sees when [message] is written and the handshake
    slots carry the pulses [acks]. *)
Definition sentField (n : nat) (v : Data) (ack : Time) : RxField :=
  mkRxField (map pulseOf (msbBits n v)) (pulseOf (calculateParity v (Z.of_nat n))) ack.

Definition sentFrame (message : Message) (a1 a2 a3 : Time) (acks : list Time) : RxFrame :=
  mkRxFrame START_BIT_HIGH_US
    (pulseOf (if BroadcastType_eqb (broadcast message) BROADCAST then 0 else 1))
    (map pulseOf (msbBits 12 (master message)))
    (pulseOf (calculateParity (master message) 12))
    (sentField 12 (slave message) a1)
    (sentField 4 (control message) a2)
    (sentField 8 (to_u16 (dataLength message)) a3)
    (zip_with (fun x a => sentField 8 x a)
       (take (Z.to_nat (dataLength message)) (data message)) acks).

(** [message] with the payload entries from [dataLength] on cleared. *)
Definition clearedMessage (message : Message) : Message :=
  set_data message
    (take (Z.to_nat (dataLength message)) (data message) ++
     replicate (Z.to_nat MAX_MESSAGE_SIZE - Z.to_nat (dataLength message)) 0).

(** The fields of [message] fit their wire widths and its payload array has
    the 256 byte entries of the C++ type. *)
Definition wireMessage (message : Message) : Prop :=
  0 <= master message < 4096 /\ 0 <= slave message < 4096 /\
  0 <= control message < 16 /\ 1 <= dataLength message <= 256 /\
  length (data message) = 256%nat /\
  Forall (fun x => 0 <= x < 256) (data message).

(** The run [o] of a read from [s] added to the log what [readerRun] allows. *)
Definition traced (s : Bus) (o : Outcome (option Message)) : Prop :=
  exists evs, logged s (final o) evs /\ readerRun o evs.

(** [f'] is [f] with one of its value pulses, or its parity pulse, replaced
    by a pulse that decodes to the other symbol. *)
Definition flipped (f f' : RxField) : Prop :=
  requestPulse f' = requestPulse f /\
  ((exists i w w',
      valuePulses f !! i = Some w /\ decodeBit w' <> decodeBit w /\
      valuePulses f' = <[i := w']> (valuePulses f) /\
      parityPulse f' = parityPulse f) \/
   (valuePulses f' = valuePulses f /\
    decodeBit (parityPulse f') <> decodeBit (parityPulse f))).

(** [message] with its addresses cut to 12 bits and its control to 4. *)
Definition onWire (message : Message) : Message :=
  mkMessage (broadcast message) (master message mod 2 ^ 12)
    (slave message mod 2 ^ 12) (control message mod 2 ^ 4)
    (dataLength message) (data message).

(** * The receive pin, sample by sample *)

(** [measureHigh] and [isBusFree] above stand for loops of Driver.cpp over
    single samples of the receive pin and readings of the clock.  This module
    has those loops as they are written.  [Time] differences are taken in
    [Z]: clock readings are microseconds since boot, far from the bounds of
    a signed 64-bit integer. *)
Module Pins.

(** What the driver will be told: [levels] are the results of the following
    calls of [gpio_get_level] on the receive pin, [clock] those of the
    following calls of [getTimeUs]. *)
Record Line := mkLine {
  levels : list bool;
  clock : list Time
}.

Inductive Sampled (A : Type) :=
| Got (a : A) (p : Line)   (* the call returned [a] *)
| Starved (p : Line).      (* the call asked for a sample or a reading that [p] does not hold *)
Arguments Got {A} a p.
Arguments Starved {A} p.

Definition Sampler (A : Type) : Type := Line -> Sampled A.

Definition ret {A} (a : A) : Sampler A := fun p => Got a p.

Definition bind {A B} (m : Sampler A) (k : A -> Sampler B) : Sampler B :=
  fun p =>
    match m p with
    | Got a p' => k a p'
    | Starved p' => Starved p'
    end.

Notation "x <~ m ;; k" := (bind m (fun x => k))
  (at level 100, m at next level, k at level 200, right associativity).

Definition starved {A} : Sampler A := fun p => Starved p.

Definition gpio_get_level : Sampler bool :=
  fun p =>
    match levels p with
    | [] => Starved p
    | l :: rest => Got l (mkLine rest (clock p))
    end.

Definition getTimeUs : Sampler Time :=
  fun p =>
    match clock p with
    | [] => Starved p
    | t :: rest => Got t (mkLine (levels p) rest)
    end.

Definition isBusHigh : Sampler bool := gpio_get_level.

Definition isBusLow : Sampler bool :=
  high <~ isBusHigh ;;
  ret (negb high).

(** [while (isBusHigh()) {}]: every iteration takes a sample, so [fuel]
    above the number of samples is never used up. *)
Fixpoint waitBusLow_loop (fuel : nat) : Sampler unit :=
  match fuel with
  | O => starved
  | S fuel' =>
      high <~ isBusHigh ;;
      if high then waitBusLow_loop fuel' else ret tt
  end.

Definition waitBusLow : Sampler unit :=
  fun p => waitBusLow_loop (S (length (levels p))) p.

(** [while (isBusLow()) {}]. *)
Fixpoint waitBusHigh_loop (fuel : nat) : Sampler unit :=
  match fuel with
  | O => starved
  | S fuel' =>
      low <~ isBusLow ;;
      if low then waitBusHigh_loop fuel' else ret tt
  end.

Definition waitBusHigh : Sampler unit :=
  fun p => waitBusHigh_loop (S (length (levels p))) p.

(** The loop of [Driver::isBusFree]. *)
Fixpoint isBusFree_loop (fuel : nat) (startTime : Time) : Sampler bool :=
  match fuel with
  | O => starved
  | S fuel' =>
      low <~ isBusLow ;;
      if low then
        currentTime <~ getTimeUs ;;
        let timeDifference := currentTime - startTime in
        if timeDifference >=? DATA_BIT_TOTAL_US then ret true
        else isBusFree_loop fuel' startTime
      else ret false
  end.

Definition isBusFree : Sampler bool :=
  high <~ isBusHigh ;;
  if high then ret false else
  startTime <~ getTimeUs ;;
  fun p => isBusFree_loop (S (length (levels p))) startTime p.

Definition receiveStartBit : Sampler bool :=
  let startBitMinHighUs := START_BIT_HIGH_US - START_BIT_THRESHOLD_US in
  let startBitMaxHighUs := START_BIT_HIGH_US + START_BIT_THRESHOLD_US in
  _ <~ waitBusHigh ;;
  startTime <~ getTimeUs ;;
  _ <~ waitBusLow ;;
  stopTime <~ getTimeUs ;;
  let highDuration := stopTime - startTime in
  let isStartBit :=
    (startBitMinHighUs <=? highDuration) && (highDuration <=? startBitMaxHighUs) in
  ret isStartBit.

Definition receiveBit : Sampler Bit :=
  _ <~ waitBusHigh ;;
  startTime <~ getTimeUs ;;
  _ <~ waitBusLow ;;
  stopTime <~ getTimeUs ;;
  let highDuration := stopTime - startTime in
  let bit := decodeBit highDuration in
  ret bit.

(** One pulse as the samples show it: [i] low samples, then [S j] high
    samples, then a low one; the clock is read at the first high sample
    ([t0]) and at the closing low sample ([t1]). *)
Definition pulseSamples (i j : nat) (rest : list bool) : list bool :=
  replicate i false ++ replicate (S j) true ++ false :: rest.

End Pins.

(** * Message.cpp: the text form of a message *)

(** Text is a list of characters, [result += s] is [result ++ s]. *)
Module Text.

Import Ascii.
Local Open Scope char_scope.

Definition formatBroadcastType (type : BroadcastType) : list ascii :=
  match type with
  | BROADCAST => ["B"]
  | FOR_DEVICE => ["D"]
  end.

Definition upperDigit (d : Z) : ascii :=
  match d with
  | 0 => "0" | 1 => "1" | 2 => "2" | 3 => "3" | 4 => "4" | 5 => "5" | 6 => "6"
  | 7 => "7" | 8 => "8" | 9 => "9" | 10 => "A" | 11 => "B" | 12 => "C"
  | 13 => "D" | 14 => "E" | _ => "F"
  end.

Definition lowerDigit (d : Z) : ascii :=
  match d with
  | 0 => "0" | 1 => "1" | 2 => "2" | 3 => "3" | 4 => "4" | 5 => "5" | 6 => "6"
  | 7 => "7" | 8 => "8" | 9 => "9" | 10 => "a" | 11 => "b" | 12 => "c"
  | 13 => "d" | 14 => "e" | _ => "f"
  end.

(** [std::format("{:02X}", byte)] for a [std::uint8_t]: its two hexadecimal
    digits in upper case, the first one 0 for a byte below 16. *)
Definition formatUpper02 (byte : Byte) : list ascii :=
  [upperDigit (byte / 16); upperDigit (byte mod 16)].

(** [{:#04x}] for a [std::uint8_t]: the prefix and two digits in lower
    case. *)
Definition formatLower04 (v : Z) : list ascii :=
  ["0"; "x"; lowerDigit (v / 16); lowerDigit (v mod 16)].

(** [{:#06x}] for a [std::uint16_t]: the prefix and four digits in lower
    case. *)
Definition formatLower06 (v : Z) : list ascii :=
  ["0"; "x"; lowerDigit (v / 4096); lowerDigit (v / 256 mod 16);
   lowerDigit (v / 16 mod 16); lowerDigit (v mod 16)].

(** [{}] for a [Size]: its decimal digits, without leading zeros; [fuel]
    bounds the number of digits. *)
Fixpoint formatDecimal_digits (fuel : nat) (v : Z) : list ascii :=
  match fuel with
  | O => []
  | S fuel' =>
      (if (v <? 10)%Z then [] else formatDecimal_digits fuel' (v / 10)) ++
      [upperDigit (v mod 10)]
  end.

Definition formatDecimal (v : Size) : list ascii :=
  formatDecimal_digits (S (Z.to_nat (Z.log2 v))) v.

(** The loop of [formatBytesHex]; [n] iterations remain. *)
Fixpoint formatBytesHex_loop (bytes : list Byte) (count : Size) (n : nat)
    (i : Size) (result : list ascii) : list ascii :=
  match n with
  | O => result
  | S n' =>
      let result :=
        result ++
        formatUpper02 (match bytes !! Z.to_nat i with Some x => x | None => 0 end) in
      let result := if (i <? count - 1)%Z then result ++ [" "] else result in
      formatBytesHex_loop bytes count n' (i + 1) result
  end.

Definition formatBytesHex (bytes : list Byte) : list ascii :=
  let count := Z.of_nat (length bytes) in
  formatBytesHex_loop bytes count (length bytes) 0 [].

(** ["{} M{:#06x} S{:#06x} C{:#04x} L{} [{}]"]. *)
Definition toString (message : Message) : list ascii :=
  formatBroadcastType (broadcast message) ++
  [" "; "M"] ++ formatLower06 (master message) ++
  [" "; "S"] ++ formatLower06 (slave message) ++
  [" "; "C"] ++ formatLower04 (control message) ++
  [" "; "L"] ++ formatDecimal (dataLength message) ++
  [" "; "["] ++ formatBytesHex (data message) ++ ["]"].

(** The bytes as two digits each, with one space between neighbours. *)
Fixpoint hexDump (bytes : list Byte) : list ascii :=
  match bytes with
  | [] => []
  | x :: rest =>
      formatUpper02 x ++
      match rest with
      | [] => []
      | _ :: _ => " " :: hexDump rest
      end
  end.

End Text.

(** The values a [Message] can hold: 16-bit addresses, an 8-bit control, an
    unsigned length and 256 bytes. *)
Definition storedMessage (message : Message) : Prop :=
  0 <= master message < 2 ^ 16 /\ 0 <= slave message < 2 ^ 16 /\
  0 <= control message < 2 ^ 8 /\ 0 <= dataLength message /\
  length (data message) = 256%nat /\
  Forall (fun x => 0 <= x < 256) (data message).

(** * Properties *)

(** Reduce the projections of a frame that is given by its constructor. *)
Ltac frame_projections :=
  cbn [startPulse broadcastPulse masterPulses masterParityPulse slaveField
       controlField lengthField dataFields].

Ltac frame_projections_everywhere :=
  cbn [startPulse broadcastPulse masterPulses masterParityPulse slaveField
       controlField lengthField dataFields] in *.

(** ** Parity *)

Lemma to_u8_bit (x : Z) : 0 <= x <= 1 -> to_u8 x = x.
Proof. intros H. unfold to_u8. apply Z.mod_small. lia. Qed.

Lemma land_1_b2z (x : Z) : Z.land x 1 = Z.b2z (Z.testbit x 0).
Proof.
  change 1 with (Z.ones 1). rewrite Z.land_ones by lia.
  rewrite Z.bit0_mod. reflexivity.
Qed.

Lemma shiftr_land_1 (x i : Z) :
  0 <= i -> Z.land (Z.shiftr x i) 1 = Z.b2z (Z.testbit x i).
Proof.
  intros Hi. rewrite land_1_b2z, Z.shiftr_spec by lia. f_equal.
Qed.

Lemma lxor_b2z (a c : bool) : Z.lxor (Z.b2z a) (Z.b2z c) = Z.b2z (xorb a c).
Proof. destruct a, c; reflexivity. Qed.

Lemma b2z_range (a : bool) : 0 <= Z.b2z a <= 1.
Proof. destruct a; simpl; lia. Qed.

(** The loop folds the bits at positions [i], ..., [i+n-1] into the
    accumulator. *)
Lemma calculateParity_loop_spec (v : Z) (n : nat) :
  forall (i : nat) (p : bool),
    calculateParity_loop v n (Z.of_nat i) (Z.b2z p) =
    Z.b2z (xorb p (xorb (xorBits (i + n) v) (xorBits i v))).
Proof.
  induction n as [|n IH]; intros i p; simpl.
  - rewrite Nat.add_0_r, xorb_nilpotent, xorb_false_r. reflexivity.
  - rewrite shiftr_land_1 by lia. rewrite lxor_b2z.
    rewrite to_u8_bit by apply b2z_range.
    replace (Z.of_nat i + 1) with (Z.of_nat (S i)) by lia.
    rewrite IH. f_equal.
    replace (S i + n)%nat with (i + S n)%nat by lia.
    simpl xorBits at 2.
    destruct p, (Z.testbit v (Z.of_nat i)), (xorBits (i + S n) v), (xorBits i v);
      reflexivity.
Qed.

Lemma calculateParity_xorBits (v : Z) (n : nat) :
  calculateParity v (Z.of_nat n) = Z.b2z (xorBits n v).
Proof.
  unfold calculateParity. rewrite Nat2Z.id.
  change (calculateParity_loop v n 0 0)
    with (calculateParity_loop v n (Z.of_nat 0) (Z.b2z false)).
  rewrite calculateParity_loop_spec. simpl.
  rewrite xorb_false_r. reflexivity.
Qed.

Lemma xorBits_flip (n : nat) (v : Z) (k : nat) :
  xorBits n (Z.lxor v (2 ^ Z.of_nat k)) =
  if (k <? n)%nat then negb (xorBits n v) else xorBits n v.
Proof.
  induction n as [|n IH]; simpl.
  - reflexivity.
  - rewrite IH, Z.lxor_spec, Z.pow2_bits_eqb by lia.
    destruct (Nat.ltb_spec k n), (Nat.ltb_spec k (S n)); try lia.
    + rewrite (proj2 (Z.eqb_neq _ _)) by lia.
      rewrite xorb_false_r. destruct (Z.testbit v _), (xorBits n v); reflexivity.
    + replace k with n by lia. rewrite Z.eqb_refl.
      destruct (Z.testbit v _), (xorBits n v); reflexivity.
    + rewrite (proj2 (Z.eqb_neq _ _)) by lia.
      rewrite xorb_false_r. reflexivity.
Qed.

(** C6: [calculateParity v n] is the exclusive-OR of the [n] low-order bits of
    [v]; the parity computed for a value always passes [checkParity], and
    after any one of the [n] bits of the value is flipped the check against
    the original parity bit fails.  Stated for every width and value of the
    model; the widths in use are 4, 8 and 12 and the values fit [Data]. *)
Theorem parity_round_trip (n k : nat) (v : Z) :
  (k < n)%nat ->
  calculateParity v (Z.of_nat n) = Z.b2z (xorBits n v) /\
  checkParity v (Z.of_nat n) (calculateParity v (Z.of_nat n)) = true /\
  checkParity (Z.lxor v (2 ^ Z.of_nat k)) (Z.of_nat n)
    (calculateParity v (Z.of_nat n)) = false.
Proof.
  intros Hk. split; [apply calculateParity_xorBits|]. split.
  - unfold checkParity. apply Z.eqb_refl.
  - unfold checkParity. rewrite !calculateParity_xorBits, xorBits_flip.
    apply Nat.ltb_lt in Hk. rewrite Hk.
    destruct (xorBits n v); reflexivity.
Qed.

Lemma parity_round_trip_witness :
  (3 < 8)%nat /\
  calculateParity 171 (Z.of_nat 8) = Z.b2z (xorBits 8 171) /\
  checkParity 171 (Z.of_nat 8) (calculateParity 171 (Z.of_nat 8)) = true /\
  checkParity (Z.lxor 171 (2 ^ Z.of_nat 3)) (Z.of_nat 8)
    (calculateParity 171 (Z.of_nat 8)) = false.
Proof. split; [lia | apply (parity_round_trip 8 3 171); lia]. Defined.

(** ** The monad *)

Lemma bind_Ret {A B} (m : M A) (k : A -> M B) (b b1 : Bus) (a : A) :
  m b = Ret a b1 -> bind m k b = k a b1.
Proof. intros E. unfold bind. rewrite E. reflexivity. Qed.

Lemma bind_Hang {A B} (m : M A) (k : A -> M B) (b b1 : Bus) :
  m b = Hang b1 -> bind m k b = Hang b1.
Proof. intros E. unfold bind. rewrite E. reflexivity. Qed.

Lemma consume_consume (ws1 ws2 r1 r2 : list Time) (b : Bus) :
  consume ws2 r2 (consume ws1 r1 b) = consume (ws1 ++ ws2) r2 b.
Proof.
  unfold consume; simpl. rewrite map_app, app_assoc. reflexivity.
Qed.

Lemma emit_emit (e1 e2 : list Event) (b : Bus) :
  emit e2 (emit e1 b) = emit (e1 ++ e2) b.
Proof. unfold emit; simpl. rewrite app_assoc. reflexivity. Qed.

Lemma emit_nil (b : Bus) : emit [] b = b.
Proof. destruct b; unfold emit; simpl. rewrite app_nil_r. reflexivity. Qed.

(** ** Single bits *)

Lemma decodeBit_threshold (w : Time) : decodeBit w = if w <=? 26 then 1 else 0.
Proof.
  unfold decodeBit, DATA_BIT_0_HIGH_US, DATA_BIT_1_HIGH_US.
  destruct (Z.ltb_spec (Z.abs (w - 20)) (Z.abs (w - 33)));
    destruct (Z.leb_spec w 26); lia.
Qed.

Lemma decodeBit_range (w : Time) : decodeBit w = 0 \/ decodeBit w = 1.
Proof. rewrite decodeBit_threshold. destruct (w <=? 26); auto. Qed.

Lemma receiveBit_run (b : Bus) :
  receiveBit b =
  match rxPulses b with
  | [] => Hang b
  | w :: rest => Ret (decodeBit w) (consume [w] rest b)
  end.
Proof.
  unfold receiveBit, bind, measureHigh. destruct (rxPulses b); reflexivity.
Qed.

Lemma receiveStartBit_run (b : Bus) :
  receiveStartBit b =
  match rxPulses b with
  | [] => Hang b
  | w :: rest => Ret ((151 <=? w) && (w <=? 191)) (consume [w] rest b)
  end.
Proof.
  unfold receiveStartBit, bind, measureHigh. destruct (rxPulses b); reflexivity.
Qed.

Lemma receiveAckBit_run (b : Bus) :
  receiveAckBit b =
  match rxPulses b with
  | [] => Hang b
  | w :: rest =>
      Ret (if decodeBit w =? 0 then ACK else NAK) (consume [w] rest b)
  end.
Proof.
  unfold receiveAckBit, bind. rewrite receiveBit_run.
  destruct (rxPulses b) as [|w rest]; [reflexivity|].
  destruct (decodeBit w =? 0); reflexivity.
Qed.

Lemma transmitBit_run (bit : Bit) (b : Bus) :
  transmitBit bit b = Ret tt (emit (pulse bit) b).
Proof.
  unfold transmitBit, bind, gpio_set_level, delayUs, record, emit, pulse; simpl.
  rewrite <- !app_assoc. reflexivity.
Qed.

Lemma sendAckBit_run (ack : AcknowledgmentType) (b : Bus) :
  sendAckBit ack b =
  Ret tt (emit (pulse (match ack with ACK => 0 | NAK => 1 end)) b).
Proof. destruct ack; unfold sendAckBit; simpl; apply transmitBit_run. Qed.

(** C8: the pulse that [receiveBit] measures is decoded to the symbol whose
    canonical high-duration (20 us for 1, 33 us for 0) is nearer in absolute
    distance, and to 0 when neither is nearer. *)
Theorem receiveBit_nearest (b : Bus) (w : Time) (rest : list Time) :
  rxPulses b = w :: rest ->
  exists bit b',
    receiveBit b = Ret bit b' /\ rxPulses b' = rest /\
    (bit = 1 <-> Z.abs (w - 20) < Z.abs (w - 33)) /\
    (bit = 0 <-> Z.abs (w - 33) <= Z.abs (w - 20)).
Proof.
  intros Hrx. exists (decodeBit w), (consume [w] rest b).
  rewrite receiveBit_run, Hrx. split; [reflexivity|]. split; [reflexivity|].
  unfold decodeBit, DATA_BIT_0_HIGH_US, DATA_BIT_1_HIGH_US.
  destruct (Z.ltb_spec (Z.abs (w - 20)) (Z.abs (w - 33))); split; split; lia.
Qed.

Lemma receiveBit_nearest_witness :
  rxPulses (mkBus true [26; 27] [] []) = 26 :: [27] /\
  exists bit b',
    receiveBit (mkBus true [26; 27] [] []) = Ret bit b' /\ rxPulses b' = [27] /\
    (bit = 1 <-> Z.abs (26 - 20) < Z.abs (26 - 33)) /\
    (bit = 0 <-> Z.abs (26 - 33) <= Z.abs (26 - 20)).
Proof.
  split; [reflexivity | apply (receiveBit_nearest _ 26 [27]); reflexivity].
Defined.

(** ** Bit fields *)

Lemma bitValue_range (bit : Bit) : 0 <= bitValue bit <= 1.
Proof. unfold bitValue. destruct (truthy bit); lia. Qed.

Lemma bitValue_b2z (x : bool) : bitValue (Z.b2z x) = Z.b2z x.
Proof. destruct x; reflexivity. Qed.

Lemma msbValue_range (bits : list Bit) :
  0 <= msbValue bits < 2 ^ Z.of_nat (length bits).
Proof.
  induction bits as [|bit rest IH]; simpl msbValue; simpl length.
  - simpl. lia.
  - pose proof (bitValue_range bit).
    rewrite Nat2Z.inj_succ, Z.pow_succ_r by lia. nia.
Qed.

Lemma decoded_range (ws : list Time) : 0 <= decoded ws < 2 ^ Z.of_nat (length ws).
Proof.
  unfold decoded. pose proof (msbValue_range (map decodeBit ws)) as H.
  rewrite length_map in H. exact H.
Qed.

Lemma lor_next_bit (q bv k : Z) :
  0 <= q -> 0 <= k -> 0 <= bv <= 1 ->
  Z.lor (q * 2 ^ (k + 1)) (Z.shiftl bv k) = (2 * q + bv) * 2 ^ k.
Proof.
  intros Hq Hk Hbv.
  replace (q * 2 ^ (k + 1)) with (Z.shiftl (2 * q) k)
    by (rewrite Z.shiftl_mul_pow2, Z.pow_add_r by lia; lia).
  rewrite <- Z.shiftl_lor, Z.shiftl_mul_pow2 by lia. f_equal.
  assert (bv = 0 \/ bv = 1) as [-> | ->] by lia.
  - rewrite Z.lor_0_r. lia.
  - destruct q as [|p|p]; [reflexivity|reflexivity|lia].
Qed.

(** With enough pulses on the line the loop returns the accumulated high part
    followed by the decoded bits. *)
Lemma receiveBits_loop_Ret (numBits : Size) (ws : list Time) :
  forall (i q : Z) (rest : list Time) (b : Bus),
    rxPulses b = ws ++ rest ->
    numBits - i = Z.of_nat (length ws) ->
    0 <= q -> (q + 1) * 2 ^ Z.of_nat (length ws) <= 2 ^ 16 ->
    receiveBits_loop numBits (length ws) i (q * 2 ^ Z.of_nat (length ws)) b =
    Ret (q * 2 ^ Z.of_nat (length ws) + decoded ws) (consume ws rest b).
Proof.
  induction ws as [|w ws IH]; intros i q rest b Hrx Hi Hq Hfit.
  - simpl. unfold ret, consume, decoded. simpl. rewrite app_nil_r.
    destruct b; simpl in *. subst. f_equal. lia.
  - simpl length in *. cbn [receiveBits_loop].
    rewrite Nat2Z.inj_succ in *. rewrite Z.pow_succ_r in * by lia.
    rewrite (bind_Ret _ _ b (consume [w] (ws ++ rest) b) (decodeBit w))
      by (rewrite receiveBit_run, Hrx; reflexivity).
    fold (bitValue (decodeBit w)).
    replace (numBits - 1 - i) with (Z.of_nat (length ws)) by lia.
    replace (q * (2 * 2 ^ Z.of_nat (length ws)))
      with (q * 2 ^ (Z.of_nat (length ws) + 1))
      by (rewrite Z.pow_add_r by lia; lia).
    pose proof (bitValue_range (decodeBit w)) as Hbv.
    rewrite lor_next_bit by lia.
    assert (0 < 2 ^ Z.of_nat (length ws)) as Hpos by (apply Z.pow_pos_nonneg; lia).
    unfold to_u16. rewrite Z.mod_small by nia.
    rewrite (IH (i + 1) (2 * q + bitValue (decodeBit w)) rest
               (consume [w] (ws ++ rest) b)); [|reflexivity|lia|lia|nia].
    rewrite consume_consume. f_equal.
    unfold decoded. simpl. rewrite length_map.
    fold (decoded ws). rewrite Z.pow_add_r by lia. lia.
Qed.

(** Without enough pulses the loop consumes what there is and waits. *)
Lemma receiveBits_loop_Hang (numBits : Size) (n : nat) :
  forall (i r : Z) (b : Bus),
    (length (rxPulses b) < n)%nat ->
    receiveBits_loop numBits n i r b = Hang (consume (rxPulses b) [] b).
Proof.
  induction n as [|n IH]; intros i r b Hlen; [lia|].
  cbn [receiveBits_loop]. unfold bind at 1. rewrite receiveBit_run.
  destruct (rxPulses b) as [|w rest] eqn:Hrx.
  - unfold consume. simpl. rewrite app_nil_r. destruct b; simpl in *.
    subst. reflexivity.
  - rewrite IH by (simpl in *; lia). rewrite consume_consume. reflexivity.
Qed.

Lemma receiveBits_Ret (n : nat) (ws rest : list Time) (b : Bus) :
  (n <= 16)%nat -> length ws = n -> rxPulses b = ws ++ rest ->
  receiveBits (Z.of_nat n) b = Ret (decoded ws) (consume ws rest b).
Proof.
  intros Hn Hlen Hrx. unfold receiveBits. rewrite Nat2Z.id. subst n.
  pose proof (receiveBits_loop_Ret (Z.of_nat (length ws)) ws 0 0 rest b Hrx) as H.
  simpl in H. apply H; [lia|lia|].
  rewrite Z.mul_1_l. apply Z.pow_le_mono_r; lia.
Qed.

Lemma receiveBits_Hang (n : nat) (b : Bus) :
  (length (rxPulses b) < n)%nat ->
  receiveBits (Z.of_nat n) b = Hang (consume (rxPulses b) [] b).
Proof.
  intros Hlen. unfold receiveBits. rewrite Nat2Z.id.
  apply receiveBits_loop_Hang. exact Hlen.
Qed.

(** The received bit [i] sits at position [n-1-i]. *)
Lemma msbValue_testbit (bits : list Bit) (i : nat) :
  (i < length bits)%nat ->
  Z.testbit (msbValue bits) (Z.of_nat (length bits - 1 - i)) =
  truthy (nth i bits 0).
Proof.
  revert i. induction bits as [|bit rest IH]; intros i Hi; simpl in Hi; [lia|].
  simpl msbValue. pose proof (msbValue_range rest) as Hr. simpl length.
  assert (0 < 2 ^ Z.of_nat (length rest)) as Hpos by (apply Z.pow_pos_nonneg; lia).
  destruct i as [|i]; simpl nth.
  - replace (Z.of_nat (S (length rest) - 1 - 0)) with (Z.of_nat (length rest)) by lia.
    apply Z.b2z_inj. rewrite Z.testbit_spec' by lia.
    rewrite Z.div_add_l, Z.div_small by lia.
    unfold bitValue. destruct (truthy bit); reflexivity.
  - replace (S (length rest) - 1 - S i)%nat with (length rest - 1 - i)%nat by lia.
    rewrite <- IH by lia.
    rewrite <- (Z.mod_pow2_bits_low _ (Z.of_nat (length rest))) by lia.
    f_equal. rewrite Z.add_comm, Z.mod_add, Z.mod_small by lia. reflexivity.
Qed.

Lemma msbBits_length (n : nat) (v : Z) : length (msbBits n v) = n.
Proof. induction n; simpl; auto. Qed.

Lemma msbBits_nth (n : nat) (v : Z) (i : nat) :
  (i < n)%nat -> nth i (msbBits n v) 0 = Z.b2z (Z.testbit v (Z.of_nat (n - 1 - i))).
Proof.
  revert i. induction n as [|n IH]; intros i Hi; [lia|].
  simpl msbBits. destruct i as [|i]; simpl nth.
  - replace (S n - 1 - 0)%nat with n by lia. reflexivity.
  - rewrite IH by lia. replace (S n - 1 - S i)%nat with (n - 1 - i)%nat by lia.
    reflexivity.
Qed.

Lemma msbValue_msbBits (n : nat) (v : Z) :
  msbValue (msbBits n v) = v mod 2 ^ Z.of_nat n.
Proof.
  induction n as [|n IH].
  - simpl. rewrite Z.mod_1_r. reflexivity.
  - simpl msbBits. simpl msbValue. rewrite msbBits_length, bitValue_b2z, IH.
    rewrite Nat2Z.inj_succ, Z.pow_succ_r by lia.
    rewrite Z.testbit_spec' by lia.
    assert (0 < 2 ^ Z.of_nat n) as Hpos by (apply Z.pow_pos_nonneg; lia).
    rewrite (Z.mul_comm 2), Z.rem_mul_r by lia. lia.
Qed.

Lemma transmitBits_loop_run (v : Data) (numBits : Size) (n : nat) :
  forall (i : Z) (b : Bus),
    numBits - i = Z.of_nat n ->
    transmitBits_loop v numBits n i b = Ret tt (emit (pulses (msbBits n v)) b).
Proof.
  induction n as [|n IH]; intros i b Hi.
  - simpl. unfold ret. rewrite emit_nil. reflexivity.
  - cbn [transmitBits_loop]. erewrite bind_Ret by apply transmitBit_run.
    rewrite IH by lia. rewrite emit_emit. repeat f_equal.
    simpl msbBits. unfold pulses. simpl. f_equal.
    replace (numBits - 1 - i) with (Z.of_nat n) by lia.
    rewrite shiftr_land_1 by lia. rewrite to_u8_bit by apply b2z_range.
    reflexivity.
Qed.

Lemma transmitBits_run (v : Data) (n : nat) (b : Bus) :
  transmitBits v (Z.of_nat n) b = Ret tt (emit (pulses (msbBits n v)) b).
Proof.
  unfold transmitBits. rewrite Nat2Z.id. apply transmitBits_loop_run. lia.
Qed.

(** On an ideal line every transmitted bit is measured as its own high
    duration, and decodes to itself. *)
Lemma highDurations_pulses (bits : list Bit) :
  map decodeBit (highDurations false 0 (pulses bits)) = map bitValue bits.
Proof.
  induction bits as [|bit rest IH]; [reflexivity|].
  unfold pulses in *. simpl. rewrite IH. f_equal.
  unfold bitValue. destruct (truthy bit); reflexivity.
Qed.

Lemma highDurations_pulses_length (bits : list Bit) :
  length (highDurations false 0 (pulses bits)) = length bits.
Proof.
  induction bits as [|bit rest IH]; [reflexivity|].
  unfold pulses in *. simpl. rewrite IH. reflexivity.
Qed.

Lemma msbValue_bitValue (bits : list Bit) :
  msbValue (map bitValue bits) = msbValue bits.
Proof.
  induction bits as [|bit rest IH]; [reflexivity|].
  simpl. rewrite length_map, IH. f_equal. f_equal.
  unfold bitValue at 1. unfold bitValue. destruct (truthy bit); reflexivity.
Qed.

Lemma decoded_testbit (ws : list Time) (i : nat) (w : Time) :
  ws !! i = Some w ->
  Z.testbit (decoded ws) (Z.of_nat (length ws - 1 - i)) = truthy (decodeBit w).
Proof.
  intros Hw. unfold decoded.
  assert (i < length ws)%nat as Hi by (eapply lookup_lt_Some; eauto).
  pose proof (msbValue_testbit (map decodeBit ws) i) as H.
  rewrite length_map in H. rewrite H by lia. f_equal.
  apply nth_lookup_Some. change (map decodeBit ws) with (decodeBit <$> ws).
  rewrite list_lookup_fmap, Hw. reflexivity.
Qed.

(** C7: [receiveBits n] puts the [i]-th received bit at position [n-1-i];
    [transmitBits v n] sends the bits of [v] from position [n-1] down to 0;
    and the pulses it sends, measured on an ideal line and fed to
    [receiveBits n], give [v] back.  Stated for every width up to the 16 bits
    of [Data], so for 1, 4, 8 and 12. *)
Theorem bit_field_round_trip (n : nat) (v : Data) (b : Bus) :
  (n <= 16)%nat -> 0 <= v < 2 ^ Z.of_nat n ->
  (forall ws rest, length ws = n -> rxPulses b = ws ++ rest ->
     exists r,
       receiveBits (Z.of_nat n) b = Ret r (consume ws rest b) /\
       forall i w, ws !! i = Some w ->
         Z.testbit r (Z.of_nat (n - 1 - i)) = truthy (decodeBit w)) /\
  (exists bits,
     transmitBits v (Z.of_nat n) b = Ret tt (emit (pulses bits) b) /\
     length bits = n /\
     (forall i, (i < n)%nat ->
        nth i bits 0 = Z.b2z (Z.testbit v (Z.of_nat (n - 1 - i)))) /\
     forall b2 rest,
       rxPulses b2 = highDurations false 0 (pulses bits) ++ rest ->
       exists b2', receiveBits (Z.of_nat n) b2 = Ret v b2' /\ rxPulses b2' = rest).
Proof.
  intros Hn Hv. split.
  - intros ws rest Hlen Hrx. exists (decoded ws). split.
    + apply receiveBits_Ret; assumption.
    + intros i w Hw. subst n. apply decoded_testbit. exact Hw.
  - exists (msbBits n v). split; [apply transmitBits_run|].
    split; [apply msbBits_length|]. split; [intros i Hi; apply msbBits_nth; exact Hi|].
    intros b2 rest Hrx.
    exists (consume (highDurations false 0 (pulses (msbBits n v))) rest b2).
    split; [|reflexivity].
    rewrite (receiveBits_Ret n (highDurations false 0 (pulses (msbBits n v)))
               rest b2 Hn); [| |exact Hrx].
    + f_equal. unfold decoded.
      rewrite highDurations_pulses, msbValue_bitValue, msbValue_msbBits.
      apply Z.mod_small. exact Hv.
    + rewrite highDurations_pulses_length. apply msbBits_length.
Qed.

Lemma bit_field_round_trip_witness :
  (8 <= 16)%nat /\ 0 <= 171 < 2 ^ Z.of_nat 8 /\
  exists bits,
    transmitBits 171 (Z.of_nat 8) (mkBus true [] [] []) =
      Ret tt (emit (pulses bits) (mkBus true [] [] [])) /\
    forall b2 rest,
      rxPulses b2 = highDurations false 0 (pulses bits) ++ rest ->
      exists b2', receiveBits (Z.of_nat 8) b2 = Ret 171 b2' /\ rxPulses b2' = rest.
Proof.
  split; [lia|]. split; [simpl; lia|].
  destruct (bit_field_round_trip 8 171 (mkBus true [] [] [])) as [_ H];
    [lia | simpl; lia |].
  destruct H as (bits & Htx & _ & _ & Hrt). exists bits. split; assumption.
Defined.

(** ** The field blocks of [readMessage] *)

Lemma readMessage_unfold (A : Address) :
  readMessage A = readHeader (afterMaster A).
Proof. reflexivity. Qed.

Lemma bind_ext {A B} (m : M A) (k1 k2 : A -> M B) (s : Bus) :
  (forall a s1, m s = Ret a s1 -> k1 a s1 = k2 a s1) ->
  bind m k1 s = bind m k2 s.
Proof. intros H. unfold bind. destruct (m s); auto. Qed.

Lemma answerField_run (A : Address) (m : Message) (valid : bool)
    (k : M (option Message)) (s : Bus) :
  answerField A m valid k s =
  match rxPulses s with
  | [] => Hang s
  | a :: rest =>
      let s1 := emit (answer (addressed A m) a (if valid then 0 else 1))
                     (consume [a] rest s) in
      if valid then k s1 else Ret None s1
  end.
Proof.
  unfold answerField. unfold bind at 1. rewrite receiveAckBit_run.
  destruct (rxPulses s) as [|a rest]; [reflexivity|].
  unfold answer, addressed. cbv zeta.
  destruct (decodeBit a =? 0), (BroadcastType_eqb (broadcast m) FOR_DEVICE),
    (slave m =? A), valid; simpl;
    unfold bind, ret; rewrite ?sendAckBit_run, ?emit_nil; reflexivity.
Qed.

(** The payload loop, one iteration unrolled, is a field block as long as the
    index is inside the array. *)
Lemma readMessage_data_S (A : Address) (n : nat) (i : Size) (m : Message) (s : Bus) :
  (Z.to_nat i < length (data m))%nat ->
  readMessage_data A (S n) i m s =
  fieldBlock A DATA_BIT_SIZE
    (fun v => set_data m (<[Z.to_nat i := to_u8 v]> (data m))) to_u8
    (fun v => readMessage_data A n (i + 1)
                (set_data m (<[Z.to_nat i := to_u8 v]> (data m)))) s.
Proof.
  intros Hi. cbn [readMessage_data]. unfold fieldBlock.
  apply bind_ext. intros v s1 _.
  unfold bind at 1. unfold arraySet.
  apply Nat.ltb_lt in Hi. rewrite Hi.
  apply bind_ext. intros p s2 _.
  unfold bind at 1. unfold arrayGet. simpl data.
  rewrite list_lookup_insert_eq by (apply Nat.ltb_lt; exact Hi).
  reflexivity.
Qed.

Lemma fieldPulses_length (f : RxField) :
  length (fieldPulses f) = (length (valuePulses f) + 2)%nat.
Proof. unfold fieldPulses. rewrite length_app. reflexivity. Qed.

(** A field block on a line that carries the whole field. *)
Lemma fieldBlock_run (A : Address) (numBits : Size) (upd : Data -> Message)
    (chk : Data -> Data) (k : Data -> M (option Message))
    (f : RxField) (rest : list Time) (s : Bus) :
  0 <= numBits <= 16 ->
  length (valuePulses f) = Z.to_nat numBits ->
  rxPulses s = fieldPulses f ++ rest ->
  fieldBlock A numBits upd chk k s =
  let v := fieldValue f in
  let valid := checkParity (chk v) numBits (decodeBit (parityPulse f)) in
  let s1 := emit (answer (addressed A (upd v)) (requestPulse f) (if valid then 0 else 1))
                 (consume (fieldPulses f) rest s) in
  if valid then k v s1 else Ret None s1.
Proof.
  intros Hn Hlen Hrx. unfold fieldBlock, fieldPulses in *.
  rewrite <- app_assoc in Hrx.
  rewrite (bind_Ret _ _ s (consume (valuePulses f) ([parityPulse f; requestPulse f] ++ rest) s)
             (fieldValue f)).
  2:{ rewrite <- (Z2Nat.id numBits) by lia.
      apply receiveBits_Ret; [lia|exact Hlen|exact Hrx]. }
  rewrite (bind_Ret _ _ _ (consume [parityPulse f] (requestPulse f :: rest)
             (consume (valuePulses f) ([parityPulse f; requestPulse f] ++ rest) s))
             (decodeBit (parityPulse f)))
    by (rewrite receiveBit_run; reflexivity).
  rewrite answerField_run. cbn [rxPulses consume].
  rewrite !consume_consume, <- ?app_assoc. reflexivity.
Qed.

(** A field block on a line that falls silent inside the field. *)
Lemma fieldBlock_Hang (A : Address) (numBits : Size) (upd : Data -> Message)
    (chk : Data -> Data) (k : Data -> M (option Message)) (s : Bus) :
  0 <= numBits <= 16 ->
  (length (rxPulses s) < Z.to_nat numBits + 2)%nat ->
  fieldBlock A numBits upd chk k s = Hang (consume (rxPulses s) [] s).
Proof.
  intros Hn Hlen. unfold fieldBlock.
  destruct (Nat.lt_ge_cases (length (rxPulses s)) (Z.to_nat numBits)) as [Hlt|Hge].
  - apply bind_Hang. rewrite <- (Z2Nat.id numBits) at 1 by lia.
    apply receiveBits_Hang. exact Hlt.
  - pose proof (take_drop (Z.to_nat numBits) (rxPulses s)) as Hsplit.
    assert (length (take (Z.to_nat numBits) (rxPulses s)) = Z.to_nat numBits) as Htake
      by (rewrite length_take; lia).
    pose proof (length_drop (rxPulses s) (Z.to_nat numBits)) as Hdrop.
    set (ws := take (Z.to_nat numBits) (rxPulses s)) in *.
    destruct (drop (Z.to_nat numBits) (rxPulses s)) as [|p [|a rest]] eqn:Hd;
      simpl in Hdrop; [| |lia].
    + rewrite app_nil_r in Hsplit.
      rewrite (bind_Ret _ _ s (consume ws [] s) (decoded ws)).
      2:{ rewrite <- (Z2Nat.id numBits) by lia.
          apply receiveBits_Ret; [lia|exact Htake|]. rewrite app_nil_r. auto. }
      apply bind_Hang. rewrite receiveBit_run. simpl. rewrite Hsplit. reflexivity.
    + rewrite (bind_Ret _ _ s (consume ws [p] s) (decoded ws)).
      2:{ rewrite <- (Z2Nat.id numBits) by lia.
          apply receiveBits_Ret; [lia|exact Htake|auto]. }
      rewrite (bind_Ret _ _ _ (consume [p] [] (consume ws [p] s)) (decodeBit p))
        by (rewrite receiveBit_run; reflexivity).
      rewrite answerField_run. simpl rxPulses.
      rewrite consume_consume, Hsplit. reflexivity.
Qed.

Lemma fieldBlock_cases (A : Address) (numBits : Size) (upd : Data -> Message)
    (chk : Data -> Data) (k : Data -> M (option Message)) (s : Bus) :
  0 <= numBits <= 16 ->
  fieldBlock A numBits upd chk k s = Hang (consume (rxPulses s) [] s) \/
  exists f rest,
    length (valuePulses f) = Z.to_nat numBits /\
    rxPulses s = fieldPulses f ++ rest /\
    fieldBlock A numBits upd chk k s =
    let v := fieldValue f in
    let valid := checkParity (chk v) numBits (decodeBit (parityPulse f)) in
    let s1 := emit (answer (addressed A (upd v)) (requestPulse f) (if valid then 0 else 1))
                   (consume (fieldPulses f) rest s) in
    if valid then k v s1 else Ret None s1.
Proof.
  intros Hn.
  destruct (Nat.lt_ge_cases (length (rxPulses s)) (Z.to_nat numBits + 2)) as [Hlt|Hge].
  - left. apply fieldBlock_Hang; assumption.
  - right.
    pose proof (take_drop (Z.to_nat numBits) (rxPulses s)) as Hsplit.
    pose proof (length_drop (rxPulses s) (Z.to_nat numBits)) as Hdrop.
    destruct (drop (Z.to_nat numBits) (rxPulses s)) as [|p [|a rest]] eqn:Hd;
      simpl in Hdrop; [lia|lia|].
    exists (mkRxField (take (Z.to_nat numBits) (rxPulses s)) p a), rest.
    assert (length (take (Z.to_nat numBits) (rxPulses s)) = Z.to_nat numBits) as Htake
      by (rewrite length_take; lia).
    split; [exact Htake|].
    assert (rxPulses s =
            fieldPulses (mkRxField (take (Z.to_nat numBits) (rxPulses s)) p a) ++ rest)
      as Hrx.
    { unfold fieldPulses. simpl. rewrite <- app_assoc. symmetry. exact Hsplit. }
    split; [exact Hrx|].
    apply fieldBlock_run; [exact Hn|exact Htake|exact Hrx].
Qed.

(** ** Handshake discipline *)

Lemma app_eq_split {X} (t1 t2 pre post : list X) (x : X) :
  t1 ++ t2 = pre ++ x :: post ->
  (exists post1, t1 = pre ++ x :: post1 /\ post = post1 ++ t2) \/
  (exists pre2, pre = t1 ++ pre2 /\ t2 = pre2 ++ x :: post).
Proof.
  revert pre. induction t1 as [|y t1 IH]; intros pre H.
  - right. exists pre. split; [reflexivity|exact H].
  - destruct pre as [|z pre]; simpl in H.
    + injection H as -> H. left. exists t1. split; [reflexivity|].
      symmetry. exact H.
    + injection H as -> H. destruct (IH pre H) as [(p1 & -> & ->)|(p2 & -> & ->)].
      * left. exists p1. split; reflexivity.
      * right. exists p2. split; reflexivity.
Qed.

Lemma rx_no_drive (ws : list Time) (pre post : list Event) (l : bool) :
  map RxPulse ws <> pre ++ SetLevel l :: post.
Proof.
  intros H.
  assert (In (SetLevel l) (map RxPulse ws)) as Hin by (rewrite H; apply in_elt).
  apply in_map_iff in Hin. destruct Hin as (w & Hw & _). discriminate.
Qed.

Lemma requested_rx (own : bool) (ws : list Time) : requested own (map RxPulse ws).
Proof. intros pre l post H. exfalso. eapply rx_no_drive; eauto. Qed.

Lemma requested_nil (own : bool) : requested own [].
Proof. apply (requested_rx own []). Qed.

Lemma requested_app (own : bool) (t1 t2 : list Event) :
  requested own t1 -> requested own t2 -> requested own (t1 ++ t2).
Proof.
  intros H1 H2 pre l post H.
  destruct (app_eq_split _ _ _ _ _ H) as [(p1 & E & _)|(p2 & -> & E)].
  - exact (H1 _ _ _ E).
  - destruct (H2 _ _ _ E) as (Hown & mid & w & tl & -> & Hw & Htl).
    split; [exact Hown|]. exists (t1 ++ mid), w, tl.
    rewrite <- app_assoc. auto.
Qed.

Lemma requested_answer (own : bool) (a : Time) (bit : Bit) :
  requested own (RxPulse a :: answer own a bit).
Proof.
  unfold answer.
  destruct (decodeBit a =? 0) eqn:Ha, own; simpl;
    try apply (requested_rx _ [a]).
  apply Z.eqb_eq in Ha.
  intros pre l post H. split; [reflexivity|].
  destruct pre as [|e0 pre]; [discriminate|]. injection H as E0 H. subst e0.
  destruct pre as [|e1 pre].
  { exists [], a, []. auto. }
  injection H as E1 H. subst e1.
  destruct pre as [|e2 pre]; [discriminate|]. injection H as E2 H. subst e2.
  destruct pre as [|e3 pre].
  { exists [], a,
      [SetLevel true;
       Delay (if truthy bit then DATA_BIT_1_HIGH_US else DATA_BIT_0_HIGH_US)].
    repeat split; auto. }
  injection H as E3 H. subst e3.
  destruct pre as [|e4 pre]; [discriminate|]. injection H as E4 H. subst e4.
  destruct pre; discriminate.
Qed.

Lemma requested_field (own : bool) (f : RxField) (bit : Bit) :
  requested own (map RxPulse (fieldPulses f) ++ answer own (requestPulse f) bit).
Proof.
  unfold fieldPulses.
  replace (valuePulses f ++ [parityPulse f; requestPulse f])
    with ((valuePulses f ++ [parityPulse f]) ++ [requestPulse f])
    by (rewrite <- app_assoc; reflexivity).
  rewrite map_app, <- app_assoc. apply requested_app.
  - apply requested_rx.
  - apply requested_answer.
Qed.

Lemma disciplined_shift {A} (own : bool) (s s1 : Bus) (evs : list Event)
    (o : Outcome A) :
  logged s s1 evs -> requested own evs ->
  disciplined own s1 o -> disciplined own s o.
Proof.
  intros Hlog Hreq (HF & HH & evs' & Hlog' & Hreq').
  split; [exact HF|]. split; [exact HH|].
  exists (evs ++ evs'). split.
  - unfold logged in *. rewrite Hlog', Hlog, app_assoc. reflexivity.
  - apply requested_app; assumption.
Qed.

Lemma disciplined_Ret {A} (own : bool) (s : Bus) (a : A) :
  disciplined own s (Ret a s).
Proof.
  split; [discriminate|]. split; [discriminate|].
  exists []. split; [unfold logged; simpl; rewrite app_nil_r; reflexivity|].
  apply requested_nil.
Qed.

Lemma disciplined_Hang {A} (own : bool) (s : Bus) :
  rxPulses s = [] -> disciplined own s (@Hang A s).
Proof.
  intros Hrx. split; [discriminate|]. split; [intros s' [= <-]; exact Hrx|].
  exists []. split; [unfold logged; simpl; rewrite app_nil_r; reflexivity|].
  apply requested_nil.
Qed.

Lemma fieldValue_range (f : RxField) (numBits : Size) :
  0 <= numBits -> length (valuePulses f) = Z.to_nat numBits ->
  0 <= fieldValue f < 2 ^ numBits.
Proof.
  intros Hn Hlen. unfold fieldValue.
  pose proof (decoded_range (valuePulses f)) as H.
  rewrite Hlen, Z2Nat.id in H by lia. exact H.
Qed.

Lemma fieldBlock_disciplined (A : Address) (own : bool) (numBits : Size)
    (upd : Data -> Message) (chk : Data -> Data) (k : Data -> M (option Message))
    (s : Bus) :
  0 <= numBits <= 16 ->
  (forall v, addressed A (upd v) = own) ->
  (forall v s1, 0 <= v < 2 ^ numBits -> disciplined own s1 (k v s1)) ->
  disciplined own s (fieldBlock A numBits upd chk k s).
Proof.
  intros Hn Hown Hk.
  destruct (fieldBlock_cases A numBits upd chk k s Hn)
    as [E|(f & rest & Hlen & Hrx & E)]; rewrite E; clear E.
  - apply (disciplined_shift own s (consume (rxPulses s) [] s)
             (map RxPulse (rxPulses s))); [reflexivity|apply requested_rx|].
    apply disciplined_Hang. reflexivity.
  - cbv zeta. rewrite Hown.
    set (valid := checkParity _ _ _).
    set (s1 := emit _ _).
    apply (disciplined_shift own s s1
             (map RxPulse (fieldPulses f) ++
              answer own (requestPulse f) (if valid then 0 else 1))).
    + unfold logged, s1, emit, consume. simpl. rewrite app_assoc. reflexivity.
    + apply requested_field.
    + destruct valid; [|apply disciplined_Ret].
      apply Hk. apply fieldValue_range; [lia|exact Hlen].
Qed.

Lemma readMessage_data_disciplined (A : Address) (own : bool) (n : nat) :
  forall (i : Size) (m : Message) (s : Bus),
    addressed A m = own ->
    0 <= i -> (Z.to_nat i + n <= length (data m))%nat ->
    disciplined own s (readMessage_data A n i m s).
Proof.
  induction n as [|n IH]; intros i m s Hown Hi Hfit.
  - apply disciplined_Ret.
  - rewrite readMessage_data_S by lia.
    apply fieldBlock_disciplined; [unfold DATA_BIT_SIZE; lia|intros; exact Hown|].
    intros v s1 _. apply IH; [exact Hown|lia|].
    simpl data. rewrite length_insert. lia.
Qed.

(** After the slave address and its parity bit the rest of the read keeps
    the discipline. *)
Lemma afterSlave_disciplined (A : Address) (m : Message) (s : Bus) :
  length (data m) = 256%nat ->
  disciplined (addressed A m) s
    (fieldBlock A CONTROL_BIT_SIZE (fun c => set_control m (to_u8 c)) to_u8
       (fun c =>
          fieldBlock A DATA_LENGTH_BIT_SIZE
            (set_dataLength (set_control m (to_u8 c))) to_u16
            (fun l =>
               let message := set_dataLength (set_control m (to_u8 c)) l in
               let message :=
                 if dataLength message =? 0 then set_dataLength message 256
                 else message in
               readMessage_data A (Z.to_nat (dataLength message)) 0 message)) s).
Proof.
  intros Hdata.
  apply fieldBlock_disciplined; [unfold CONTROL_BIT_SIZE; lia|reflexivity|].
  intros c s1 _.
  apply fieldBlock_disciplined; [unfold DATA_LENGTH_BIT_SIZE; lia|reflexivity|].
  intros l s2 Hl. cbv zeta. unfold DATA_LENGTH_BIT_SIZE in Hl.
  apply readMessage_data_disciplined.
  - simpl dataLength. destruct (l =? 0); reflexivity.
  - lia.
  - simpl dataLength. destruct (Z.eqb_spec l 0); simpl; rewrite Hdata; lia.
Qed.

Lemma afterMaster_trace (A : Address) (m : Message) (s : Bus) :
  length (data m) = 256%nat ->
  (forall s', afterMaster A m s <> Fault s') /\
  (forall s', afterMaster A m s = Hang s' -> rxPulses s' = []) /\
  exists evs,
    logged s (final (afterMaster A m s)) evs /\
    ((exists ws, evs = map RxPulse ws) \/
     exists sws sp tail,
       evs = map RxPulse (sws ++ [sp]) ++ tail /\ length sws = 12%nat /\
       requested (addressed A (set_slave m (decoded sws))) tail).
Proof.
  intros Hdata. unfold afterMaster.
  match goal with
  | |- context [fieldBlock A SLAVE_ADDRESS_BIT_SIZE ?u ?c ?k s] =>
      destruct (fieldBlock_cases A SLAVE_ADDRESS_BIT_SIZE u c k s)
        as [E|(f & rest & Hlen & Hrx & E)];
        [unfold SLAVE_ADDRESS_BIT_SIZE; lia| |]; rewrite E; clear E
  end.
  - split; [discriminate|]. split; [intros s' [= <-]; reflexivity|].
    exists (map RxPulse (rxPulses s)). split; [reflexivity|]. left. eauto.
  - cbv zeta. set (own := addressed A (set_slave m (fieldValue f))).
    set (valid := checkParity _ _ _). set (s1 := emit _ _).
    assert (logged s s1 (map RxPulse (valuePulses f ++ [parityPulse f]) ++
                         RxPulse (requestPulse f) ::
                         answer own (requestPulse f) (if valid then 0 else 1)))
      as Hlog.
    { unfold logged, s1, emit, consume, fieldPulses. cbn [log].
      rewrite <- !app_assoc. f_equal.
      rewrite !map_app, <- !app_assoc. reflexivity. }
    assert (disciplined own s1
              (if valid
               then fieldBlock A CONTROL_BIT_SIZE
                      (fun c => set_control (set_slave m (fieldValue f)) (to_u8 c)) to_u8
                      (fun c =>
                         fieldBlock A DATA_LENGTH_BIT_SIZE
                           (set_dataLength
                              (set_control (set_slave m (fieldValue f)) (to_u8 c)))
                           to_u16
                           (fun l =>
                              let message :=
                                set_dataLength
                                  (set_control (set_slave m (fieldValue f)) (to_u8 c)) l in
                              let message :=
                                if dataLength message =? 0
                                then set_dataLength message 256 else message in
                              readMessage_data A (Z.to_nat (dataLength message)) 0
                                message)) s1
               else Ret None s1)) as (HF & HH & evs & Hlog' & Hreq).
    { destruct valid; [|apply disciplined_Ret].
      apply afterSlave_disciplined. exact Hdata. }
    split; [exact HF|]. split; [exact HH|].
    eexists. split.
    + unfold logged in *. rewrite Hlog', Hlog, <- app_assoc. reflexivity.
    + right. exists (valuePulses f), (parityPulse f). eexists.
      split; [rewrite <- app_assoc; reflexivity|]. split; [exact Hlen|].
      apply (requested_app own (RxPulse (requestPulse f) :: answer own _ _) evs);
        [apply requested_answer|exact Hreq].
Qed.

(** ** The header of a frame *)

Lemma receiveBits_cases (n : nat) (s : Bus) :
  (n <= 16)%nat ->
  receiveBits (Z.of_nat n) s = Hang (consume (rxPulses s) [] s) \/
  exists ws rest,
    length ws = n /\ rxPulses s = ws ++ rest /\
    receiveBits (Z.of_nat n) s = Ret (decoded ws) (consume ws rest s).
Proof.
  intros Hn.
  destruct (Nat.lt_ge_cases (length (rxPulses s)) n) as [Hlt|Hge].
  - left. apply receiveBits_Hang. exact Hlt.
  - right. exists (take n (rxPulses s)), (drop n (rxPulses s)).
    assert (length (take n (rxPulses s)) = n) as Htake by (rewrite length_take; lia).
    split; [exact Htake|]. split; [symmetry; apply take_drop|].
    apply receiveBits_Ret; [exact Hn|exact Htake|symmetry; apply take_drop].
Qed.

Lemma logged_refl (s : Bus) : logged s s [].
Proof. unfold logged. rewrite app_nil_r. reflexivity. Qed.

Lemma logged_consume (ws rest : list Time) (s : Bus) :
  logged s (consume ws rest s) (map RxPulse ws).
Proof. reflexivity. Qed.

Lemma checkParity_true (d : Data) (n : Size) (p : Bit) :
  checkParity d n p = true -> p = calculateParity d n.
Proof. unfold checkParity. intros H. apply Z.eqb_eq in H. auto. Qed.

Lemma bool_cases (c : bool) : c = true \/ c = false.
Proof. destruct c; auto. Qed.

Lemma negb_if_true {X} (a b : X) : (if negb true then a else b) = b.
Proof. reflexivity. Qed.

Lemma readHeader_cases (k : Message -> M (option Message)) (s : Bus) :
  (m_isEnabled s = false /\ readHeader k s = Ret None s) \/
  (m_isEnabled s = true /\
   exists ws s',
     logged s s' (map RxPulse ws) /\
     ((readHeader k s = Hang s' /\ rxPulses s' = []) \/
      readHeader k s = Ret None s')) \/
  (m_isEnabled s = true /\
   exists wS wB mws mp rest,
     rxPulses s = wS :: wB :: mws ++ mp :: rest /\
     isStartPulse wS /\ length mws = 12%nat /\
     decodeBit mp = calculateParity (decoded mws) 12 /\
     readHeader k s =
     k (masterMessage wB mws) (consume (wS :: wB :: mws ++ [mp]) rest s)).
Proof.
  remember (readHeader k s) as o eqn:Ho.
  unfold readHeader in Ho. unfold bind at 1, isEnabled in Ho.
  destruct (m_isEnabled s) eqn:En; [right|left; auto].
  rewrite negb_if_true in Ho.
  unfold bind at 1 in Ho. rewrite receiveStartBit_run in Ho.
  destruct (rxPulses s) as [|wS r1] eqn:Hrx.
  { left. split; [reflexivity|]. exists [], s. split; [apply logged_refl|]. left. auto. }
  destruct ((151 <=? wS) && (wS <=? 191)) eqn:Hst.
  2:{ left. split; [reflexivity|]. exists [wS], (consume [wS] r1 s).
      split; [apply logged_consume|]. right. exact Ho. }
  rewrite negb_if_true in Ho.
  unfold bind at 1 in Ho. rewrite receiveBit_run in Ho.
  change (rxPulses (consume [wS] r1 s)) with r1 in Ho.
  destruct r1 as [|wB r2].
  { left. split; [reflexivity|]. exists [wS], (consume [wS] [] s).
    split; [apply logged_consume|]. left. auto. }
  rewrite consume_consume in Ho. unfold bind at 1 in Ho.
  change MASTER_ADDRESS_BIT_SIZE with (Z.of_nat 12) in Ho.
  destruct (receiveBits_cases 12 (consume ([wS] ++ [wB]) r2 s))
    as [E|(mws & r3 & Hlen & Hr2 & E)]; [lia| |]; rewrite E in Ho; clear E.
  { left. split; [reflexivity|]. eexists _, _. rewrite consume_consume in Ho.
    split; [apply logged_consume|]. left. split; [exact Ho|reflexivity]. }
  change (rxPulses (consume ([wS] ++ [wB]) r2 s)) with r2 in Hr2. subst r2.
  rewrite consume_consume in Ho. unfold bind at 1 in Ho.
  rewrite receiveBit_run in Ho.
  change (rxPulses (consume (([wS] ++ [wB]) ++ mws) r3 s)) with r3 in Ho.
  destruct r3 as [|mp rest].
  { left. split; [reflexivity|]. eexists _, _.
    split; [apply logged_consume|]. left. split; [exact Ho|reflexivity]. }
  rewrite consume_consume in Ho.
  destruct (bool_cases (checkParity (decoded mws) (Z.of_nat 12) (decodeBit mp)))
    as [Hp|Hp]; rewrite Hp in Ho.
  2:{ left. split; [reflexivity|]. eexists _, _.
      split; [apply logged_consume|]. right. exact Ho. }
  rewrite negb_if_true in Ho.
  right. split; [reflexivity|]. exists wS, wB, mws, mp, rest.
  split; [reflexivity|]. split.
  { unfold isStartPulse. apply andb_true_iff in Hst. lia. }
  split; [exact Hlen|]. split; [apply checkParity_true in Hp; exact Hp|].
  exact Ho.
Qed.

Lemma masterMessage_data_length (wB : Time) (mws : list Time) :
  length (data (masterMessage wB mws)) = 256%nat.
Proof. unfold masterMessage. destruct (decodeBit wB =? 0); reflexivity. Qed.

Lemma addressed_slave (A : Address) (wB : Time) (mws sws : list Time) :
  addressed A (set_slave (masterMessage wB mws) (decoded sws)) = true ->
  decodeBit wB <> 0 /\ decoded sws = A.
Proof.
  unfold addressed, masterMessage. intros H.
  apply andb_true_iff in H. destruct H as [Hb Hs].
  destruct (Z.eqb_spec (decodeBit wB) 0) as [E|E]; [discriminate Hb|].
  split; [exact E|]. apply Z.eqb_eq. exact Hs.
Qed.

(** C1: whatever the line carries and however the read ends, the transmit pin
    is driven during [readMessage] only after the log shows a [FOR_DEVICE]
    broadcast bit, the master field, a slave field equal to the local address,
    and a later handshake request from the peer that is the latest pulse
    received.  So nothing is sent for a [BROADCAST] frame, for a frame to
    another address, or for the master field. *)
Theorem handshake_only_when_owed (m_address : Address) (b : Bus) :
  exists evs,
    logged b (final (readMessage m_address b)) evs /\
    forall pre level post,
      evs = pre ++ SetLevel level :: post -> handshakeOwed m_address pre.
Proof.
  rewrite readMessage_unfold.
  destruct (readHeader_cases (afterMaster m_address) b)
    as [[_ E]|[(_ & ws & s' & Hlog & E)|(_ & wS & wB & mws & mp & rest & Hrx & _ & Hlen & _ & E)]].
  - rewrite E. exists []. split; [apply logged_refl|].
    intros pre l post H. destruct pre; discriminate.
  - exists (map RxPulse ws). split.
    + destruct E as [[E _]|E]; rewrite E; exact Hlog.
    + intros pre l post H. exfalso. eapply rx_no_drive; eauto.
  - rewrite E.
    destruct (afterMaster_trace m_address (masterMessage wB mws)
                (consume (wS :: wB :: mws ++ [mp]) rest b)
                (masterMessage_data_length wB mws))
      as (_ & _ & evs & Hlog & Hevs).
    exists (map RxPulse (wS :: wB :: mws ++ [mp]) ++ evs). split.
    { unfold logged in *. rewrite Hlog. unfold consume. cbn [log].
      rewrite app_assoc. reflexivity. }
    intros pre l post H.
    destruct Hevs as [(ws & ->)|(sws & sp & tail & -> & Hslen & Hreq)].
    { exfalso. rewrite <- map_app in H. eapply rx_no_drive; eauto. }
    rewrite app_assoc, <- map_app in H.
    destruct (app_eq_split _ _ _ _ _ H) as [(p1 & E1 & _)|(p2 & -> & E2)].
    { exfalso. eapply rx_no_drive; eauto. }
    destruct (Hreq _ _ _ E2) as (Hown & mid & w & tl & -> & Hw & Htl).
    apply addressed_slave in Hown. destruct Hown as [HwB HA].
    exists wS, wB, mws, mp, sws, sp, mid, w, tl.
    split.
    { f_equal. f_equal. cbn [app]. rewrite <- app_assoc. reflexivity. }
    split; [exact Hlen|]. split; [exact Hslen|]. split; [exact HwB|].
    split; [exact HA|]. split; [exact Hw|exact Htl].
Qed.

Lemma handshake_only_when_owed_witness :
  exists pre post,
    log (final (readMessage 0x123 exampleBus)) = pre ++ SetLevel true :: post /\
    handshakeOwed 0x123 pre.
Proof.
  destruct (handshake_only_when_owed 0x123 exampleBus) as (evs & Hlog & H).
  unfold logged in Hlog. cbn [log exampleBus app] in Hlog.
  exists (map RxPulse (take 29 (framePulses exampleFrame))),
         (drop 30 (log (final (readMessage 0x123 exampleBus)))).
  assert (log (final (readMessage 0x123 exampleBus)) =
          map RxPulse (take 29 (framePulses exampleFrame)) ++
          SetLevel true :: drop 30 (log (final (readMessage 0x123 exampleBus))))
    as Hsplit by (vm_compute; reflexivity).
  split; [exact Hsplit|].
  apply (H _ true (drop 30 (log (final (readMessage 0x123 exampleBus))))).
  rewrite <- Hlog. exact Hsplit.
Defined.

(** ** Frames that are returned *)

Lemma to_u8_small (v : Z) (n : Z) : 0 <= n <= 8 -> 0 <= v < 2 ^ n -> to_u8 v = v.
Proof.
  intros Hn Hv. unfold to_u8. apply Z.mod_small.
  assert (2 ^ n <= 2 ^ 8) by (apply Z.pow_le_mono_r; lia). lia.
Qed.

Lemma to_u16_small (v : Z) (n : Z) : 0 <= n <= 16 -> 0 <= v < 2 ^ n -> to_u16 v = v.
Proof.
  intros Hn Hv. unfold to_u16. apply Z.mod_small.
  assert (2 ^ n <= 2 ^ 16) by (apply Z.pow_le_mono_r; lia). lia.
Qed.

Lemma fieldBlock_Some (A : Address) (numBits : Size) (upd : Data -> Message)
    (chk : Data -> Data) (k : Data -> M (option Message))
    (s s' : Bus) (msg : Message) :
  0 <= numBits <= 16 ->
  (forall v, 0 <= v < 2 ^ numBits -> chk v = v) ->
  fieldBlock A numBits upd chk k s = Ret (Some msg) s' ->
  exists f s1,
    fieldChecked (Z.to_nat numBits) f /\
    rxPulses s = fieldPulses f ++ rxPulses s1 /\
    k (fieldValue f) s1 = Ret (Some msg) s'.
Proof.
  intros Hn Hchk H.
  destruct (fieldBlock_cases A numBits upd chk k s Hn)
    as [E|(f & rest & Hlen & Hrx & E)]; rewrite E in H; clear E; [discriminate|].
  cbv zeta in H.
  destruct (bool_cases (checkParity (chk (fieldValue f)) numBits (decodeBit (parityPulse f))))
    as [Hp|Hp]; rewrite Hp in H; [|discriminate].
  apply checkParity_true in Hp.
  rewrite Hchk in Hp by (apply fieldValue_range; [lia|exact Hlen]).
  eexists f, _. split; [|split; [|exact H]].
  - split; [exact Hlen|]. rewrite Z2Nat.id by lia. exact Hp.
  - exact Hrx.
Qed.

Lemma set_data_same (m : Message) : set_data m (data m) = m.
Proof. destruct m; reflexivity. Qed.

Lemma readMessage_data_Some (A : Address) (n : nat) :
  forall (i : Size) (m : Message) (s s' : Bus) (msg : Message),
    0 <= i -> (Z.to_nat i + n <= length (data m))%nat ->
    readMessage_data A n i m s = Ret (Some msg) s' ->
    exists fds,
      length fds = n /\
      rxPulses s = concat (map fieldPulses fds) ++ rxPulses s' /\
      Forall (fieldChecked 8) fds /\
      msg = set_data m (take (Z.to_nat i) (data m) ++ map fieldValue fds ++
                        drop (Z.to_nat i + n) (data m)).
Proof.
  induction n as [|n IH]; intros i m s s' msg Hi Hfit H.
  - cbn [readMessage_data] in H. unfold ret in H. injection H as <- <-.
    exists []. split; [reflexivity|]. split; [reflexivity|]. split; [constructor|].
    cbn [map app]. rewrite Nat.add_0_r, take_drop, set_data_same. reflexivity.
  - rewrite readMessage_data_S in H by lia.
    apply fieldBlock_Some in H;
      [|unfold DATA_BIT_SIZE; lia
       |intros v Hv; apply (to_u8_small v DATA_BIT_SIZE); [unfold DATA_BIT_SIZE; lia|exact Hv]].
    destruct H as (f & s1 & Hf & Hrx & H).
    apply IH in H; [|lia|cbn [data set_data]; rewrite length_insert; lia].
    destruct H as (fds & Hlen & Hrx1 & Hall & ->).
    exists (f :: fds). split; [cbn [length]; lia|]. split.
    { cbn [map concat]. rewrite <- app_assoc, <- Hrx1. exact Hrx. }
    split; [constructor; [exact Hf|exact Hall]|].
    unfold set_data. cbn [data broadcast master slave control dataLength]. f_equal.
    assert (to_u8 (fieldValue f) = fieldValue f) as ->.
    { apply (to_u8_small _ 8); [lia|].
      apply (fieldValue_range f 8); [lia|apply Hf]. }
    replace (Z.to_nat (i + 1)) with (S (Z.to_nat i)) by lia.
    unfold Byte in *.
    rewrite (take_S_r _ _ (fieldValue f))
      by (apply list_lookup_insert_eq; lia).
    rewrite take_insert_ge by lia.
    rewrite drop_insert_lt by lia.
    replace (S (Z.to_nat i) + n)%nat with (Z.to_nat i + S n)%nat by lia.
    cbn [map]. rewrite <- !app_assoc. reflexivity.
Qed.

Lemma lengthMessage_data (m : Message) (l : Z) :
  data (if dataLength (set_dataLength m l) =? 0
        then set_dataLength (set_dataLength m l) 256
        else set_dataLength m l) = data m.
Proof. cbn [dataLength set_dataLength]. destruct (l =? 0); reflexivity. Qed.

Lemma lengthMessage_dataLength (m : Message) (l : Z) :
  dataLength (if dataLength (set_dataLength m l) =? 0
              then set_dataLength (set_dataLength m l) 256
              else set_dataLength m l) = if l =? 0 then 256 else l.
Proof. cbn [dataLength set_dataLength]. destruct (l =? 0); reflexivity. Qed.

Lemma finalMessage_eq (wB : Time) (mws : list Time) (vs vc vl : Z) (fds : list RxField) :
  0 <= vc < 2 ^ 4 ->
  length fds = Z.to_nat (if vl =? 0 then 256 else vl) ->
  let m4 := set_dataLength
              (set_control (set_slave (masterMessage wB mws) vs) (to_u8 vc)) vl in
  let m5 := if dataLength m4 =? 0 then set_dataLength m4 256 else m4 in
  set_data m5 (take (Z.to_nat 0) (data m5) ++ map fieldValue fds ++
               drop (Z.to_nat 0 + Z.to_nat (dataLength m5)) (data m5)) =
  mkMessage (if decodeBit wB =? 0 then BROADCAST else FOR_DEVICE) (decoded mws)
    vs vc (if vl =? 0 then 256 else vl)
    (map fieldValue fds ++ replicate (Z.to_nat MAX_MESSAGE_SIZE - length fds) 0).
Proof.
  intros Hvc Hlen m4 m5.
  assert (data m5 = replicate (Z.to_nat MAX_MESSAGE_SIZE) 0) as Hd.
  { unfold m5, m4. rewrite lengthMessage_data. unfold masterMessage.
    destruct (decodeBit wB =? 0); reflexivity. }
  assert (dataLength m5 = if vl =? 0 then 256 else vl) as Hl
    by (unfold m5, m4; apply lengthMessage_dataLength).
  rewrite Hd, Hl. change (Z.to_nat 0) with 0%nat.
  rewrite take_0, Nat.add_0_l, drop_replicate, Hlen. cbn [app].
  unfold m5, m4, masterMessage. rewrite (to_u8_small vc 4) by lia.
  cbn [dataLength set_dataLength].
  destruct (vl =? 0), (decodeBit wB =? 0); reflexivity.
Qed.

(** A returned message comes from a whole frame on the line, every field of
    which passed its parity check. *)
Lemma readMessage_Some (A : Address) (s s' : Bus) (msg : Message) :
  readMessage A s = Ret (Some msg) s' ->
  exists fr,
    rxPulses s = framePulses fr ++ rxPulses s' /\
    frameChecked fr /\ msg = frameMessage fr.
Proof.
  intros H. rewrite readMessage_unfold in H.
  destruct (readHeader_cases (afterMaster A) s)
    as [[_ E]|[(_ & ws & s0 & _ & [[E _]|E])
              |(_ & wS & wB & mws & mp & rest & Hrx & HwS & Hlen & Hmp & E)]];
    rewrite E in H; try discriminate.
  clear E. unfold afterMaster in H.
  apply fieldBlock_Some in H; [|unfold SLAVE_ADDRESS_BIT_SIZE; lia|reflexivity].
  destruct H as (fs & s1 & Hfs & Hrx1 & H). cbv beta in H.
  apply fieldBlock_Some in H;
    [|unfold CONTROL_BIT_SIZE; lia
     |intros v Hv; apply (to_u8_small v CONTROL_BIT_SIZE);
        [unfold CONTROL_BIT_SIZE; lia|exact Hv]].
  destruct H as (fc & s2 & Hfc & Hrx2 & H). cbv beta in H.
  apply fieldBlock_Some in H;
    [|unfold DATA_LENGTH_BIT_SIZE; lia
     |intros v Hv; apply (to_u16_small v DATA_LENGTH_BIT_SIZE);
        [unfold DATA_LENGTH_BIT_SIZE; lia|exact Hv]].
  destruct H as (fl & s3 & Hfl & Hrx3 & H). cbv beta zeta in H.
  pose proof (fieldValue_range fl 8 ltac:(lia) (proj1 Hfl)) as Hvl.
  pose proof (fieldValue_range fc 4 ltac:(lia) (proj1 Hfc)) as Hvc.
  apply readMessage_data_Some in H; [|lia|].
  2:{ rewrite lengthMessage_data, lengthMessage_dataLength.
      cbn [data set_control set_slave]. rewrite masterMessage_data_length.
      destruct (Z.eqb_spec (fieldValue fl) 0); lia. }
  destruct H as (fds & Hfds & Hrx4 & Hall & ->).
  rewrite lengthMessage_dataLength in Hfds.
  exists (mkRxFrame wS wB mws mp fs fc fl fds).
  split; [|split].
  - unfold framePulses, headerPulses.
    frame_projections.
    cbn [rxPulses consume] in Hrx1.
    rewrite Hrx, Hrx1, Hrx2, Hrx3, Hrx4. cbn [app].
    rewrite <- !app_assoc. reflexivity.
  - unfold frameChecked, headerChecked, frameLength.
    frame_projections.
    split; [split; [exact HwS|split; [exact Hlen|exact Hmp]]|].
    split; [exact Hfs|]. split; [exact Hfc|]. split; [exact Hfl|].
    split; [|exact Hall].
    rewrite Hfds. destruct (Z.eqb_spec (fieldValue fl) 0); lia.
  - unfold frameMessage, frameBroadcast, frameLength.
    frame_projections.
    apply finalMessage_eq; [exact Hvc|exact Hfds].
Qed.

(** ** Running a read over a known line *)

Lemma checkParity_of_eq (d : Data) (n : Size) (p : Bit) :
  p = calculateParity d n -> checkParity d n p = true.
Proof. intros ->. unfold checkParity. apply Z.eqb_refl. Qed.

Lemma checkParity_of_neq (d : Data) (n : Size) (p : Bit) :
  p <> calculateParity d n -> checkParity d n p = false.
Proof. intros H. unfold checkParity. apply Z.eqb_neq. auto. Qed.

Lemma readHeader_run (k : Message -> M (option Message)) (s : Bus)
    (wS wB : Time) (mws : list Time) (mp : Time) (rest : list Time) :
  m_isEnabled s = true ->
  rxPulses s = wS :: wB :: mws ++ mp :: rest ->
  isStartPulse wS -> length mws = 12%nat ->
  readHeader k s =
  if checkParity (decoded mws) 12 (decodeBit mp)
  then k (masterMessage wB mws) (consume (wS :: wB :: mws ++ [mp]) rest s)
  else Ret None (consume (wS :: wB :: mws ++ [mp]) rest s).
Proof.
  intros En Hrx HwS Hlen. unfold readHeader.
  rewrite (bind_Ret isEnabled _ s s true) by (unfold isEnabled; rewrite En; reflexivity).
  rewrite negb_if_true.
  rewrite (bind_Ret receiveStartBit _ s (consume [wS] (wB :: mws ++ mp :: rest) s) true).
  2:{ rewrite receiveStartBit_run, Hrx. f_equal. unfold isStartPulse in HwS.
      apply andb_true_iff. split; apply Z.leb_le; lia. }
  rewrite negb_if_true.
  rewrite (bind_Ret receiveBit _ _
             (consume [wB] (mws ++ mp :: rest) (consume [wS] (wB :: mws ++ mp :: rest) s))
             (decodeBit wB)) by (rewrite receiveBit_run; reflexivity).
  change MASTER_ADDRESS_BIT_SIZE with (Z.of_nat 12).
  rewrite (bind_Ret (receiveBits (Z.of_nat 12)) _ _
             (consume mws (mp :: rest)
                (consume [wB] (mws ++ mp :: rest)
                   (consume [wS] (wB :: mws ++ mp :: rest) s)))
             (decoded mws))
    by (apply receiveBits_Ret; [lia|exact Hlen|reflexivity]).
  rewrite (bind_Ret receiveBit _ _
             (consume [mp] rest
                (consume mws (mp :: rest)
                   (consume [wB] (mws ++ mp :: rest)
                      (consume [wS] (wB :: mws ++ mp :: rest) s))))
             (decodeBit mp)) by (rewrite receiveBit_run; reflexivity).
  rewrite !consume_consume. cbn [app].
  change (Z.of_nat 12) with 12.
  destruct (bool_cases (checkParity (decoded mws) 12 (decodeBit mp))) as [Hp|Hp];
    rewrite Hp; reflexivity.
Qed.

(** A checked field lets the block go on, answering when this node owes it. *)
Lemma fieldBlock_checked (A : Address) (numBits : Size) (upd : Data -> Message)
    (chk : Data -> Data) (k : Data -> M (option Message))
    (f : RxField) (rest : list Time) (s : Bus) :
  0 <= numBits <= 16 ->
  (forall v, 0 <= v < 2 ^ numBits -> chk v = v) ->
  fieldChecked (Z.to_nat numBits) f ->
  rxPulses s = fieldPulses f ++ rest ->
  exists s1,
    rxPulses s1 = rest /\
    fieldBlock A numBits upd chk k s = k (fieldValue f) s1.
Proof.
  intros Hn Hchk [Hlen Hp] Hrx.
  rewrite (fieldBlock_run A numBits upd chk k f rest s Hn Hlen Hrx). cbv zeta.
  rewrite Hchk by (apply fieldValue_range; [lia|exact Hlen]).
  rewrite Z2Nat.id in Hp by lia.
  rewrite (checkParity_of_eq _ _ _ Hp).
  eexists. split; [|reflexivity]. reflexivity.
Qed.

(** A corrupt field ends the read with no message. *)
Lemma fieldBlock_corrupt (A : Address) (numBits : Size) (upd : Data -> Message)
    (chk : Data -> Data) (k : Data -> M (option Message))
    (f : RxField) (rest : list Time) (s : Bus) :
  0 <= numBits <= 16 ->
  (forall v, 0 <= v < 2 ^ numBits -> chk v = v) ->
  fieldCorrupt (Z.to_nat numBits) f ->
  rxPulses s = fieldPulses f ++ rest ->
  exists s1,
    rxPulses s1 = rest /\
    fieldBlock A numBits upd chk k s = Ret None s1.
Proof.
  intros Hn Hchk [Hlen Hp] Hrx.
  rewrite (fieldBlock_run A numBits upd chk k f rest s Hn Hlen Hrx). cbv zeta.
  rewrite Hchk by (apply fieldValue_range; [lia|exact Hlen]).
  rewrite Z2Nat.id in Hp by lia.
  rewrite (checkParity_of_neq _ _ _ Hp).
  eexists. split; [|reflexivity]. reflexivity.
Qed.

Lemma to_u8_byte (v : Z) : 0 <= v < 2 ^ DATA_BIT_SIZE -> to_u8 v = v.
Proof. intros Hv. apply (to_u8_small v 8); [lia|exact Hv]. Qed.

Lemma readMessage_data_corrupt (A : Address) (good : list RxField) :
  forall (n : nat) (i : Size) (m : Message) (s : Bus) (bad : RxField) (rest : list Time),
    0 <= i -> (Z.to_nat i + n <= length (data m))%nat ->
    (length good < n)%nat ->
    Forall (fieldChecked 8) good -> fieldCorrupt 8 bad ->
    rxPulses s = concat (map fieldPulses good) ++ fieldPulses bad ++ rest ->
    exists s', rxPulses s' = rest /\ readMessage_data A n i m s = Ret None s'.
Proof.
  induction good as [|f good IH]; intros n i m s bad rest Hi Hfit Hn Hall Hbad Hrx;
    (destruct n as [|n]; [cbn [length] in Hn; lia|]);
    rewrite readMessage_data_S by lia.
  - apply (fieldBlock_corrupt _ _ _ _ _ bad rest s);
      [unfold DATA_BIT_SIZE; lia|exact to_u8_byte|exact Hbad|exact Hrx].
  - inversion Hall as [|? ? Hf Hall']; subst.
    cbn [map concat] in Hrx. rewrite <- app_assoc in Hrx.
    destruct (fieldBlock_checked A DATA_BIT_SIZE
                (fun v => set_data m (<[Z.to_nat i := to_u8 v]> (data m))) to_u8
                (fun v => readMessage_data A n (i + 1)
                            (set_data m (<[Z.to_nat i := to_u8 v]> (data m))))
                f _ s ltac:(unfold DATA_BIT_SIZE; lia) to_u8_byte Hf Hrx)
      as (s1 & Hs1 & ->).
    apply (IH n (i + 1) _ s1 bad rest); auto; try lia.
    + cbn [data set_data]. rewrite length_insert. lia.
    + cbn [length] in Hn. lia.
Qed.

Lemma readMessage_data_checked (A : Address) (fds : list RxField) :
  forall (i : Size) (m : Message) (s : Bus) (rest : list Time),
    0 <= i -> (Z.to_nat i + length fds <= length (data m))%nat ->
    Forall (fieldChecked 8) fds ->
    rxPulses s = concat (map fieldPulses fds) ++ rest ->
    exists s',
      rxPulses s' = rest /\
      readMessage_data A (length fds) i m s =
      Ret (Some (set_data m (take (Z.to_nat i) (data m) ++ map fieldValue fds ++
                             drop (Z.to_nat i + length fds) (data m)))) s'.
Proof.
  intros i m s rest Hi Hfit Hall Hrx.
  assert (exists msg s', rxPulses s' = rest /\
            readMessage_data A (length fds) i m s = Ret (Some msg) s')
    as (msg & s' & Hs' & E).
  { revert i m s Hi Hfit Hrx.
    induction Hall as [|f fds Hf Hall IH]; intros i m s Hi Hfit Hrx.
    - exists m, s. split; [exact Hrx|reflexivity].
    - cbn [length] in *. rewrite readMessage_data_S by lia.
      cbn [map concat] in Hrx. rewrite <- app_assoc in Hrx.
      destruct (fieldBlock_checked A DATA_BIT_SIZE
                  (fun v => set_data m (<[Z.to_nat i := to_u8 v]> (data m))) to_u8
                  (fun v => readMessage_data A (length fds) (i + 1)
                              (set_data m (<[Z.to_nat i := to_u8 v]> (data m))))
                  f _ s ltac:(unfold DATA_BIT_SIZE; lia) to_u8_byte Hf Hrx)
        as (s1 & Hs1 & ->).
      apply (IH (i + 1) _ s1); auto; try lia.
      cbn [data set_data]. rewrite length_insert. lia. }
  exists s'. split; [exact Hs'|]. rewrite E.
  destruct (readMessage_data_Some A (length fds) i m s s' msg Hi Hfit E)
    as (fds' & Hlen' & Hrx' & Hall' & ->).
  rewrite Hs', Hrx in Hrx'. apply app_inv_tail in Hrx'.
  assert (fds' = fds) as ->; [|reflexivity].
  clear -Hlen' Hrx' Hall Hall'. revert fds' Hlen' Hrx' Hall'.
  induction Hall as [|f fds [Hf _] Hall IH]; intros [|f' fds'] Hlen Hrx Hall';
    try discriminate; [reflexivity|].
  inversion Hall' as [|? ? [Hf' _] Hall'']; subst.
  cbn [map concat] in Hrx.
  apply app_inj_1 in Hrx;
    [|rewrite !fieldPulses_length; lia].
  destruct Hrx as [Hff Hrx]. f_equal.
  - unfold fieldPulses in Hff. apply app_inj_1 in Hff; [|lia].
    destruct Hff as [Hv Hpa]. injection Hpa as Hp Ha.
    destruct f, f'; cbn in *. subst. reflexivity.
  - apply IH; [cbn [length] in Hlen; lia|exact Hrx|exact Hall''].
Qed.

Lemma readMessage_master_corrupt (A : Address) (s : Bus)
    (wS wB : Time) (mws : list Time) (mp : Time) (rest : list Time) :
  m_isEnabled s = true ->
  rxPulses s = wS :: wB :: mws ++ mp :: rest ->
  isStartPulse wS -> length mws = 12%nat ->
  decodeBit mp <> calculateParity (decoded mws) 12 ->
  readMessage A s = Ret None (consume (wS :: wB :: mws ++ [mp]) rest s).
Proof.
  intros En Hrx HwS Hlen Hmp.
  rewrite readMessage_unfold, (readHeader_run _ s wS wB mws mp rest En Hrx HwS Hlen).
  rewrite (checkParity_of_neq _ _ _ Hmp). reflexivity.
Qed.

Lemma readMessage_field_corrupt (A : Address) (s : Bus)
    (wS wB : Time) (mws : list Time) (mp : Time)
    (good : list RxField) (bad : RxField) (rest : list Time) :
  m_isEnabled s = true ->
  rxPulses s =
    wS :: wB :: mws ++ mp :: concat (map fieldPulses good) ++ fieldPulses bad ++ rest ->
  isStartPulse wS -> length mws = 12%nat ->
  decodeBit mp = calculateParity (decoded mws) 12 ->
  (forall k f, good !! k = Some f -> fieldChecked (fieldWidth k) f) ->
  fieldCorrupt (fieldWidth (length good)) bad ->
  (forall fl, good !! 2%nat = Some fl ->
     Z.of_nat (length good) - 3 < if fieldValue fl =? 0 then 256 else fieldValue fl) ->
  exists s', rxPulses s' = rest /\ readMessage A s = Ret None s'.
Proof.
  intros En Hrx HwS Hlen Hmp Hgood Hbad Hin.
  rewrite readMessage_unfold, (readHeader_run _ s wS wB mws mp _ En Hrx HwS Hlen).
  rewrite (checkParity_of_eq _ _ _ Hmp).
  set (s0 := consume _ _ s).
  assert (rxPulses s0 = concat (map fieldPulses good) ++ fieldPulses bad ++ rest)
    as Hrx0 by reflexivity.
  clearbody s0. unfold afterMaster.
  destruct good as [|fs good].
  { apply (fieldBlock_corrupt _ _ _ _ _ bad rest s0);
      [unfold SLAVE_ADDRESS_BIT_SIZE; lia|reflexivity|exact Hbad|exact Hrx0]. }
  cbn [map concat] in Hrx0. rewrite <- app_assoc in Hrx0.
  match goal with
  | |- context [fieldBlock A SLAVE_ADDRESS_BIT_SIZE ?u ?c ?k s0] =>
      destruct (fieldBlock_checked A SLAVE_ADDRESS_BIT_SIZE u c k fs _ s0
                  ltac:(unfold SLAVE_ADDRESS_BIT_SIZE; lia) ltac:(reflexivity)
                  (Hgood 0%nat fs eq_refl) Hrx0) as (s1 & Hrx1 & ->)
  end.
  cbv beta. destruct good as [|fc good].
  { apply (fieldBlock_corrupt _ _ _ _ _ bad rest s1);
      [unfold CONTROL_BIT_SIZE; lia
      |intros v Hv; apply (to_u8_small v 4); [lia|exact Hv]
      |exact Hbad|exact Hrx1]. }
  cbn [map concat] in Hrx1. rewrite <- app_assoc in Hrx1.
  match goal with
  | |- context [fieldBlock A CONTROL_BIT_SIZE ?u ?c ?k s1] =>
      destruct (fieldBlock_checked A CONTROL_BIT_SIZE u c k fc _ s1
                  ltac:(unfold CONTROL_BIT_SIZE; lia)
                  ltac:(intros v Hv; apply (to_u8_small v 4); [lia|exact Hv])
                  (Hgood 1%nat fc eq_refl) Hrx1) as (s2 & Hrx2 & ->)
  end.
  cbv beta. destruct good as [|fl good].
  { apply (fieldBlock_corrupt _ _ _ _ _ bad rest s2);
      [unfold DATA_LENGTH_BIT_SIZE; lia
      |intros v Hv; apply (to_u16_small v 8); [lia|exact Hv]
      |exact Hbad|exact Hrx2]. }
  cbn [map concat] in Hrx2. rewrite <- app_assoc in Hrx2.
  match goal with
  | |- context [fieldBlock A DATA_LENGTH_BIT_SIZE ?u ?c ?k s2] =>
      destruct (fieldBlock_checked A DATA_LENGTH_BIT_SIZE u c k fl _ s2
                  ltac:(unfold DATA_LENGTH_BIT_SIZE; lia)
                  ltac:(intros v Hv; apply (to_u16_small v 8); [lia|exact Hv])
                  (Hgood 2%nat fl eq_refl) Hrx2) as (s3 & Hrx3 & ->)
  end.
  cbv beta zeta.
  pose proof (fieldValue_range fl 8 ltac:(lia) (proj1 (Hgood 2%nat fl eq_refl))) as Hvl.
  specialize (Hin fl eq_refl). cbn [length] in Hin.
  apply (readMessage_data_corrupt A good _ 0 _ s3 bad rest).
  - lia.
  - rewrite lengthMessage_data, lengthMessage_dataLength.
    cbn [data set_control set_slave]. rewrite masterMessage_data_length.
    destruct (Z.eqb_spec (fieldValue fl) 0); lia.
  - rewrite lengthMessage_dataLength.
    destruct (Z.eqb_spec (fieldValue fl) 0); lia.
  - apply Forall_lookup. intros k f Hk. apply (Hgood (S (S (S k))) f Hk).
  - exact Hbad.
  - exact Hrx3.
Qed.

(** A whole checked frame on the line is returned as its message. *)
Lemma readMessage_complete (A : Address) (s : Bus) (fr : RxFrame) (rest : list Time) :
  m_isEnabled s = true ->
  rxPulses s = framePulses fr ++ rest ->
  frameChecked fr ->
  exists s', rxPulses s' = rest /\ readMessage A s = Ret (Some (frameMessage fr)) s'.
Proof.
  intros En Hrx ((HwS & Hlen & Hmp) & Hfs & Hfc & Hfl & Hn & Hall).
  destruct fr as [wS wB mws mp fs fc fl fds].
  unfold framePulses, headerPulses, frameLength in *.
  frame_projections_everywhere.
  cbn [app] in Hrx. rewrite <- !app_assoc in Hrx. cbn [app] in Hrx.
  rewrite readMessage_unfold, (readHeader_run _ s wS wB mws mp _ En Hrx HwS Hlen).
  rewrite (checkParity_of_eq _ _ _ Hmp).
  set (s0 := consume _ _ s).
  assert (rxPulses s0 = fieldPulses fs ++ fieldPulses fc ++ fieldPulses fl ++
                        concat (map fieldPulses fds) ++ rest)
    as Hrx0 by reflexivity.
  clearbody s0. unfold afterMaster.
  match goal with
  | |- context [fieldBlock A SLAVE_ADDRESS_BIT_SIZE ?u ?c ?k s0] =>
      destruct (fieldBlock_checked A SLAVE_ADDRESS_BIT_SIZE u c k fs _ s0
                  ltac:(unfold SLAVE_ADDRESS_BIT_SIZE; lia) ltac:(reflexivity)
                  Hfs Hrx0) as (s1 & Hrx1 & ->)
  end.
  cbv beta.
  match goal with
  | |- context [fieldBlock A CONTROL_BIT_SIZE ?u ?c ?k s1] =>
      destruct (fieldBlock_checked A CONTROL_BIT_SIZE u c k fc _ s1
                  ltac:(unfold CONTROL_BIT_SIZE; lia)
                  ltac:(intros v Hv; apply (to_u8_small v 4); [lia|exact Hv])
                  Hfc Hrx1) as (s2 & Hrx2 & ->)
  end.
  cbv beta.
  match goal with
  | |- context [fieldBlock A DATA_LENGTH_BIT_SIZE ?u ?c ?k s2] =>
      destruct (fieldBlock_checked A DATA_LENGTH_BIT_SIZE u c k fl _ s2
                  ltac:(unfold DATA_LENGTH_BIT_SIZE; lia)
                  ltac:(intros v Hv; apply (to_u16_small v 8); [lia|exact Hv])
                  Hfl Hrx2) as (s3 & Hrx3 & ->)
  end.
  cbv beta zeta.
  pose proof (fieldValue_range fl 8 ltac:(lia) (proj1 Hfl)) as Hvl.
  pose proof (fieldValue_range fc 4 ltac:(lia) (proj1 Hfc)) as Hvc.
  match goal with
  | |- context [readMessage_data A ?n 0 _ s3] =>
      assert (n = length fds) as ->
        by (rewrite lengthMessage_dataLength;
            destruct (Z.eqb_spec (fieldValue fl) 0); lia)
  end.
  match goal with
  | |- context [readMessage_data A (length fds) 0 ?m s3] =>
      destruct (readMessage_data_checked A fds 0 m s3 rest) as (s' & Hs' & E)
  end.
  - lia.
  - rewrite lengthMessage_data. cbn [data set_control set_slave].
    rewrite masterMessage_data_length.
    destruct (Z.eqb_spec (fieldValue fl) 0); lia.
  - exact Hall.
  - exact Hrx3.
  - exists s'. split; [exact Hs'|]. rewrite E. f_equal. f_equal.
    unfold frameMessage, frameBroadcast, frameLength.
    frame_projections.
    etransitivity;
      [|apply (finalMessage_eq wB mws (fieldValue fs) (fieldValue fc) (fieldValue fl) fds);
        [exact Hvc|destruct (Z.eqb_spec (fieldValue fl) 0); lia]].
    cbv zeta.
    match goal with
    | |- context [drop (_ + Z.to_nat ?n)] =>
        assert (Z.to_nat n = length fds) as ->
          by (rewrite lengthMessage_dataLength;
              destruct (Z.eqb_spec (fieldValue fl) 0); lia)
    end.
    reflexivity.
Qed.

(** A read stays inside the payload array and waits for ever only on a silent
    line. *)
Lemma readMessage_progress (A : Address) (s : Bus) :
  (forall s', readMessage A s <> Fault s') /\
  (forall s', readMessage A s = Hang s' -> rxPulses s' = []).
Proof.
  rewrite readMessage_unfold.
  destruct (readHeader_cases (afterMaster A) s)
    as [[_ E]|[(_ & ws & s0 & _ & [[E Hs0]|E])
              |(_ & wS & wB & mws & mp & rest & _ & _ & _ & _ & E)]];
    rewrite E; clear E.
  - split; discriminate.
  - split; [discriminate|]. intros s' [= <-]. exact Hs0.
  - split; discriminate.
  - destruct (afterMaster_trace A (masterMessage wB mws)
                (consume (wS :: wB :: mws ++ [mp]) rest s)
                (masterMessage_data_length wB mws)) as (HF & HH & _).
    split; assumption.
Qed.

Lemma readMessage_no_start (A : Address) (s : Bus) (w : Time) (rest : list Time) :
  m_isEnabled s = true -> rxPulses s = w :: rest -> ~ isStartPulse w ->
  readMessage A s = Ret None (consume [w] rest s).
Proof.
  intros En Hrx Hw. rewrite readMessage_unfold. unfold readHeader.
  rewrite (bind_Ret isEnabled _ s s true) by (unfold isEnabled; rewrite En; reflexivity).
  rewrite negb_if_true.
  rewrite (bind_Ret receiveStartBit _ s (consume [w] rest s) false).
  - reflexivity.
  - rewrite receiveStartBit_run, Hrx. f_equal. unfold isStartPulse in Hw.
    apply andb_false_iff.
    destruct (Z.leb_spec 151 w); [|left; reflexivity].
    destruct (Z.leb_spec w 191); [lia|right; reflexivity].
Qed.

Lemma readMessage_disabled (A : Address) (s : Bus) :
  m_isEnabled s = false -> readMessage A s = Ret None s.
Proof.
  intros En. rewrite readMessage_unfold. unfold readHeader.
  rewrite (bind_Ret isEnabled _ s s false) by (unfold isEnabled; rewrite En; reflexivity).
  reflexivity.
Qed.

(** C2: [readMessage] returns no message, and leaves the bus untouched, when
    the controller is disabled; returns no message after measuring the one
    pulse when that pulse is not a start bit; returns no message when the
    parity bit of the master field, or of any later field of the frame, is not
    the computed one; and returns a message only for a whole frame of which
    every field (broadcast bit, master, slave, control, length and all
    [dataLength] payload bytes) was received and passed its parity check. *)
Theorem readMessage_all_or_nothing (m_address : Address) (b : Bus) :
  (m_isEnabled b = false -> readMessage m_address b = Ret None b) /\
  (forall w rest,
     m_isEnabled b = true -> rxPulses b = w :: rest -> ~ isStartPulse w ->
     readMessage m_address b = Ret None (consume [w] rest b)) /\
  (forall wS wB mws mp rest,
     m_isEnabled b = true ->
     rxPulses b = wS :: wB :: mws ++ mp :: rest ->
     isStartPulse wS -> length mws = 12%nat ->
     decodeBit mp <> calculateParity (decoded mws) 12 ->
     readMessage m_address b = Ret None (consume (wS :: wB :: mws ++ [mp]) rest b)) /\
  (forall wS wB mws mp good bad rest,
     m_isEnabled b = true ->
     rxPulses b =
       wS :: wB :: mws ++ mp ::
       concat (map fieldPulses good) ++ fieldPulses bad ++ rest ->
     isStartPulse wS -> length mws = 12%nat ->
     decodeBit mp = calculateParity (decoded mws) 12 ->
     (forall k f, good !! k = Some f -> fieldChecked (fieldWidth k) f) ->
     fieldCorrupt (fieldWidth (length good)) bad ->
     (forall fl, good !! 2%nat = Some fl ->
        Z.of_nat (length good) - 3 <
        if fieldValue fl =? 0 then 256 else fieldValue fl) ->
     exists b', rxPulses b' = rest /\ readMessage m_address b = Ret None b') /\
  (forall msg b',
     readMessage m_address b = Ret (Some msg) b' ->
     exists fr,
       rxPulses b = framePulses fr ++ rxPulses b' /\
       frameChecked fr /\ msg = frameMessage fr).
Proof.
  split; [apply readMessage_disabled|].
  split; [intros; apply readMessage_no_start; assumption|].
  split; [intros; apply readMessage_master_corrupt; assumption|].
  split; [intros; eapply readMessage_field_corrupt; eassumption|].
  intros msg b' H. apply readMessage_Some with m_address. exact H.
Qed.

Lemma readMessage_all_or_nothing_witness :
  (exists msg b',
     readMessage 0x123 exampleBus = Ret (Some msg) b' /\
     exists fr,
       rxPulses exampleBus = framePulses fr ++ rxPulses b' /\
       frameChecked fr /\ msg = frameMessage fr) /\
  (exists b', rxPulses b' = [33] /\ readMessage 0x123 corruptBus = Ret None b').
Proof.
  split.
  - eexists _, _. split; [vm_compute; reflexivity|].
    apply (proj2 (proj2 (proj2 (proj2 (readMessage_all_or_nothing 0x123 exampleBus))))).
    vm_compute. reflexivity.
  - apply (proj1 (proj2 (proj2 (proj2 (readMessage_all_or_nothing 0x123 corruptBus))))
             START_BIT_HIGH_US (pulseOf 1) (map pulseOf (msbBits 12 0x456))
             (pulseOf (calculateParity 0x456 12)) [] corruptSlave [33]).
    + reflexivity.
    + reflexivity.
    + unfold isStartPulse, START_BIT_HIGH_US. lia.
    + reflexivity.
    + vm_compute. reflexivity.
    + intros k f H. destruct k; discriminate H.
    + split; [reflexivity|]. vm_compute. discriminate.
    + intros fl H. discriminate H.
Defined.

(** ** Length and data-model invariants of returned messages *)

Lemma frameLength_range (fr : RxFrame) :
  fieldChecked 8 (lengthField fr) ->
  0 <= fieldValue (lengthField fr) <= 255 /\ 1 <= frameLength fr <= 256.
Proof.
  intros [Hlen _]. unfold frameLength.
  pose proof (fieldValue_range (lengthField fr) 8 ltac:(lia) Hlen) as H.
  change (2 ^ 8) with 256 in H.
  destruct (Z.eqb_spec (fieldValue (lengthField fr)) 0); lia.
Qed.

(** C4: the length field of a returned message is the 8-bit wire value with 0
    replaced by 256 and 1..255 kept, so it lies in 1..256, and the read
    consumed exactly that many payload fields; and a checked frame on the line
    is returned with that length. *)
Theorem length_remap (m_address : Address) (b : Bus) :
  (forall msg b',
     readMessage m_address b = Ret (Some msg) b' ->
     exists fr,
       rxPulses b = framePulses fr ++ rxPulses b' /\ frameChecked fr /\
       0 <= fieldValue (lengthField fr) <= 255 /\
       dataLength msg =
         (if fieldValue (lengthField fr) =? 0 then 256
          else fieldValue (lengthField fr)) /\
       1 <= dataLength msg <= 256 /\
       Z.of_nat (length (dataFields fr)) = dataLength msg) /\
  (forall fr rest,
     m_isEnabled b = true -> rxPulses b = framePulses fr ++ rest ->
     frameChecked fr ->
     exists msg b',
       readMessage m_address b = Ret (Some msg) b' /\ rxPulses b' = rest /\
       dataLength msg =
         (if fieldValue (lengthField fr) =? 0 then 256
          else fieldValue (lengthField fr))).
Proof.
  split.
  - intros msg b' H.
    destruct (readMessage_Some _ _ _ _ H) as (fr & Hrx & Hfr & ->).
    exists fr. split; [exact Hrx|]. split; [exact Hfr|].
    destruct Hfr as (_ & _ & _ & Hfl & Hn & _).
    destruct (frameLength_range fr Hfl) as [Hraw Hlen].
    split; [exact Hraw|]. split; [reflexivity|].
    split; [exact Hlen|exact Hn].
  - intros fr rest En Hrx Hfr.
    destruct (readMessage_complete m_address b fr rest En Hrx Hfr) as (b' & Hb' & E).
    exists (frameMessage fr), b'. split; [exact E|]. split; [exact Hb'|reflexivity].
Qed.

Lemma length_remap_witness :
  exists msg b',
    readMessage 0x123 longBus = Ret (Some msg) b' /\
    dataLength msg = 256 /\
    exists fr,
      rxPulses longBus = framePulses fr ++ rxPulses b' /\ frameChecked fr /\
      0 <= fieldValue (lengthField fr) <= 255 /\
      dataLength msg =
        (if fieldValue (lengthField fr) =? 0 then 256
         else fieldValue (lengthField fr)) /\
      1 <= dataLength msg <= 256 /\
      Z.of_nat (length (dataFields fr)) = dataLength msg.
Proof.
  eexists _, _. split; [vm_compute; reflexivity|].
  split; [reflexivity|].
  apply (proj1 (length_remap 0x123 longBus)). vm_compute. reflexivity.
Defined.

(** C9: a returned message has master and slave addresses of at most 4095, a
    control value of at most 15, a length between 1 and 256, and a payload
    array whose first [dataLength] entries are the bytes received, each at
    most 255 (the rest of the 256-entry array is still zero). *)
Theorem returned_message_invariants (m_address : Address) (b b' : Bus) (msg : Message) :
  readMessage m_address b = Ret (Some msg) b' ->
  0 <= master msg <= 4095 /\ 0 <= slave msg <= 4095 /\
  0 <= control msg <= 15 /\ 1 <= dataLength msg <= 256 /\
  exists fr,
    rxPulses b = framePulses fr ++ rxPulses b' /\
    Z.of_nat (length (dataFields fr)) = dataLength msg /\
    Forall (fun x => 0 <= x <= 255) (map fieldValue (dataFields fr)) /\
    data msg =
      map fieldValue (dataFields fr) ++
      replicate (256 - length (dataFields fr)) 0 /\
    length (data msg) = 256%nat.
Proof.
  intros H. destruct (readMessage_Some _ _ _ _ H) as (fr & Hrx & Hfr & ->).
  destruct Hfr as ((_ & Hm & _) & [Hs _] & [Hc _] & Hfl & Hn & Hall).
  destruct (frameLength_range fr Hfl) as [_ Hlen].
  cbn [master slave control dataLength data frameMessage].
  pose proof (decoded_range (masterPulses fr)) as HM. rewrite Hm in HM.
  pose proof (fieldValue_range (slaveField fr) 12 ltac:(lia) Hs) as HS.
  pose proof (fieldValue_range (controlField fr) 4 ltac:(lia) Hc) as HC.
  change (2 ^ Z.of_nat 12) with 4096 in HM. change (2 ^ 12) with 4096 in HS.
  change (2 ^ 4) with 16 in HC.
  split; [lia|]. split; [lia|]. split; [lia|]. split; [exact Hlen|].
  exists fr. split; [exact Hrx|]. split; [exact Hn|]. split.
  - apply List.Forall_map. apply (List.Forall_impl _ (P := fieldChecked 8)); [|exact Hall].
    intros f [Hf8 _].
    pose proof (fieldValue_range f 8 ltac:(lia) Hf8) as Hr.
    change (2 ^ 8) with 256 in Hr. lia.
  - split; [reflexivity|].
    rewrite length_app, length_map, length_replicate.
    change (Z.to_nat MAX_MESSAGE_SIZE) with 256%nat. lia.
Qed.

Lemma returned_message_invariants_witness :
  exists msg b',
    readMessage 0x123 exampleBus = Ret (Some msg) b' /\
    0 <= master msg <= 4095 /\ 0 <= slave msg <= 4095 /\
    0 <= control msg <= 15 /\ 1 <= dataLength msg <= 256 /\
    exists fr,
      rxPulses exampleBus = framePulses fr ++ rxPulses b' /\
      Z.of_nat (length (dataFields fr)) = dataLength msg /\
      Forall (fun x => 0 <= x <= 255) (map fieldValue (dataFields fr)) /\
      data msg =
        map fieldValue (dataFields fr) ++
        replicate (256 - length (dataFields fr)) 0 /\
      length (data msg) = 256%nat.
Proof.
  eexists _, _. split; [vm_compute; reflexivity|].
  apply (returned_message_invariants 0x123 exampleBus). vm_compute. reflexivity.
Defined.

(** ** Writing a frame *)

Lemma writeMessage_unfold (message : Message) :
  writeMessage message =
  (enabled <- isEnabled ;;
   if negb enabled then ret false else
   _ <- (fun b => writeMessage_waitBus (length (busFree b)) b) ;;
   writeFrame message).
Proof. unfold writeMessage, writeFrame, sendField. reflexivity. Qed.

Lemma writeMessage_waitBus_run (answers : list bool) :
  forall s : Bus,
    busFree s = answers ->
    writeMessage_waitBus (length answers) s =
    if existsb id answers
    then Ret tt (mkBus (m_isEnabled s) (rxPulses s) (afterFree answers)
                   (log s ++ pollEvents answers))
    else Hang (mkBus (m_isEnabled s) (rxPulses s) [] (log s ++ pollEvents answers)).
Proof.
  induction answers as [|f answers IH]; intros s Hs.
  - cbn. unfold hang. rewrite app_nil_r. destruct s; cbn in *. subst. reflexivity.
  - cbn [length writeMessage_waitBus].
    unfold bind at 1. unfold isBusFree. rewrite Hs.
    destruct f; cbn [negb existsb id orb pollEvents afterFree].
    + reflexivity.
    + unfold bind at 1. unfold delayUs, record. cbn [m_isEnabled rxPulses busFree log].
      rewrite IH by reflexivity.
      cbn [m_isEnabled rxPulses busFree log]. rewrite <- !app_assoc.
      reflexivity.
Qed.

Lemma sendField_run (v : Data) (n : nat) (k : M bool) (s : Bus) :
  sendField v (Z.of_nat n) k s =
  match rxPulses s with
  | [] => Hang (emit (txField v n) s)
  | a :: rest =>
      if decodeBit a =? 0 then k (consume [a] rest (emit (txField v n) s))
      else Ret false (consume [a] rest (emit (txField v n) s))
  end.
Proof.
  unfold sendField.
  rewrite (bind_Ret _ _ s (emit (pulses (msbBits n v)) s) tt) by apply transmitBits_run.
  cbv zeta.
  rewrite (bind_Ret _ _ _ (emit (pulse (calculateParity v (Z.of_nat n)))
                             (emit (pulses (msbBits n v)) s)) tt)
    by apply transmitBit_run.
  rewrite emit_emit. fold (txField v n).
  unfold bind. rewrite receiveAckBit_run.
  change (rxPulses (emit (txField v n) s)) with (rxPulses s).
  destruct (rxPulses s) as [|a rest]; [reflexivity|].
  destruct (decodeBit a =? 0); reflexivity.
Qed.

(** The payload loop, one iteration unrolled. *)
Lemma writeMessage_data_S (message : Message) (n : nat) (i : Size) (s : Bus) :
  writeMessage_data message (S n) i s =
  match data message !! Z.to_nat i with
  | Some x => sendField x 8 (writeMessage_data message n (i + 1)) s
  | None => Fault s
  end.
Proof.
  cbn [writeMessage_data]. unfold bind at 1. unfold arrayGet at 1.
  destruct (data message !! Z.to_nat i) as [x|] eqn:Hx; [|reflexivity].
  unfold sendField. apply bind_ext. intros [] s1 _.
  unfold bind at 1. unfold arrayGet. rewrite Hx. reflexivity.
Qed.

Lemma sendField_wrote (v : Data) (n : nat) (k : M bool)
    (fields : list (list Event)) (inBounds : bool) (s : Bus) :
  (forall s1, wrote fields inBounds s1 (k s1)) ->
  wrote (txField v n :: fields) inBounds s (sendField v (Z.of_nat n) k s).
Proof.
  intros Hk. rewrite sendField_run. unfold wrote. cbn [txTrace txResult].
  destruct (rxPulses s) as [|a rest] eqn:Hrx.
  { split; [|eauto]. unfold logged, emit. cbn [final log].
    rewrite app_nil_r. reflexivity. }
  destruct (decodeBit a =? 0).
  - destruct (Hk (consume [a] rest (emit (txField v n) s))) as [Hlog Hres].
    cbn [rxPulses consume] in Hlog, Hres. split; [|exact Hres].
    unfold logged in *. rewrite Hlog. unfold consume, emit. cbn [log map].
    rewrite <- !app_assoc. reflexivity.
  - split; [|eauto]. unfold logged, consume, emit. cbn [final log map].
    rewrite <- !app_assoc. reflexivity.
Qed.

Lemma writeMessage_data_wrote (message : Message) (n : nat) :
  forall (i : Size) (s : Bus),
    0 <= i ->
    wrote (map (fun x => txField x 8) (take n (drop (Z.to_nat i) (data message))))
      (length (take n (drop (Z.to_nat i) (data message))) =? n)%nat s
      (writeMessage_data message n i s).
Proof.
  induction n as [|n IH]; intros i s Hi.
  - cbn. unfold wrote. cbn [txTrace txResult]. split; [apply logged_refl|].
    eexists. reflexivity.
  - rewrite writeMessage_data_S.
    destruct (data message !! Z.to_nat i) as [x|] eqn:Hx.
    + unfold Byte, Data in *. rewrite (drop_S _ _ _ Hx). cbn [take map length].
      change (sendField x 8) with (sendField x (Z.of_nat 8)).
      apply (sendField_wrote x 8). intros s1.
      replace (S (Z.to_nat i)) with (Z.to_nat (i + 1)) by lia.
      apply IH. lia.
    + unfold Byte, Data in *. apply lookup_ge_None in Hx.
      rewrite drop_ge by exact Hx.
      rewrite take_nil. unfold wrote. cbn [map txTrace txResult length Nat.eqb].
      split; [apply logged_refl|]. eexists. reflexivity.
Qed.

Lemma writeFrame_run (message : Message) (s : Bus) :
  logged s (final (writeFrame message s))
    (txHeader message ++ txTrace (txFields message) (rxPulses s)) /\
  match txResult (txFields message) (rxPulses s) with
  | None => exists s', writeFrame message s = Hang s'
  | Some false => exists s', writeFrame message s = Ret false s'
  | Some true =>
      if (Z.to_nat (dataLength message) <=? length (data message))%nat
      then exists s', writeFrame message s = Ret true s'
      else exists s', writeFrame message s = Fault s'
  end.
Proof.
  unfold writeFrame.
  rewrite (bind_Ret transmitStartBit _ s
             (emit [SetLevel true; Delay START_BIT_HIGH_US; SetLevel false;
                    Delay START_BIT_LOW_US] s) tt).
  2:{ unfold transmitStartBit, bind, gpio_set_level, delayUs, record, emit. cbn.
      rewrite <- !app_assoc. reflexivity. }
  match goal with
  | |- context [bind (if ?c then transmitBit 0 else transmitBit 1) ?k ?s0] =>
      rewrite (bind_Ret (if c then transmitBit 0 else transmitBit 1) k s0
                 (emit (pulse (if c then 0 else 1)) s0) tt)
        by (destruct c; apply transmitBit_run)
  end.
  change 12 with (Z.of_nat 12). change 4 with (Z.of_nat 4).
  change 8 with (Z.of_nat 8).
  rewrite (bind_Ret (transmitBits (master message) (Z.of_nat 12)) _ _ _ tt)
    by apply transmitBits_run.
  cbv zeta.
  rewrite (bind_Ret (transmitBit (calculateParity (master message) (Z.of_nat 12))) _ _ _ tt)
    by apply transmitBit_run.
  rewrite !emit_emit.
  match goal with
  | |- context [sendField _ _ _ (emit ?e s)] =>
      replace e with (txHeader message)
        by (unfold txHeader, txField; rewrite <- ?app_assoc; reflexivity)
  end.
  set (s0 := emit (txHeader message) s).
  assert (wrote (txFields message)
            (length (take (Z.to_nat (dataLength message)) (data message)) =?
             Z.to_nat (dataLength message))%nat s0
            (sendField (slave message) (Z.of_nat 12)
               (sendField (control message) (Z.of_nat 4)
                  (sendField (to_u16 (dataLength message)) (Z.of_nat 8)
                     (writeMessage_data message (Z.to_nat (dataLength message)) 0)))
               s0)) as [Hlog Hres].
  { unfold txFields. apply sendField_wrote. intros s1.
    apply sendField_wrote. intros s2. apply sendField_wrote. intros s3.
    pose proof (writeMessage_data_wrote message (Z.to_nat (dataLength message)) 0 s3
                  ltac:(lia)) as H.
    change (Z.to_nat 0) with 0%nat in H. rewrite drop_0 in H. exact H. }
  change (rxPulses s0) with (rxPulses s) in Hlog, Hres.
  split.
  - unfold logged in *. rewrite Hlog. unfold s0, emit. cbn [log].
    rewrite <- app_assoc. reflexivity.
  - destruct (txResult (txFields message) (rxPulses s)) as [[|]|]; try exact Hres.
    rewrite length_take in Hres.
    destruct (Nat.leb_spec (Z.to_nat (dataLength message)) (length (data message)));
      destruct (Nat.eqb_spec
                  (Z.to_nat (dataLength message) `min` length (data message))
                  (Z.to_nat (dataLength message))); try lia; exact Hres.
Qed.

Lemma writeMessage_disabled (message : Message) (s : Bus) :
  m_isEnabled s = false -> writeMessage message s = Ret false s.
Proof.
  intros En. rewrite writeMessage_unfold.
  rewrite (bind_Ret isEnabled _ s s false) by (unfold isEnabled; rewrite En; reflexivity).
  reflexivity.
Qed.

Lemma writeMessage_busy (message : Message) (s : Bus) :
  m_isEnabled s = true -> existsb id (busFree s) = false ->
  writeMessage message s =
  Hang (mkBus (m_isEnabled s) (rxPulses s) [] (log s ++ pollEvents (busFree s))).
Proof.
  intros En Hbusy. rewrite writeMessage_unfold.
  rewrite (bind_Ret isEnabled _ s s true) by (unfold isEnabled; rewrite En; reflexivity).
  rewrite negb_if_true. apply bind_Hang.
  rewrite (writeMessage_waitBus_run (busFree s) s eq_refl), Hbusy. reflexivity.
Qed.

Lemma writeMessage_free (message : Message) (s : Bus) :
  m_isEnabled s = true -> existsb id (busFree s) = true ->
  writeMessage message s =
  writeFrame message
    (mkBus (m_isEnabled s) (rxPulses s) (afterFree (busFree s))
       (log s ++ pollEvents (busFree s))).
Proof.
  intros En Hfree. rewrite writeMessage_unfold.
  rewrite (bind_Ret isEnabled _ s s true) by (unfold isEnabled; rewrite En; reflexivity).
  rewrite negb_if_true.
  rewrite (bind_Ret _ _ s
             (mkBus (m_isEnabled s) (rxPulses s) (afterFree (busFree s))
                (log s ++ pollEvents (busFree s))) tt); [reflexivity|].
  rewrite (writeMessage_waitBus_run (busFree s) s eq_refl), Hfree. reflexivity.
Qed.

Lemma pollEvents_no_rx (answers : list bool) :
  Forall (fun e => isRx e = false) (pollEvents answers).
Proof.
  induction answers as [|[|] answers IH]; cbn [pollEvents]; repeat constructor.
  exact IH.
Qed.

Lemma pulse_no_rx (bit : Bit) : Forall (fun e => isRx e = false) (pulse bit).
Proof. unfold pulse. repeat constructor. Qed.

Lemma pulses_no_rx (bits : list Bit) : Forall (fun e => isRx e = false) (pulses bits).
Proof.
  unfold pulses. induction bits as [|bit bits IH]; cbn [map concat].
  - constructor.
  - apply Forall_app. split; [apply pulse_no_rx|exact IH].
Qed.

Lemma txField_no_rx (v : Data) (n : nat) : Forall (fun e => isRx e = false) (txField v n).
Proof.
  unfold txField. apply Forall_app. split; [apply pulses_no_rx|apply pulse_no_rx].
Qed.

Lemma txHeader_no_rx (message : Message) :
  Forall (fun e => isRx e = false) (txHeader message).
Proof.
  unfold txHeader. apply Forall_app. split; [repeat constructor|].
  apply Forall_app. split; [apply pulse_no_rx|apply txField_no_rx].
Qed.

Lemma txFields_no_rx (message : Message) :
  Forall (Forall (fun e => isRx e = false)) (txFields message).
Proof.
  unfold txFields. repeat (constructor; [apply txField_no_rx|]).
  apply List.Forall_map. apply Forall_forall. intros x _. apply txField_no_rx.
Qed.

Lemma no_rx_split (evs pre post : list Event) (w : Time) :
  Forall (fun e => isRx e = false) evs -> evs <> pre ++ RxPulse w :: post.
Proof.
  intros Hall ->. apply Forall_app in Hall. destruct Hall as [_ Hall].
  inversion Hall as [|? ? He _]. discriminate He.
Qed.

(** Once a handshake is Rejected the trace ends and the result is failure. *)
Lemma txTrace_nak (fields : list (list Event)) :
  Forall (Forall (fun e => isRx e = false)) fields ->
  forall (acks : list Time) (pre post : list Event) (w : Time),
    txTrace fields acks = pre ++ RxPulse w :: post ->
    decodeBit w <> 0 ->
    post = [] /\ txResult fields acks = Some false.
Proof.
  induction 1 as [|f fields Hf Hall IH]; intros acks pre post w H Hw.
  - destruct pre; discriminate H.
  - cbn [txTrace txResult] in *.
    destruct (app_eq_split _ _ _ _ _ H) as [(p1 & E & _)|(p2 & -> & E)].
    { exfalso. eapply no_rx_split; eauto. }
    destruct acks as [|a acks]; [destruct p2; discriminate E|].
    destruct p2 as [|e p2].
    + injection E as Ea E. subst a.
      apply Z.eqb_neq in Hw. rewrite Hw in *. auto.
    + injection E as Ee E. subst e.
      destruct (decodeBit a =? 0); [|destruct p2; discriminate E].
      eapply IH; eauto.
Qed.

Lemma logged_inj (s s' : Bus) (e1 e2 : list Event) :
  logged s s' e1 -> logged s s' e2 -> e1 = e2.
Proof.
  unfold logged. intros H1 H2. rewrite H1 in H2. apply app_inv_head in H2. exact H2.
Qed.

Lemma writeMessage_trace (message : Message) (b : Bus) :
  m_isEnabled b = true -> existsb id (busFree b) = true ->
  logged b (final (writeMessage message b))
    (pollEvents (busFree b) ++ txHeader message ++
     txTrace (txFields message) (rxPulses b)).
Proof.
  intros En Hfree. rewrite (writeMessage_free message b En Hfree).
  destruct (writeFrame_run message
              (mkBus (m_isEnabled b) (rxPulses b) (afterFree (busFree b))
                 (log b ++ pollEvents (busFree b)))) as [Hlog _].
  unfold logged in *. rewrite Hlog. cbn [log rxPulses].
  rewrite <- !app_assoc. reflexivity.
Qed.

Lemma writeMessage_outcome (message : Message) (b : Bus) :
  m_isEnabled b = true -> existsb id (busFree b) = true ->
  match txResult (txFields message) (rxPulses b) with
  | None => exists b', writeMessage message b = Hang b'
  | Some false => exists b', writeMessage message b = Ret false b'
  | Some true =>
      if (Z.to_nat (dataLength message) <=? length (data message))%nat
      then exists b', writeMessage message b = Ret true b'
      else exists b', writeMessage message b = Fault b'
  end.
Proof.
  intros En Hfree. rewrite (writeMessage_free message b En Hfree).
  destruct (writeFrame_run message
              (mkBus (m_isEnabled b) (rxPulses b) (afterFree (busFree b))
                 (log b ++ pollEvents (busFree b)))) as [_ Hout].
  exact Hout.
Qed.

(** C3: [writeMessage] on a disabled controller fails and leaves the bus
    untouched; on an enabled one, once the bus is free, it drives the header
    and then the slave, control, length and payload fields, awaiting a
    handshake after each of these; and in every run, a received handshake
    that decodes to Rejected is the last thing in the log (nothing further is
    sent) and the call returns failure. *)
Theorem writeMessage_abort_on_reject (message : Message) (b : Bus) :
  (m_isEnabled b = false -> writeMessage message b = Ret false b) /\
  (m_isEnabled b = true -> existsb id (busFree b) = true ->
   logged b (final (writeMessage message b))
     (pollEvents (busFree b) ++ txHeader message ++
      txTrace (txFields message) (rxPulses b))) /\
  (forall evs pre w post,
     logged b (final (writeMessage message b)) evs ->
     evs = pre ++ RxPulse w :: post ->
     decodeBit w <> 0 ->
     post = [] /\ exists b', writeMessage message b = Ret false b').
Proof.
  split; [apply writeMessage_disabled|]. split; [apply writeMessage_trace|].
  intros evs pre w post Hlog Hsplit Hw.
  destruct (m_isEnabled b) eqn:En.
  2:{ rewrite (writeMessage_disabled message b En) in Hlog.
      pose proof (logged_inj _ _ _ _ Hlog (logged_refl b)) as ->.
      destruct pre; discriminate Hsplit. }
  destruct (existsb id (busFree b)) eqn:Hfree.
  2:{ rewrite (writeMessage_busy message b En Hfree) in Hlog.
      assert (evs = pollEvents (busFree b)) as ->
        by (apply (logged_inj _ _ _ _ Hlog); reflexivity).
      exfalso. eapply no_rx_split; [apply pollEvents_no_rx|exact Hsplit]. }
  pose proof (logged_inj _ _ _ _ Hlog (writeMessage_trace message b En Hfree)) as ->.
  rewrite app_assoc in Hsplit.
  destruct (app_eq_split _ _ _ _ _ Hsplit) as [(p1 & E & _)|(p2 & -> & E)].
  { exfalso. eapply no_rx_split; [|exact E].
    apply Forall_app. split; [apply pollEvents_no_rx|apply txHeader_no_rx]. }
  destruct (txTrace_nak _ (txFields_no_rx message) _ _ _ _ E Hw) as [-> Hres].
  split; [reflexivity|].
  pose proof (writeMessage_outcome message b En Hfree) as Hout.
  rewrite Hres in Hout. exact Hout.
Qed.

Lemma writeMessage_abort_on_reject_witness :
  decodeBit 20 <> 0 /\
  exists b', writeMessage exampleMessage rejectingBus = Ret false b'.
Proof.
  split; [vm_compute; discriminate|].
  apply (proj2 (proj2 (writeMessage_abort_on_reject exampleMessage rejectingBus))
           (pollEvents [false; true] ++ txHeader exampleMessage ++
            txTrace (txFields exampleMessage) [33; 20; 33; 33])
           (pollEvents [false; true] ++ txHeader exampleMessage ++
            txField 0x123 12 ++ RxPulse 33 :: txField 2 4)
           20 []).
  - vm_compute. reflexivity.
  - vm_compute. reflexivity.
  - vm_compute. discriminate.
Defined.

(** ** The length field on the wire *)

Lemma msbBits_mod (n : nat) (m : Z) (v : Z) :
  Z.of_nat n <= m -> msbBits n (v mod 2 ^ m) = msbBits n v.
Proof.
  induction n as [|n IH]; intros Hm; [reflexivity|].
  cbn [msbBits]. rewrite IH by lia.
  rewrite Z.mod_pow2_bits_low by lia. reflexivity.
Qed.

Lemma xorBits_mod (n : nat) (m : Z) (v : Z) :
  Z.of_nat n <= m -> xorBits n (v mod 2 ^ m) = xorBits n v.
Proof.
  induction n as [|n IH]; intros Hm; [reflexivity|].
  cbn [xorBits]. rewrite IH by lia.
  rewrite Z.mod_pow2_bits_low by lia. reflexivity.
Qed.

Lemma txField_length_wire (l : Size) :
  txField (to_u16 l) 8 = txField (l mod 256) 8.
Proof.
  unfold txField, to_u16. rewrite !calculateParity_xorBits.
  change 256 with (2 ^ 8).
  rewrite !msbBits_mod, !xorBits_mod by lia. reflexivity.
Qed.

(** C5: when the write reaches the length field (bus free, slave and control
    acknowledged), what it drives there is the eight low bits of
    [dataLength], most significant first, followed by the parity of those
    same eight bits: no 256-to-0 remap, so a length of 256 goes out as eight
    zero bits. *)
Theorem write_length_literal (message : Message) (b : Bus)
    (a1 a2 : Time) (rest : list Time) :
  m_isEnabled b = true -> existsb id (busFree b) = true ->
  rxPulses b = a1 :: a2 :: rest -> decodeBit a1 = 0 -> decodeBit a2 = 0 ->
  (exists post,
     logged b (final (writeMessage message b))
       (pollEvents (busFree b) ++ txHeader message ++
        txField (slave message) 12 ++ RxPulse a1 ::
        txField (control message) 4 ++ RxPulse a2 ::
        (pulses (msbBits 8 (dataLength message mod 256)) ++
         pulse (calculateParity (dataLength message mod 256) 8)) ++ post)) /\
  calculateParity (dataLength message mod 256) 8 =
    Z.b2z (xorBits 8 (dataLength message mod 256)) /\
  (dataLength message = 256 ->
   msbBits 8 (dataLength message mod 256) = [0; 0; 0; 0; 0; 0; 0; 0]).
Proof.
  intros En Hfree Hrx Ha1 Ha2. split; [|split].
  - pose proof (writeMessage_trace message b En Hfree) as H.
    rewrite Hrx in H. unfold txFields in H. cbn [txTrace] in H.
    rewrite Ha1, Ha2 in H. cbn [Z.eqb] in H.
    rewrite txField_length_wire in H.
    eexists. unfold txField in H at 3.
    change (Z.of_nat 8) with 8 in H. exact H.
  - apply (calculateParity_xorBits _ 8).
  - intros ->. reflexivity.
Qed.

Lemma write_length_literal_witness :
  exists post,
    logged (mkBus true [33; 33] [true] [])
      (final (writeMessage fullMessage (mkBus true [33; 33] [true] [])))
      (pollEvents [true] ++ txHeader fullMessage ++
       txField 0x123 12 ++ RxPulse 33 :: txField 2 4 ++ RxPulse 33 ::
       (pulses [0; 0; 0; 0; 0; 0; 0; 0] ++ pulse 0) ++ post).
Proof.
  destruct (write_length_literal fullMessage (mkBus true [33; 33] [true] []) 33 33 [])
    as ((post & H) & _ & _); try reflexivity.
  exists post. exact H.
Defined.

(** ** Bounds of the payload array *)

Lemma txResult_acked (fields : list (list Event)) :
  forall acks rest,
    (length fields <= length acks)%nat ->
    Forall (fun a => decodeBit a = 0) acks ->
    txResult fields (acks ++ rest) = Some true.
Proof.
  induction fields as [|f fields IH]; intros acks rest Hlen Hall; [reflexivity|].
  destruct acks as [|a acks]; [cbn [length] in Hlen; lia|].
  inversion Hall as [|? ? Ha Hall']; subst.
  cbn [txResult app]. rewrite Ha. cbn [Z.eqb].
  apply IH; [cbn [length] in Hlen; lia|exact Hall'].
Qed.

Lemma txFields_length (message : Message) :
  length (txFields message) =
  (3 + Z.to_nat (dataLength message) `min` length (data message))%nat.
Proof.
  unfold txFields. cbn [length]. rewrite length_map, length_take. reflexivity.
Qed.

(** C10: [readMessage] never indexes the payload array outside its 256
    entries; [writeMessage] does not either when [dataLength] is at most 256;
    and on a message with a larger [dataLength], once the bus is free and the
    peer acknowledges the three header fields and all 256 payload bytes, it
    reads past the end of the array. *)
Theorem payload_index_bounds :
  (forall m_address b b', readMessage m_address b <> Fault b') /\
  (forall message b b',
     length (data message) = 256%nat -> 0 <= dataLength message <= 256 ->
     writeMessage message b <> Fault b') /\
  (forall message b acks rest,
     length (data message) = 256%nat -> 256 < dataLength message ->
     m_isEnabled b = true -> existsb id (busFree b) = true ->
     rxPulses b = acks ++ rest -> length acks = 259%nat ->
     Forall (fun a => decodeBit a = 0) acks ->
     exists b', writeMessage message b = Fault b').
Proof.
  split; [|split].
  - intros A b b'. apply (proj1 (readMessage_progress A b)).
  - intros message b b' Hdata Hlen.
    destruct (m_isEnabled b) eqn:En;
      [|rewrite (writeMessage_disabled message b En); discriminate].
    destruct (existsb id (busFree b)) eqn:Hfree;
      [|rewrite (writeMessage_busy message b En Hfree); discriminate].
    pose proof (writeMessage_outcome message b En Hfree) as Hout.
    assert ((Z.to_nat (dataLength message) <=? length (data message))%nat = true) as Hin
      by (apply Nat.leb_le; lia).
    rewrite Hin in Hout.
    destruct (txResult (txFields message) (rxPulses b)) as [[|]|];
      destruct Hout as [b'' ->]; discriminate.
  - intros message b acks rest Hdata Hlen En Hfree Hrx Hacks Hall.
    pose proof (writeMessage_outcome message b En Hfree) as Hout.
    rewrite Hrx, txResult_acked in Hout;
      [|rewrite txFields_length; lia|exact Hall].
    assert ((Z.to_nat (dataLength message) <=? length (data message))%nat = false) as Hin
      by (apply Nat.leb_gt; lia).
    rewrite Hin in Hout. exact Hout.
Qed.

Lemma payload_index_bounds_witness :
  exists b', writeMessage overlongMessage willingBus = Fault b'.
Proof.
  apply (proj2 (proj2 payload_index_bounds) overlongMessage willingBus
           (replicate 259 33) []).
  - reflexivity.
  - vm_compute. reflexivity.
  - reflexivity.
  - reflexivity.
  - vm_compute. reflexivity.
  - reflexivity.
  - apply Forall_replicate. reflexivity.
Defined.

(** * Further properties of the driver and the controller *)

(** ** Start bit and handshake bit on the line *)

Lemma transmitStartBit_run (b : Bus) :
  transmitStartBit b =
  Ret tt (emit [SetLevel true; Delay START_BIT_HIGH_US; SetLevel false;
                Delay START_BIT_LOW_US] b).
Proof.
  unfold transmitStartBit, bind, gpio_set_level, delayUs, record, emit. cbn.
  rewrite <- !app_assoc. reflexivity.
Qed.

(** X1: the start bit that [transmitStartBit] drives is accepted by
    [receiveStartBit] when measured on an ideal line, and the pulse of a data
    bit, whatever the bit, is not taken for a start bit. *)
Theorem start_bit_round_trip (b b2 : Bus) (rest : list Time) (bit : Bit) :
  exists evs,
    transmitStartBit b = Ret tt (emit evs b) /\
    highDurations false 0 evs = [START_BIT_HIGH_US] /\
    (rxPulses b2 = highDurations false 0 evs ++ rest ->
     exists b2', receiveStartBit b2 = Ret true b2' /\ rxPulses b2' = rest) /\
    (rxPulses b2 = highDurations false 0 (pulse bit) ++ rest ->
     exists b2', receiveStartBit b2 = Ret false b2' /\ rxPulses b2' = rest).
Proof.
  eexists. split; [apply transmitStartBit_run|]. split; [reflexivity|]. split.
  - intros Hrx. rewrite receiveStartBit_run, Hrx. cbn. eauto.
  - intros Hrx. rewrite receiveStartBit_run, Hrx. unfold pulse.
    destruct (truthy bit); cbn; eauto.
Qed.

Lemma start_bit_round_trip_witness :
  exists b2',
    receiveStartBit (mkBus true [171; 33] [] []) = Ret true b2' /\
    rxPulses b2' = [33].
Proof.
  destruct (start_bit_round_trip (mkBus true [] [] []) (mkBus true [171; 33] [] [])
              [33] 0) as (evs & _ & Hevs & Hstart & _).
  apply Hstart. rewrite Hevs. reflexivity.
Defined.

(** X2: a handshake sent with [sendAckBit] and measured on an ideal line is
    read back by [receiveAckBit] as the same handshake: Acknowledged travels
    as the 0 pulse and Rejected as the 1 pulse on both sides. *)
Theorem ack_bit_round_trip (ack : AcknowledgmentType) (b b2 : Bus) (rest : list Time) :
  exists evs,
    sendAckBit ack b = Ret tt (emit evs b) /\
    evs = pulse (match ack with ACK => 0 | NAK => 1 end) /\
    (rxPulses b2 = highDurations false 0 evs ++ rest ->
     exists b2', receiveAckBit b2 = Ret ack b2' /\ rxPulses b2' = rest).
Proof.
  eexists. split; [apply sendAckBit_run|]. split; [reflexivity|].
  intros Hrx. rewrite receiveAckBit_run, Hrx. destruct ack; cbn; eauto.
Qed.

Lemma ack_bit_round_trip_witness :
  exists b2', receiveAckBit (mkBus true [20] [] []) = Ret NAK b2' /\ rxPulses b2' = [].
Proof.
  destruct (ack_bit_round_trip NAK (mkBus true [] [] []) (mkBus true [20] [] []) [])
    as (evs & _ & -> & H).
  apply H. reflexivity.
Defined.

(** ** Enabling and disabling *)

(** X3: [disable] changes nothing but the flag, and after it both
    [readMessage] and [writeMessage] fail at once and leave the bus as it is,
    whatever the line carries; [enable] after [disable] gives back the bus
    with the flag set. *)
Theorem disabled_controller_is_inert (m_address : Address) (message : Message) (b : Bus) :
  exists b1,
    disable b = Ret tt b1 /\
    m_isEnabled b1 = false /\ rxPulses b1 = rxPulses b /\
    busFree b1 = busFree b /\ log b1 = log b /\
    isEnabled b1 = Ret false b1 /\
    readMessage m_address b1 = Ret None b1 /\
    writeMessage message b1 = Ret false b1 /\
    enable b1 = Ret tt (mkBus true (rxPulses b) (busFree b) (log b)).
Proof.
  eexists. split; [reflexivity|]. cbn [m_isEnabled rxPulses busFree log].
  do 5 (split; [reflexivity|]).
  split; [apply readMessage_disabled; reflexivity|].
  split; [apply writeMessage_disabled; reflexivity|reflexivity].
Qed.

(** ** Successful writes *)

Lemma sendField_true (v : Data) (n : nat) (k : M bool) (s s' : Bus) :
  sendField v (Z.of_nat n) k s = Ret true s' ->
  exists a rest,
    rxPulses s = a :: rest /\ decodeBit a = 0 /\
    k (consume [a] rest (emit (txField v n) s)) = Ret true s'.
Proof.
  rewrite sendField_run. destruct (rxPulses s) as [|a rest]; [discriminate|].
  destruct (Z.eqb_spec (decodeBit a) 0) as [Ha|Ha]; [|discriminate].
  intros H. exists a, rest. auto.
Qed.

Lemma writeMessage_data_true (message : Message) (n : nat) :
  forall (i : Size) (s s' : Bus),
    0 <= i ->
    writeMessage_data message n i s = Ret true s' ->
    exists acks,
      length acks = n /\ rxPulses s = acks ++ rxPulses s' /\
      Forall (fun a => decodeBit a = 0) acks /\
      (n = 0 \/ Z.to_nat i + n <= length (data message))%nat.
Proof.
  induction n as [|n IH]; intros i s s' Hi H.
  - cbn in H. injection H as <-. exists []. repeat split; auto.
  - rewrite writeMessage_data_S in H.
    destruct (data message !! Z.to_nat i) as [x|] eqn:Hx; [|discriminate].
    change (sendField x 8) with (sendField x (Z.of_nat 8)) in H.
    apply sendField_true in H. destruct H as (a & rest & Hrx & Ha & H).
    apply IH in H; [|lia]. destruct H as (acks & Hlen & Hrx' & Hall & Hfit).
    cbn [rxPulses consume] in Hrx'.
    exists (a :: acks). split; [cbn [length]; lia|]. split.
    { rewrite Hrx, Hrx'. reflexivity. }
    split; [constructor; assumption|]. right.
    apply lookup_lt_Some in Hx. unfold Byte, Data in *.
    destruct Hfit as [Hfit|Hfit]; [lia|].
    replace (Z.to_nat (i + 1)) with (S (Z.to_nat i)) in Hfit by lia. lia.
Qed.

Lemma existsb_id_cases (answers : list bool) :
  existsb id answers = true \/ existsb id answers = false.
Proof. destruct (existsb id answers); auto. Qed.

(** A write that returns success had a free bus and one Acknowledged
    handshake for each of its fields. *)
Lemma writeMessage_true (message : Message) (b b' : Bus) :
  writeMessage message b = Ret true b' ->
  m_isEnabled b = true /\ existsb id (busFree b) = true /\
  (Z.to_nat (dataLength message) <= length (data message))%nat /\
  exists acks,
    rxPulses b = acks ++ rxPulses b' /\
    length acks = (3 + Z.to_nat (dataLength message))%nat /\
    Forall (fun a => decodeBit a = 0) acks.
Proof.
  intros H.
  destruct (m_isEnabled b) eqn:En;
    [|rewrite (writeMessage_disabled message b En) in H; discriminate].
  destruct (existsb_id_cases (busFree b)) as [Hfree|Hfree];
    [|rewrite (writeMessage_busy message b En Hfree) in H; discriminate].
  rewrite Hfree. split; [reflexivity|]. split; [reflexivity|].
  rewrite (writeMessage_free message b En Hfree) in H.
  unfold writeFrame in H.
  rewrite (bind_Ret transmitStartBit _ _ _ tt) in H by apply transmitStartBit_run.
  match type of H with
  | context [bind (if ?c then transmitBit 0 else transmitBit 1) ?k ?s0] =>
      rewrite (bind_Ret (if c then transmitBit 0 else transmitBit 1) k s0
                 (emit (pulse (if c then 0 else 1)) s0) tt) in H
        by (destruct c; apply transmitBit_run)
  end.
  change 12 with (Z.of_nat 12) in H. change 4 with (Z.of_nat 4) in H.
  change 8 with (Z.of_nat 8) in H.
  rewrite (bind_Ret (transmitBits (master message) (Z.of_nat 12)) _ _ _ tt) in H
    by apply transmitBits_run.
  cbv zeta in H.
  rewrite (bind_Ret (transmitBit (calculateParity (master message) (Z.of_nat 12))) _ _ _ tt)
    in H by apply transmitBit_run.
  apply sendField_true in H. destruct H as (a1 & r1 & Hrx1 & Ha1 & H).
  apply sendField_true in H. destruct H as (a2 & r2 & Hrx2 & Ha2 & H).
  apply sendField_true in H. destruct H as (a3 & r3 & Hrx3 & Ha3 & H).
  apply writeMessage_data_true in H; [|lia].
  destruct H as (acks & Hlen & Hrx4 & Hall & Hfit).
  cbn [rxPulses consume emit] in Hrx1, Hrx2, Hrx3, Hrx4.
  split; [change (Z.to_nat 0) with 0%nat in Hfit; lia|].
  exists (a1 :: a2 :: a3 :: acks). split.
  { rewrite Hrx1, Hrx2, Hrx3, Hrx4. reflexivity. }
  split; [cbn [length]; lia|]. repeat constructor; assumption.
Qed.

(** X4: [writeMessage] returns success exactly when the controller is
    enabled, the bus becomes free, the payload array holds [dataLength]
    bytes, and the peer answers Acknowledged in the handshake slot of the
    slave, control and length fields and of every payload byte; it then has
    consumed exactly those [3 + dataLength] pulses. *)
Theorem writeMessage_succeeds_iff_acknowledged (message : Message) (b : Bus) :
  (forall b',
     writeMessage message b = Ret true b' ->
     m_isEnabled b = true /\ existsb id (busFree b) = true /\
     (Z.to_nat (dataLength message) <= length (data message))%nat /\
     exists acks,
       rxPulses b = acks ++ rxPulses b' /\
       length acks = (3 + Z.to_nat (dataLength message))%nat /\
       Forall (fun a => decodeBit a = 0) acks) /\
  (forall acks rest,
     m_isEnabled b = true -> existsb id (busFree b) = true ->
     (Z.to_nat (dataLength message) <= length (data message))%nat ->
     rxPulses b = acks ++ rest ->
     length acks = (3 + Z.to_nat (dataLength message))%nat ->
     Forall (fun a => decodeBit a = 0) acks ->
     exists b', writeMessage message b = Ret true b' /\ rxPulses b' = rest).
Proof.
  split; [intros b'; apply writeMessage_true|].
  intros acks rest En Hfree Hfit Hrx Hlen Hall.
  pose proof (writeMessage_outcome message b En Hfree) as Hout.
  rewrite Hrx, txResult_acked in Hout;
    [|rewrite txFields_length; lia|exact Hall].
  apply Nat.leb_le in Hfit. rewrite Hfit in Hout.
  destruct Hout as [b' Hb']. exists b'. split; [exact Hb'|].
  destruct (writeMessage_true message b b' Hb') as (_ & _ & _ & acks' & Hrx' & Hlen' & _).
  rewrite Hrx in Hrx'. apply app_inj_1 in Hrx'; [|lia].
  symmetry. apply Hrx'.
Qed.

Lemma writeMessage_succeeds_iff_acknowledged_witness :
  exists b',
    writeMessage exampleMessage (mkBus true [33; 33; 33; 33; 20] [false; true] []) =
      Ret true b' /\
    rxPulses b' = [20].
Proof.
  apply (proj2 (writeMessage_succeeds_iff_acknowledged exampleMessage
                  (mkBus true [33; 33; 33; 33; 20] [false; true] []))
           [33; 33; 33; 33] [20]).
  - reflexivity.
  - reflexivity.
  - vm_compute. lia.
  - reflexivity.
  - reflexivity.
  - repeat constructor.
Defined.

(** ** What a read puts on the line *)

Lemma ackTrace_app (e1 e2 : list Event) :
  ackTrace e1 -> ackTrace e2 -> ackTrace (e1 ++ e2).
Proof.
  induction 1 as [|w evs _ IH|evs _ IH]; intros H2.
  - exact H2.
  - cbn [app]. constructor. auto.
  - rewrite <- app_assoc. constructor. auto.
Qed.

Lemma ackTrace_measured (ws : list Time) : ackTrace (map RxPulse ws).
Proof. induction ws; cbn [map]; constructor; assumption. Qed.

Lemma ackTrace_answer (own : bool) (request : Time) :
  ackTrace (answer own request 0).
Proof.
  unfold answer. destruct (_ && _).
  - rewrite <- (app_nil_r (pulse 0)). repeat constructor.
  - constructor.
Qed.

Lemma lineLevel_pulse (l : bool) (bit : Bit) (evs : list Event) :
  lineLevel l (pulse bit ++ evs) = lineLevel false evs.
Proof. reflexivity. Qed.

Lemma ackTrace_released (evs : list Event) :
  ackTrace evs -> forall l, lineLevel l evs = false \/ lineLevel l evs = l.
Proof.
  induction 1 as [|w evs _ IH|evs _ IH]; intros l.
  - right. reflexivity.
  - cbn [lineLevel]. apply IH.
  - rewrite lineLevel_pulse. left. destruct (IH false); assumption.
Qed.

Lemma lineLevel_app (l : bool) (e1 e2 : list Event) :
  lineLevel l (e1 ++ e2) = lineLevel (lineLevel l e1) e2.
Proof.
  revert l. induction e1 as [|e e1 IH]; intros l; [reflexivity|].
  destruct e; cbn [app lineLevel]; apply IH.
Qed.

Lemma traced_shift (s s1 : Bus) (evs : list Event) (o : Outcome (option Message)) :
  logged s s1 evs -> ackTrace evs -> traced s1 o -> traced s o.
Proof.
  intros H1 Hack (evs2 & H2 & Hrun). exists (evs ++ evs2). split.
  - unfold logged in *. rewrite H2, H1, app_assoc. reflexivity.
  - destruct Hrun as [Hrun|(s' & pre & Ho & -> & Hpre)].
    + left. apply ackTrace_app; assumption.
    + right. exists s', (evs ++ pre). split; [exact Ho|].
      split; [apply app_assoc|]. apply ackTrace_app; assumption.
Qed.

Lemma traced_here (s : Bus) (o : Outcome (option Message)) :
  final o = s -> traced s o.
Proof.
  intros <-. exists []. split; [apply logged_refl|]. left. constructor.
Qed.

Lemma fieldBlock_traced (A : Address) (numBits : Size)
    (upd : Data -> Message) (chk : Data -> Data) (k : Data -> M (option Message))
    (s : Bus) :
  0 <= numBits <= 16 ->
  (forall v s1, 0 <= v < 2 ^ numBits -> traced s1 (k v s1)) ->
  traced s (fieldBlock A numBits upd chk k s).
Proof.
  intros Hn Hk.
  destruct (fieldBlock_cases A numBits upd chk k s Hn)
    as [E|(f & rest & Hlen & Hrx & E)]; rewrite E; clear E.
  - apply (traced_shift s (consume (rxPulses s) [] s) (map RxPulse (rxPulses s)));
      [reflexivity|apply ackTrace_measured|].
    apply traced_here. reflexivity.
  - cbv zeta.
    set (valid := checkParity _ _ _).
    set (own := addressed _ _).
    destruct valid.
    + match goal with
      | |- traced _ (k _ ?s1) =>
          apply (traced_shift s s1 (map RxPulse (fieldPulses f) ++
                                    answer own (requestPulse f) 0))
      end.
      * unfold logged, emit, consume. cbn [log]. rewrite app_assoc. reflexivity.
      * apply ackTrace_app; [apply ackTrace_measured|apply ackTrace_answer].
      * apply Hk. apply fieldValue_range; [lia|exact Hlen].
    + exists (map RxPulse (fieldPulses f) ++ answer own (requestPulse f) 1). split.
      * unfold logged, emit, consume. cbn [final log]. rewrite app_assoc. reflexivity.
      * unfold answer. destruct (_ && _).
        -- right. eexists _, _. split; [reflexivity|]. split; [reflexivity|].
           apply ackTrace_measured.
        -- left. rewrite app_nil_r. apply ackTrace_measured.
Qed.

Lemma readMessage_data_traced (A : Address) (n : nat) :
  forall (i : Size) (m : Message) (s : Bus),
    0 <= i -> (Z.to_nat i + n <= length (data m))%nat ->
    traced s (readMessage_data A n i m s).
Proof.
  induction n as [|n IH]; intros i m s Hi Hfit.
  - apply traced_here. reflexivity.
  - rewrite readMessage_data_S by lia.
    apply fieldBlock_traced; [unfold DATA_BIT_SIZE; lia|].
    intros v s1 _. apply IH; [lia|].
    cbn [data set_data]. rewrite length_insert. lia.
Qed.

Lemma afterMaster_traced (A : Address) (m : Message) (s : Bus) :
  length (data m) = 256%nat -> traced s (afterMaster A m s).
Proof.
  intros Hdata. unfold afterMaster.
  apply fieldBlock_traced; [unfold SLAVE_ADDRESS_BIT_SIZE; lia|]. intros a s0 _.
  apply fieldBlock_traced; [unfold CONTROL_BIT_SIZE; lia|]. intros c s1 _.
  apply fieldBlock_traced; [unfold DATA_LENGTH_BIT_SIZE; lia|]. intros l s2 Hl.
  cbv zeta. unfold DATA_LENGTH_BIT_SIZE in Hl.
  apply readMessage_data_traced; [lia|].
  simpl dataLength. destruct (Z.eqb_spec l 0); simpl; rewrite Hdata; lia.
Qed.

Lemma readMessage_traced (A : Address) (s : Bus) : traced s (readMessage A s).
Proof.
  rewrite readMessage_unfold.
  destruct (readHeader_cases (afterMaster A) s)
    as [(_ & E)|[(_ & ws & s' & Hlog & [(E & _)|E])
                |(_ & wS & wB & mws & mp & rest & Hrx & _ & _ & _ & E)]];
    rewrite E.
  - apply traced_here. reflexivity.
  - exists (map RxPulse ws). split; [exact Hlog|]. left. apply ackTrace_measured.
  - exists (map RxPulse ws). split; [exact Hlog|]. left. apply ackTrace_measured.
  - eapply (traced_shift s _ (map RxPulse (wS :: wB :: mws ++ [mp])));
      [apply logged_consume|apply ackTrace_measured|].
    apply afterMaster_traced. unfold masterMessage.
    destruct (decodeBit wB =? 0); reflexivity.
Qed.

(** X5: whatever [readMessage] does, it adds to the log only measured
    pulses and transmitted Acknowledged bits, except that a call returning
    no message may end with one Rejected bit: a Rejected bit is the last
    thing a read does, it is sent at most once, and never by a read that
    returns a message or waits for ever. *)
Theorem readMessage_rejects_last (m_address : Address) (s : Bus) :
  exists evs,
    logged s (final (readMessage m_address s)) evs /\
    (ackTrace evs \/
     exists s' pre,
       readMessage m_address s = Ret None s' /\ evs = pre ++ pulse 1 /\ ackTrace pre).
Proof. exact (readMessage_traced m_address s). Qed.

(** ** The transmit pin at rest *)

Lemma lineLevel_pulses (bits : list Bit) (evs : list Event) :
  lineLevel false (pulses bits ++ evs) = lineLevel false evs.
Proof.
  induction bits as [|bit bits IH]; [reflexivity|].
  unfold pulses in *. cbn [map concat]. rewrite <- app_assoc, lineLevel_pulse.
  exact IH.
Qed.

Lemma lineLevel_txField (v : Data) (n : nat) (evs : list Event) :
  lineLevel false (txField v n ++ evs) = lineLevel false evs.
Proof.
  unfold txField. rewrite <- app_assoc, lineLevel_pulses. apply lineLevel_pulse.
Qed.

Lemma lineLevel_pollEvents (l : bool) (answers : list bool) (evs : list Event) :
  lineLevel l (pollEvents answers ++ evs) = lineLevel l evs.
Proof.
  induction answers as [|[|] answers IH]; [reflexivity|reflexivity|exact IH].
Qed.

Lemma lineLevel_txTrace (fields : list (list Event)) :
  Forall (fun f => forall evs, lineLevel false (f ++ evs) = lineLevel false evs) fields ->
  forall acks, lineLevel false (txTrace fields acks) = false.
Proof.
  induction 1 as [|f fields Hf _ IH]; intros acks; [reflexivity|].
  cbn [txTrace]. rewrite Hf. destruct acks as [|a acks]; [reflexivity|].
  cbn [lineLevel]. destruct (decodeBit a =? 0); [apply IH|reflexivity].
Qed.

Lemma txFields_released (message : Message) :
  Forall (fun f => forall evs, lineLevel false (f ++ evs) = lineLevel false evs)
    (txFields message).
Proof.
  unfold txFields. repeat (constructor; [intros; apply lineLevel_txField|]).
  apply Forall_map, Forall_forall. intros x _ evs. apply lineLevel_txField.
Qed.

Lemma writeMessage_released (message : Message) (s : Bus) :
  exists evs,
    logged s (final (writeMessage message s)) evs /\ lineLevel false evs = false.
Proof.
  destruct (m_isEnabled s) eqn:En.
  - destruct (existsb_id_cases (busFree s)) as [Hfree|Hfree].
    + eexists. split; [apply (writeMessage_trace message s En Hfree)|].
      rewrite lineLevel_pollEvents. unfold txHeader.
      rewrite <- !app_assoc. cbn [app lineLevel].
      rewrite lineLevel_pulse, lineLevel_txField.
      apply lineLevel_txTrace, txFields_released.
    + rewrite (writeMessage_busy message s En Hfree).
      exists (pollEvents (busFree s)). split; [reflexivity|].
      rewrite <- (app_nil_r (pollEvents _)). apply lineLevel_pollEvents.
  - rewrite (writeMessage_disabled message s En).
    exists []. split; [apply logged_refl|reflexivity].
Qed.

(** X6: a call of [readMessage] or of [writeMessage] that finds the
    transmit pin low leaves it low, whatever the outcome of the call: a
    returned value, a parity error, a rejected field, a silent peer. *)
Theorem transmit_pin_left_low (m_address : Address) (message : Message) (s : Bus) :
  (exists evs,
     logged s (final (readMessage m_address s)) evs /\ lineLevel false evs = false) /\
  (exists evs,
     logged s (final (writeMessage message s)) evs /\ lineLevel false evs = false).
Proof.
  split; [|apply writeMessage_released].
  destruct (readMessage_traced m_address s) as (evs & Hlog & Hrun).
  exists evs. split; [exact Hlog|].
  destruct Hrun as [Hack|(s' & pre & _ & -> & _)].
  - destruct (ackTrace_released evs Hack false); assumption.
  - rewrite lineLevel_app. reflexivity.
Qed.

(** ** Duration of a write *)

Lemma delayTotal_app (e1 e2 : list Event) :
  delayTotal (e1 ++ e2) = delayTotal e1 + delayTotal e2.
Proof.
  induction e1 as [|e e1 IH]; [reflexivity|].
  destruct e; cbn [app delayTotal]; lia.
Qed.

Lemma delayTotal_pulse (bit : Bit) : delayTotal (pulse bit) = DATA_BIT_TOTAL_US.
Proof. unfold pulse. destruct (truthy bit); reflexivity. Qed.

Lemma delayTotal_pulses (bits : list Bit) :
  delayTotal (pulses bits) = DATA_BIT_TOTAL_US * Z.of_nat (length bits).
Proof.
  induction bits as [|bit bits IH]; [reflexivity|].
  unfold pulses in *. cbn [map concat length].
  rewrite delayTotal_app, delayTotal_pulse, IH. lia.
Qed.

Lemma delayTotal_txField (v : Data) (n : nat) :
  delayTotal (txField v n) = DATA_BIT_TOTAL_US * (Z.of_nat n + 1).
Proof.
  unfold txField.
  rewrite delayTotal_app, delayTotal_pulses, delayTotal_pulse, msbBits_length. lia.
Qed.

Lemma delayTotal_pollEvents (k : nat) (more : list bool) :
  delayTotal (pollEvents (replicate k false ++ true :: more)) = Z.of_nat k.
Proof.
  induction k as [|k IH]; [reflexivity|].
  cbn [replicate app pollEvents delayTotal]. rewrite IH. lia.
Qed.

Lemma delayTotal_txTrace_bytes (xs : list Byte) :
  forall acks rest,
    length acks = length xs ->
    Forall (fun a => decodeBit a = 0) acks ->
    delayTotal (txTrace (map (fun x => txField x 8) xs) (acks ++ rest)) =
    DATA_BIT_TOTAL_US * 9 * Z.of_nat (length xs).
Proof.
  induction xs as [|x xs IH]; intros acks rest Hlen Hall; [reflexivity|].
  destruct acks as [|a acks]; [discriminate|].
  inversion Hall as [|? ? Ha Hall']; subst.
  cbn [map txTrace app length].
  rewrite delayTotal_app, delayTotal_txField. cbn [delayTotal].
  rewrite Ha. cbn [Z.eqb].
  rewrite IH by (try assumption; cbn [length] in Hlen; lia). lia.
Qed.

(** X7: a write that succeeds spends in [delayUs] one microsecond for each
    poll that found the bus busy, 190 microseconds for the start bit, and 39
    microseconds for each of the [41 + 9 * dataLength] bits of the frame,
    whatever the values of the fields. *)
Theorem writeMessage_duration (message : Message) (b b' : Bus)
    (k : nat) (more : list bool) :
  busFree b = replicate k false ++ true :: more ->
  writeMessage message b = Ret true b' ->
  exists evs,
    logged b b' evs /\
    delayTotal evs =
    Z.of_nat k + START_BIT_TOTAL_US +
    DATA_BIT_TOTAL_US * (41 + 9 * Z.of_nat (Z.to_nat (dataLength message))).
Proof.
  intros Hbus H.
  destruct (writeMessage_true message b b' H)
    as (En & Hfree & Hfit & acks & Hrx & Hlen & Hall).
  pose proof (writeMessage_trace message b En Hfree) as Hlog.
  rewrite H in Hlog. cbn [final] in Hlog.
  eexists. split; [exact Hlog|].
  destruct acks as [|a1 [|a2 [|a3 acks]]]; try (cbn [length] in Hlen; lia).
  inversion Hall as [|? ? Ha1 Hall1]; subst.
  inversion Hall1 as [|? ? Ha2 Hall2]; subst.
  inversion Hall2 as [|? ? Ha3 Hall3]; subst.
  rewrite Hrx, Hbus. unfold txFields, txHeader.
  cbn [txTrace app].
  rewrite Ha1, Ha2, Ha3. cbn [Z.eqb].
  repeat progress
    (rewrite ?delayTotal_app, ?delayTotal_txField, ?delayTotal_pulse,
       ?delayTotal_pollEvents;
     cbn [delayTotal]).
  rewrite delayTotal_txTrace_bytes;
    [|rewrite length_take; cbn [length] in Hlen; unfold Byte in *; lia|exact Hall3].
  rewrite length_take.
  replace (Z.to_nat (dataLength message) `min` length (data message))%nat
    with (Z.to_nat (dataLength message)) by (unfold Byte in *; lia).
  unfold START_BIT_LOW_US, START_BIT_TOTAL_US, START_BIT_HIGH_US, DATA_BIT_TOTAL_US.
  lia.
Qed.

Lemma writeMessage_duration_witness :
  exists evs,
    logged (mkBus true [33; 33; 33; 33] [false; true] [])
      (final (writeMessage exampleMessage (mkBus true [33; 33; 33; 33] [false; true] [])))
      evs /\
    delayTotal evs = 2141.
Proof.
  apply (writeMessage_duration exampleMessage
           (mkBus true [33; 33; 33; 33] [false; true] [])
           (final (writeMessage exampleMessage
                     (mkBus true [33; 33; 33; 33] [false; true] [])))
           1 []).
  - reflexivity.
  - vm_compute. reflexivity.
Defined.

(** ** From a writer to a reader *)

Lemma lineHistory_pulse (bit : Bit) (evs : list Event) :
  lineHistory false 0 (pulse bit ++ evs) = pulseOf bit :: lineHistory false 0 evs.
Proof. unfold pulse, pulseOf. destruct (truthy bit); reflexivity. Qed.

Lemma lineHistory_pulses (bits : list Bit) (evs : list Event) :
  lineHistory false 0 (pulses bits ++ evs) =
  map pulseOf bits ++ lineHistory false 0 evs.
Proof.
  induction bits as [|bit bits IH]; [reflexivity|].
  unfold pulses in *. cbn [map concat]. rewrite <- app_assoc, lineHistory_pulse, IH.
  reflexivity.
Qed.

Lemma lineHistory_txField (v : Data) (n : nat) (evs : list Event) :
  lineHistory false 0 (txField v n ++ evs) =
  map pulseOf (msbBits n v) ++
  pulseOf (calculateParity v (Z.of_nat n)) :: lineHistory false 0 evs.
Proof.
  unfold txField. rewrite <- app_assoc, lineHistory_pulses, lineHistory_pulse.
  reflexivity.
Qed.

Lemma lineHistory_pollEvents (answers : list bool) (evs : list Event) :
  lineHistory false 0 (pollEvents answers ++ evs) = lineHistory false 0 evs.
Proof.
  induction answers as [|[|] answers IH]; [reflexivity|reflexivity|exact IH].
Qed.

Lemma lineHistory_sentField (v : Data) (n : nat) (a : Time) (evs : list Event) :
  lineHistory false 0 (txField v n ++ RxPulse a :: evs) =
  fieldPulses (sentField n v a) ++ lineHistory false 0 evs.
Proof.
  rewrite lineHistory_txField. unfold fieldPulses, sentField.
  cbn [valuePulses parityPulse requestPulse lineHistory].
  rewrite <- app_assoc. reflexivity.
Qed.

Lemma lineHistory_txTrace_bytes (xs : list Byte) :
  forall acks rest,
    length acks = length xs ->
    Forall (fun a => decodeBit a = 0) acks ->
    lineHistory false 0 (txTrace (map (fun x => txField x 8) xs) (acks ++ rest)) =
    concat (map fieldPulses (zip_with (fun x a => sentField 8 x a) xs acks)).
Proof.
  induction xs as [|x xs IH]; intros acks rest Hlen Hall; [reflexivity|].
  destruct acks as [|a acks]; [discriminate|].
  inversion Hall as [|? ? Ha Hall']; subst.
  cbn [map txTrace app zip_with concat].
  rewrite Ha. cbn [Z.eqb].
  rewrite lineHistory_sentField, IH by (try assumption; cbn [length] in Hlen; lia).
  reflexivity.
Qed.

Lemma decodeBit_pulseOf (bit : Bit) : decodeBit (pulseOf bit) = bitValue bit.
Proof. unfold pulseOf, bitValue. destruct (truthy bit); reflexivity. Qed.

Lemma decoded_sent (n : nat) (v : Z) :
  decoded (map pulseOf (msbBits n v)) = v mod 2 ^ Z.of_nat n.
Proof.
  unfold decoded. rewrite map_map.
  rewrite (map_ext _ bitValue) by (intros; apply decodeBit_pulseOf).
  rewrite msbValue_bitValue. apply msbValue_msbBits.
Qed.

Lemma sentField_value (n : nat) (v : Data) (a : Time) :
  fieldValue (sentField n v a) = v mod 2 ^ Z.of_nat n.
Proof. apply decoded_sent. Qed.

Lemma decodeBit_sent_parity (n : nat) (v : Z) :
  decodeBit (pulseOf (calculateParity v (Z.of_nat n))) =
  calculateParity (v mod 2 ^ Z.of_nat n) (Z.of_nat n).
Proof.
  rewrite decodeBit_pulseOf, !calculateParity_xorBits, xorBits_mod by lia.
  unfold bitValue, truthy. destruct (xorBits n v); reflexivity.
Qed.

Lemma sentField_checked (n : nat) (v : Data) (a : Time) :
  fieldChecked n (sentField n v a).
Proof.
  split.
  - cbn [sentField valuePulses]. rewrite length_map. apply msbBits_length.
  - rewrite sentField_value. apply decodeBit_sent_parity.
Qed.

Lemma sentFields_checked (xs : list Byte) :
  forall acks, Forall (fieldChecked 8) (zip_with (fun x a => sentField 8 x a) xs acks).
Proof.
  induction xs as [|x xs IH]; intros [|a acks]; cbn [zip_with]; constructor;
    [apply sentField_checked|apply IH].
Qed.

Lemma sentFields_values (xs : list Byte) :
  Forall (fun x => 0 <= x < 256) xs ->
  forall acks,
    length acks = length xs ->
    map fieldValue (zip_with (fun x a => sentField 8 x a) xs acks) = xs.
Proof.
  induction 1 as [|x xs Hx _ IH]; intros [|a acks] Hlen; try discriminate;
    [reflexivity|].
  cbn [zip_with map]. rewrite sentField_value, IH by (cbn [length] in Hlen; lia).
  rewrite Z.mod_small by (change (2 ^ Z.of_nat 8) with 256; lia). reflexivity.
Qed.

Lemma sentFrame_length (message : Message) (a1 a2 a3 : Time) (acks : list Time) :
  1 <= dataLength message <= 256 ->
  frameLength (sentFrame message a1 a2 a3 acks) = dataLength message.
Proof.
  intros Hl. unfold frameLength, sentFrame. cbn [lengthField].
  rewrite sentField_value. change (2 ^ Z.of_nat 8) with 256.
  rewrite (to_u16_small (dataLength message) 16) by lia.
  destruct (Z.eq_dec (dataLength message) 256) as [E|E].
  - rewrite E. reflexivity.
  - rewrite Z.mod_small by lia.
    destruct (Z.eqb_spec (dataLength message) 0); [lia|reflexivity].
Qed.

Lemma sentFrame_fields (message : Message) (a1 a2 a3 : Time) (acks : list Time) :
  wireMessage message ->
  length acks = Z.to_nat (dataLength message) ->
  length (dataFields (sentFrame message a1 a2 a3 acks)) =
  Z.to_nat (dataLength message).
Proof.
  intros (_ & _ & _ & Hl & Hdata & _) Hlen. cbn [sentFrame dataFields].
  rewrite length_zip_with, length_take. unfold Byte, Data, Time in *. lia.
Qed.

Lemma sentFrame_checked (message : Message) (a1 a2 a3 : Time) (acks : list Time) :
  wireMessage message ->
  length acks = Z.to_nat (dataLength message) ->
  frameChecked (sentFrame message a1 a2 a3 acks).
Proof.
  intros Hw Hlen. pose proof Hw as (_ & _ & _ & Hl & _ & _).
  split; [|split; [|split; [|split; [|split]]]].
  - split; [unfold isStartPulse, sentFrame, START_BIT_HIGH_US; cbn [startPulse]; lia|].
    split.
    + cbn [sentFrame masterPulses]. rewrite length_map. apply msbBits_length.
    + cbn [sentFrame masterPulses masterParityPulse].
      rewrite decoded_sent. apply (decodeBit_sent_parity 12).
  - apply sentField_checked.
  - apply sentField_checked.
  - apply sentField_checked.
  - rewrite sentFrame_length by exact Hl.
    rewrite (sentFrame_fields message a1 a2 a3 acks Hw Hlen). lia.
  - apply sentFields_checked.
Qed.

Lemma sentFrame_message (message : Message) (a1 a2 a3 : Time) (acks : list Time) :
  wireMessage message ->
  length acks = Z.to_nat (dataLength message) ->
  frameMessage (sentFrame message a1 a2 a3 acks) = clearedMessage message.
Proof.
  intros Hw Hlen. pose proof Hw as (Hm & Hs & Hc & Hl & Hdata & Hbytes).
  unfold frameMessage.
  rewrite sentFrame_length by exact Hl.
  rewrite (sentFrame_fields message a1 a2 a3 acks Hw Hlen).
  unfold clearedMessage, set_data. f_equal.
  - unfold frameBroadcast. cbn [sentFrame broadcastPulse].
    destruct (broadcast message); reflexivity.
  - cbn [sentFrame masterPulses]. rewrite decoded_sent.
    apply Z.mod_small. change (2 ^ Z.of_nat 12) with 4096. lia.
  - cbn [sentFrame slaveField]. rewrite sentField_value.
    apply Z.mod_small. change (2 ^ Z.of_nat 12) with 4096. lia.
  - cbn [sentFrame controlField]. rewrite sentField_value.
    apply Z.mod_small. change (2 ^ Z.of_nat 4) with 16. lia.
  - f_equal. cbn [sentFrame dataFields]. apply sentFields_values.
    + apply Forall_take. exact Hbytes.
    + rewrite length_take. unfold Byte, Data, Time in *. lia.
Qed.

Lemma sentFrame_pulses (message : Message) (answers : list bool)
    (a1 a2 a3 : Time) (acks rest : list Time) :
  decodeBit a1 = 0 -> decodeBit a2 = 0 -> decodeBit a3 = 0 ->
  Forall (fun a => decodeBit a = 0) acks ->
  length acks = length (take (Z.to_nat (dataLength message)) (data message)) ->
  lineHistory false 0
    (pollEvents answers ++ txHeader message ++
     txTrace (txFields message) ((a1 :: a2 :: a3 :: acks) ++ rest)) =
  framePulses (sentFrame message a1 a2 a3 acks).
Proof.
  intros Ha1 Ha2 Ha3 Hall Hlen.
  rewrite lineHistory_pollEvents. unfold txHeader, txFields.
  rewrite <- !app_assoc. cbn [app lineHistory].
  rewrite lineHistory_pulse, lineHistory_txField.
  cbn [txTrace app]. rewrite Ha1, Ha2, Ha3. cbn [Z.eqb].
  rewrite !lineHistory_sentField, lineHistory_txTrace_bytes by assumption.
  unfold framePulses, headerPulses, sentFrame.
  cbn [startPulse broadcastPulse masterPulses masterParityPulse slaveField
       controlField lengthField dataFields].
  change (0 + START_BIT_HIGH_US) with START_BIT_HIGH_US.
  cbn [app]. rewrite <- !app_assoc. reflexivity.
Qed.

(** X8: a frame survives the trip from [writeMessage] to [readMessage].
    When a write of a message whose fields fit their wire widths succeeds,
    a node that measures the pulses of that write (the pulses the writer
    drove and the handshake pulses it measured, in order) returns from
    [readMessage] the same broadcast flag, addresses, control, length and
    payload bytes, with the payload entries from [dataLength] on cleared,
    and has consumed exactly those pulses.  This includes the length 256,
    which travels as 0. *)
Theorem write_read_round_trip (message : Message) (m_address : Address)
    (b b' r : Bus) (rest : list Time) :
  wireMessage message ->
  writeMessage message b = Ret true b' ->
  m_isEnabled r = true ->
  (exists evs, logged b b' evs /\ rxPulses r = lineHistory false 0 evs ++ rest) ->
  exists r',
    readMessage m_address r = Ret (Some (clearedMessage message)) r' /\
    rxPulses r' = rest.
Proof.
  intros Hw H Hr (evs & Hevs & Hline).
  destruct (writeMessage_true message b b' H)
    as (En & Hfree & Hfit & acks & Hrx & Hlen & Hall).
  pose proof (writeMessage_trace message b En Hfree) as Hlog.
  rewrite H in Hlog. cbn [final] in Hlog.
  rewrite (logged_inj b b' _ _ Hevs Hlog) in Hline. clear Hevs evs.
  destruct acks as [|a1 [|a2 [|a3 acks]]]; try (cbn [length] in Hlen; lia).
  inversion Hall as [|? ? Ha1 Hall1]; subst.
  inversion Hall1 as [|? ? Ha2 Hall2]; subst.
  inversion Hall2 as [|? ? Ha3 Hall3]; subst.
  assert (Hacks : length acks = Z.to_nat (dataLength message))
    by (cbn [length] in Hlen; lia).
  rewrite Hrx, sentFrame_pulses in Hline;
    [|assumption..|rewrite length_take; unfold Byte, Data, Time in *; lia].
  destruct (readMessage_complete m_address r (sentFrame message a1 a2 a3 acks) rest
              Hr Hline (sentFrame_checked message a1 a2 a3 acks Hw Hacks))
    as (r' & Hrest & Hread).
  exists r'. rewrite Hread, (sentFrame_message message a1 a2 a3 acks Hw Hacks).
  split; [reflexivity|exact Hrest].
Qed.

Lemma write_read_round_trip_witness :
  exists r',
    readMessage 0x123
      (mkBus true
         (lineHistory false 0
            (log (final (writeMessage exampleMessage
                           (mkBus true [33; 33; 33; 33] [true] [])))) ++ [99])
         [] []) =
      Ret (Some (clearedMessage exampleMessage)) r' /\
    rxPulses r' = [99].
Proof.
  apply (write_read_round_trip exampleMessage 0x123
           (mkBus true [33; 33; 33; 33] [true] [])
           (final (writeMessage exampleMessage (mkBus true [33; 33; 33; 33] [true] [])))
           (mkBus true
              (lineHistory false 0
                 (log (final (writeMessage exampleMessage
                                (mkBus true [33; 33; 33; 33] [true] [])))) ++ [99])
              [] [])
           [99]).
  - unfold wireMessage, exampleMessage.
    cbn [master slave control dataLength data].
    repeat (split; [lia|]). split; [reflexivity|].
    constructor; [lia|]. apply Forall_replicate. lia.
  - vm_compute. reflexivity.
  - reflexivity.
  - exists (log (final (writeMessage exampleMessage
                          (mkBus true [33; 33; 33; 33] [true] [])))).
    split; [vm_compute; reflexivity|reflexivity].
Defined.

(** ** The receive pin, sample by sample *)

Lemma pins_bind_Got {A B} (m : Pins.Sampler A) (k : A -> Pins.Sampler B)
    (p p1 : Pins.Line) (a : A) :
  m p = Pins.Got a p1 -> Pins.bind m k p = k a p1.
Proof. intros H. unfold Pins.bind. rewrite H. reflexivity. Qed.

Lemma pins_bind_inv {A B} (m : Pins.Sampler A) (k : A -> Pins.Sampler B)
    (p p' : Pins.Line) (r : B) :
  Pins.bind m k p = Pins.Got r p' ->
  exists a p1, m p = Pins.Got a p1 /\ k a p1 = Pins.Got r p'.
Proof.
  unfold Pins.bind. destruct (m p) as [a p1|p1]; [|discriminate].
  intros H. exists a, p1. auto.
Qed.

Lemma isBusHigh_inv (p p1 : Pins.Line) (l : bool) :
  Pins.isBusHigh p = Pins.Got l p1 ->
  Pins.levels p = l :: Pins.levels p1 /\ Pins.clock p1 = Pins.clock p.
Proof.
  unfold Pins.isBusHigh, Pins.gpio_get_level.
  destruct (Pins.levels p) as [|l0 ls]; [discriminate|].
  intros H. injection H as <- <-. auto.
Qed.

Lemma isBusLow_inv (p p1 : Pins.Line) (l : bool) :
  Pins.isBusLow p = Pins.Got l p1 ->
  Pins.levels p = negb l :: Pins.levels p1 /\ Pins.clock p1 = Pins.clock p.
Proof.
  unfold Pins.isBusLow. intros H.
  apply pins_bind_inv in H. destruct H as (h & p2 & Hh & H).
  injection H as <- <-. rewrite negb_involutive. apply isBusHigh_inv. exact Hh.
Qed.

Lemma getTimeUs_inv (p p1 : Pins.Line) (t : Time) :
  Pins.getTimeUs p = Pins.Got t p1 ->
  Pins.clock p = t :: Pins.clock p1 /\ Pins.levels p1 = Pins.levels p.
Proof.
  unfold Pins.getTimeUs. destruct (Pins.clock p) as [|t0 ts]; [discriminate|].
  intros H. injection H as <- <-. auto.
Qed.

Lemma isBusLow_cons (l : bool) (ls : list bool) (cs : list Time) :
  Pins.isBusLow (Pins.mkLine (l :: ls) cs) = Pins.Got (negb l) (Pins.mkLine ls cs).
Proof. reflexivity. Qed.

Lemma isBusHigh_cons (l : bool) (ls : list bool) (cs : list Time) :
  Pins.isBusHigh (Pins.mkLine (l :: ls) cs) = Pins.Got l (Pins.mkLine ls cs).
Proof. reflexivity. Qed.

Lemma getTimeUs_cons (ls : list bool) (t : Time) (cs : list Time) :
  Pins.getTimeUs (Pins.mkLine ls (t :: cs)) = Pins.Got t (Pins.mkLine ls cs).
Proof. reflexivity. Qed.

(** *** The two waits *)

Lemma waitBusHigh_loop_run (i : nat) :
  forall (fuel : nat) (ls : list bool) (cs : list Time),
    (i < fuel)%nat ->
    Pins.waitBusHigh_loop fuel (Pins.mkLine (replicate i false ++ true :: ls) cs) =
    Pins.Got tt (Pins.mkLine ls cs).
Proof.
  induction i as [|i IH]; intros [|fuel] ls cs Hf; try lia.
  - reflexivity.
  - cbn [replicate app Pins.waitBusHigh_loop].
    rewrite (pins_bind_Got _ _ _ _ _ (isBusLow_cons false _ cs)).
    apply IH. lia.
Qed.

Lemma waitBusLow_loop_run (j : nat) :
  forall (fuel : nat) (ls : list bool) (cs : list Time),
    (j < fuel)%nat ->
    Pins.waitBusLow_loop fuel (Pins.mkLine (replicate j true ++ false :: ls) cs) =
    Pins.Got tt (Pins.mkLine ls cs).
Proof.
  induction j as [|j IH]; intros [|fuel] ls cs Hf; try lia.
  - reflexivity.
  - cbn [replicate app Pins.waitBusLow_loop].
    rewrite (pins_bind_Got _ _ _ _ _ (isBusHigh_cons true _ cs)).
    apply IH. lia.
Qed.

Lemma waitBusHigh_run (i : nat) (ls : list bool) (cs : list Time) :
  Pins.waitBusHigh (Pins.mkLine (replicate i false ++ true :: ls) cs) =
  Pins.Got tt (Pins.mkLine ls cs).
Proof.
  unfold Pins.waitBusHigh. apply waitBusHigh_loop_run.
  cbn [Pins.levels]. rewrite length_app, length_replicate. lia.
Qed.

Lemma waitBusLow_run (j : nat) (ls : list bool) (cs : list Time) :
  Pins.waitBusLow (Pins.mkLine (replicate j true ++ false :: ls) cs) =
  Pins.Got tt (Pins.mkLine ls cs).
Proof.
  unfold Pins.waitBusLow. apply waitBusLow_loop_run.
  cbn [Pins.levels]. rewrite length_app, length_replicate. lia.
Qed.

Lemma waitBusHigh_loop_inv (fuel : nat) :
  forall (p p' : Pins.Line),
    Pins.waitBusHigh_loop fuel p = Pins.Got tt p' ->
    exists i,
      Pins.levels p = replicate i false ++ true :: Pins.levels p' /\
      Pins.clock p' = Pins.clock p.
Proof.
  induction fuel as [|fuel IH]; intros p p' H; [discriminate|].
  cbn [Pins.waitBusHigh_loop] in H.
  apply pins_bind_inv in H. destruct H as (low & p1 & Hlow & H).
  apply isBusLow_inv in Hlow. destruct Hlow as (Hl & Hc).
  destruct low.
  - apply IH in H. destruct H as (i & Hi & Hc').
    exists (S i). rewrite Hl, Hi, Hc', Hc. auto.
  - injection H as <-. exists 0%nat. auto.
Qed.

Lemma waitBusLow_loop_inv (fuel : nat) :
  forall (p p' : Pins.Line),
    Pins.waitBusLow_loop fuel p = Pins.Got tt p' ->
    exists j,
      Pins.levels p = replicate j true ++ false :: Pins.levels p' /\
      Pins.clock p' = Pins.clock p.
Proof.
  induction fuel as [|fuel IH]; intros p p' H; [discriminate|].
  cbn [Pins.waitBusLow_loop] in H.
  apply pins_bind_inv in H. destruct H as (high & p1 & Hhigh & H).
  apply isBusHigh_inv in Hhigh. destruct Hhigh as (Hl & Hc).
  destruct high.
  - apply IH in H. destruct H as (j & Hj & Hc').
    exists (S j). rewrite Hl, Hj, Hc', Hc. auto.
  - injection H as <-. exists 0%nat. auto.
Qed.

(** The common prefix of [receiveStartBit] and [receiveBit], run and
    inverted. *)
Lemma pulseSamples_measured {A} (f : Time -> A) (i j : nat) (t0 t1 : Time)
    (ls : list bool) (cs : list Time) :
  Pins.bind Pins.waitBusHigh (fun _ =>
    Pins.bind Pins.getTimeUs (fun startTime =>
      Pins.bind Pins.waitBusLow (fun _ =>
        Pins.bind Pins.getTimeUs (fun stopTime =>
          Pins.ret (f (stopTime - startTime))))))
    (Pins.mkLine (Pins.pulseSamples i j ls) (t0 :: t1 :: cs)) =
  Pins.Got (f (t1 - t0)) (Pins.mkLine ls cs).
Proof.
  unfold Pins.pulseSamples. cbn [replicate app].
  rewrite (pins_bind_Got _ _ _ _ _ (waitBusHigh_run i _ _)).
  rewrite (pins_bind_Got _ _ _ _ _ (getTimeUs_cons _ t0 _)).
  rewrite (pins_bind_Got _ _ _ _ _ (waitBusLow_run j _ _)).
  rewrite (pins_bind_Got _ _ _ _ _ (getTimeUs_cons _ t1 _)).
  reflexivity.
Qed.

Lemma measured_pulseSamples {A} (f : Time -> A) (p p' : Pins.Line) (r : A) :
  Pins.bind Pins.waitBusHigh (fun _ =>
    Pins.bind Pins.getTimeUs (fun startTime =>
      Pins.bind Pins.waitBusLow (fun _ =>
        Pins.bind Pins.getTimeUs (fun stopTime =>
          Pins.ret (f (stopTime - startTime)))))) p = Pins.Got r p' ->
  exists i j t0 t1,
    Pins.levels p = Pins.pulseSamples i j (Pins.levels p') /\
    Pins.clock p = t0 :: t1 :: Pins.clock p' /\
    r = f (t1 - t0).
Proof.
  intros H.
  apply pins_bind_inv in H. destruct H as ([] & p1 & H1 & H).
  apply pins_bind_inv in H. destruct H as (t0 & p2 & H2 & H).
  apply pins_bind_inv in H. destruct H as ([] & p3 & H3 & H).
  apply pins_bind_inv in H. destruct H as (t1 & p4 & H4 & H).
  injection H as <- <-.
  apply waitBusHigh_loop_inv in H1. destruct H1 as (i & Hl1 & Hc1).
  apply getTimeUs_inv in H2. destruct H2 as (Hc2 & Hl2).
  apply waitBusLow_loop_inv in H3. destruct H3 as (j & Hl3 & Hc3).
  apply getTimeUs_inv in H4. destruct H4 as (Hc4 & Hl4).
  exists i, j, t0, t1. split; [|split; [|reflexivity]].
  - unfold Pins.pulseSamples. cbn [replicate app].
    rewrite Hl1, <- Hl2, Hl3, Hl4. reflexivity.
  - rewrite <- Hc1, Hc2, <- Hc3, Hc4. reflexivity.
Qed.

(** X9: the sample-level [receiveBit] and [receiveStartBit] return exactly
    on lines that show a pulse: some low samples (none when the line is
    already high at the call), one or more high samples and a closing low
    one.  They read the clock twice, at the first high and at the closing
    low sample, return [decodeBit] of the difference, respectively whether
    it lies within 20 microseconds of 171, and leave the samples and readings
    behind the pulse untouched. *)
Theorem pin_pulse_measured (p p' : Pins.Line) :
  (forall bit,
     Pins.receiveBit p = Pins.Got bit p' <->
     exists i j t0 t1,
       Pins.levels p = Pins.pulseSamples i j (Pins.levels p') /\
       Pins.clock p = t0 :: t1 :: Pins.clock p' /\
       bit = decodeBit (t1 - t0)) /\
  (forall isStartBit,
     Pins.receiveStartBit p = Pins.Got isStartBit p' <->
     exists i j t0 t1,
       Pins.levels p = Pins.pulseSamples i j (Pins.levels p') /\
       Pins.clock p = t0 :: t1 :: Pins.clock p' /\
       isStartBit = (151 <=? t1 - t0) && (t1 - t0 <=? 191)).
Proof.
  split; intros r; split.
  - apply (measured_pulseSamples decodeBit).
  - intros (i & j & t0 & t1 & Hl & Hc & ->).
    destruct p as [pl pc], p' as [ls cs]. cbn [Pins.levels Pins.clock] in Hl, Hc.
    subst pl pc.
    apply (pulseSamples_measured decodeBit).
  - apply (measured_pulseSamples (fun d => (151 <=? d) && (d <=? 191))).
  - intros (i & j & t0 & t1 & Hl & Hc & ->).
    destruct p as [pl pc], p' as [ls cs]. cbn [Pins.levels Pins.clock] in Hl, Hc.
    subst pl pc.
    apply (pulseSamples_measured (fun d => (151 <=? d) && (d <=? 191))).
Qed.

(** X10: the pulse-level driver agrees with the sample-level one.  On a
    line that shows a pulse whose two clock readings are [t0] and [t1], the
    sample-level [receiveBit] and [receiveStartBit] return what the
    pulse-level functions return on a bus whose next measured pulse is
    [t1 - t0]. *)
Theorem pulse_level_agrees (i j : nat) (t0 t1 : Time) (ls : list bool)
    (cs rest : list Time) (b : Bus) :
  rxPulses b = (t1 - t0) :: rest ->
  (exists bit b',
     Pins.receiveBit (Pins.mkLine (Pins.pulseSamples i j ls) (t0 :: t1 :: cs)) =
       Pins.Got bit (Pins.mkLine ls cs) /\
     receiveBit b = Ret bit b' /\ rxPulses b' = rest) /\
  (exists isStartBit b',
     Pins.receiveStartBit (Pins.mkLine (Pins.pulseSamples i j ls) (t0 :: t1 :: cs)) =
       Pins.Got isStartBit (Pins.mkLine ls cs) /\
     receiveStartBit b = Ret isStartBit b' /\ rxPulses b' = rest).
Proof.
  intros Hrx. split.
  - exists (decodeBit (t1 - t0)), (consume [t1 - t0] rest b).
    split; [apply (pulseSamples_measured decodeBit)|].
    split; [|reflexivity].
    unfold receiveBit, bind, measureHigh. rewrite Hrx. reflexivity.
  - exists ((151 <=? t1 - t0) && (t1 - t0 <=? 191)), (consume [t1 - t0] rest b).
    split; [apply (pulseSamples_measured (fun d => (151 <=? d) && (d <=? 191)))|].
    split; [|reflexivity].
    unfold receiveStartBit, bind, measureHigh. rewrite Hrx. reflexivity.
Qed.

Lemma pulse_level_agrees_witness :
  exists bit b',
    Pins.receiveBit
      (Pins.mkLine (Pins.pulseSamples 2 3 [true]) [1000; 1020; 1050]) =
      Pins.Got bit (Pins.mkLine [true] [1050]) /\
    receiveBit (mkBus true [20; 33] [] []) = Ret bit b' /\ rxPulses b' = [33].
Proof.
  apply (proj1 (pulse_level_agrees 2 3 1000 1020 [true] [1050] [33]
                  (mkBus true [20; 33] [] []) eq_refl)).
Defined.

(** *** Sensing a free bus *)

Lemma isBusFree_loop_true (n : nat) :
  forall (fuel : nat) (startTime : Time) (cs : list Time) (c : Time)
         (ls : list bool) (rest : list Time),
    (n < fuel)%nat -> length cs = n ->
    Forall (fun t => t - startTime < DATA_BIT_TOTAL_US) cs ->
    DATA_BIT_TOTAL_US <= c - startTime ->
    Pins.isBusFree_loop fuel startTime
      (Pins.mkLine (replicate (S n) false ++ ls) (cs ++ c :: rest)) =
    Pins.Got true (Pins.mkLine ls rest).
Proof.
  induction n as [|n IH]; intros [|fuel] startTime cs c ls rest Hf Hlen Hcs Hc;
    try lia.
  - destruct cs; [|discriminate].
    cbn [replicate app Pins.isBusFree_loop].
    rewrite (pins_bind_Got _ _ _ _ _ (isBusLow_cons false _ _)). cbn [negb].
    rewrite (pins_bind_Got _ _ _ _ _ (getTimeUs_cons _ c _)). cbv zeta.
    rewrite Z.geb_leb. destruct (Z.leb_spec DATA_BIT_TOTAL_US (c - startTime)); [|lia].
    reflexivity.
  - destruct cs as [|t cs]; [discriminate|].
    inversion Hcs as [|? ? Ht Hcs']; subst.
    change (replicate (S (S n)) false ++ ls)
      with (false :: (replicate (S n) false ++ ls)).
    cbn [app Pins.isBusFree_loop].
    rewrite (pins_bind_Got _ _ _ _ _ (isBusLow_cons false _ _)). cbn [negb].
    rewrite (pins_bind_Got _ _ _ _ _ (getTimeUs_cons _ t _)). cbv zeta.
    rewrite Z.geb_leb. destruct (Z.leb_spec DATA_BIT_TOTAL_US (t - startTime)); [lia|].
    apply IH; [lia|cbn [length] in Hlen; lia|assumption|assumption].
Qed.

Lemma isBusFree_loop_false (n : nat) :
  forall (fuel : nat) (startTime : Time) (cs : list Time)
         (ls : list bool) (rest : list Time),
    (n < fuel)%nat -> length cs = n ->
    Forall (fun t => t - startTime < DATA_BIT_TOTAL_US) cs ->
    Pins.isBusFree_loop fuel startTime
      (Pins.mkLine (replicate n false ++ true :: ls) (cs ++ rest)) =
    Pins.Got false (Pins.mkLine ls rest).
Proof.
  induction n as [|n IH]; intros [|fuel] startTime cs ls rest Hf Hlen Hcs; try lia.
  - destruct cs; [|discriminate]. reflexivity.
  - destruct cs as [|t cs]; [discriminate|].
    inversion Hcs as [|? ? Ht Hcs']; subst.
    cbn [replicate app Pins.isBusFree_loop].
    rewrite (pins_bind_Got _ _ _ _ _ (isBusLow_cons false _ _)). cbn [negb].
    rewrite (pins_bind_Got _ _ _ _ _ (getTimeUs_cons _ t _)). cbv zeta.
    rewrite Z.geb_leb. destruct (Z.leb_spec DATA_BIT_TOTAL_US (t - startTime)); [lia|].
    apply IH; [lia|cbn [length] in Hlen; lia|assumption].
Qed.

Lemma isBusFree_loop_inv (fuel : nat) (startTime : Time) :
  forall (p p' : Pins.Line) (r : bool),
    Pins.isBusFree_loop fuel startTime p = Pins.Got r p' ->
    if r then
      exists cs c,
        Pins.levels p = replicate (S (length cs)) false ++ Pins.levels p' /\
        Pins.clock p = cs ++ c :: Pins.clock p' /\
        Forall (fun t => t - startTime < DATA_BIT_TOTAL_US) cs /\
        DATA_BIT_TOTAL_US <= c - startTime
    else
      exists cs,
        Pins.levels p = replicate (length cs) false ++ true :: Pins.levels p' /\
        Pins.clock p = cs ++ Pins.clock p' /\
        Forall (fun t => t - startTime < DATA_BIT_TOTAL_US) cs.
Proof.
  induction fuel as [|fuel IH]; intros p p' r H; [discriminate|].
  cbn [Pins.isBusFree_loop] in H.
  apply pins_bind_inv in H. destruct H as (low & p1 & Hlow & H).
  apply isBusLow_inv in Hlow. destruct Hlow as (Hl & Hc).
  destruct low; cbn [negb] in Hl.
  - apply pins_bind_inv in H. destruct H as (t & p2 & Ht & H).
    apply getTimeUs_inv in Ht. destruct Ht as (Hc2 & Hl2). cbv zeta in H.
    rewrite Z.geb_leb in H.
    destruct (Z.leb_spec DATA_BIT_TOTAL_US (t - startTime)) as [Hge|Hlt].
    + injection H as <- <-. exists [], t. cbn [length replicate app].
      rewrite Hl, <- Hl2, <- Hc, Hc2. auto.
    + apply IH in H. destruct r.
      * destruct H as (cs & c & Hl3 & Hc3 & Hcs & Hge).
        exists (t :: cs), c. split; [|split; [|split]].
        -- rewrite Hl, <- Hl2, Hl3. reflexivity.
        -- rewrite <- Hc, Hc2, Hc3. reflexivity.
        -- constructor; assumption.
        -- exact Hge.
      * destruct H as (cs & Hl3 & Hc3 & Hcs).
        exists (t :: cs). split; [|split].
        -- rewrite Hl, <- Hl2, Hl3. reflexivity.
        -- rewrite <- Hc, Hc2, Hc3. reflexivity.
        -- constructor; assumption.
  - injection H as <- <-. exists []. cbn [length replicate app].
    rewrite Hl, Hc. auto.
Qed.

(** X11: what [isBusFree] reports, sample by sample.  It answers true
    exactly when the first sample and every later one it takes is low and a
    clock reading taken after such a sample is 39 microseconds or more past
    the first reading: at least two samples and two readings are used.  It
    answers false exactly when the first sample is high (the clock is then
    not read at all) or a high sample comes while all readings are still
    less than 39 microseconds past the first. *)
Theorem isBusFree_sampled (p p' : Pins.Line) :
  (Pins.isBusFree p = Pins.Got true p' <->
   exists startTime cs c,
     Pins.levels p = replicate (S (S (length cs))) false ++ Pins.levels p' /\
     Pins.clock p = startTime :: cs ++ c :: Pins.clock p' /\
     Forall (fun t => t - startTime < 39) cs /\
     39 <= c - startTime) /\
  (Pins.isBusFree p = Pins.Got false p' <->
   (Pins.levels p = true :: Pins.levels p' /\ Pins.clock p = Pins.clock p') \/
   exists startTime cs,
     Pins.levels p = replicate (S (length cs)) false ++ true :: Pins.levels p' /\
     Pins.clock p = startTime :: cs ++ Pins.clock p' /\
     Forall (fun t => t - startTime < 39) cs).
Proof.
  split; split.
  - intros H. unfold Pins.isBusFree in H.
    apply pins_bind_inv in H. destruct H as (high & p1 & Hhigh & H).
    apply isBusHigh_inv in Hhigh. destruct Hhigh as (Hl & Hc).
    destruct high; [discriminate|].
    apply pins_bind_inv in H. destruct H as (t & p2 & Ht & H).
    apply getTimeUs_inv in Ht. destruct Ht as (Hc2 & Hl2).
    apply isBusFree_loop_inv in H. destruct H as (cs & c & Hl3 & Hc3 & Hcs & Hge).
    exists t, cs, c. split; [|split; [|split]]; try assumption.
    + rewrite Hl, <- Hl2, Hl3. reflexivity.
    + rewrite <- Hc, Hc2, Hc3. reflexivity.
  - intros (t & cs & c & Hl & Hc & Hcs & Hge).
    destruct p as [pl pc], p' as [ls rest]. cbn [Pins.levels Pins.clock] in Hl, Hc.
    subst pl pc. unfold Pins.isBusFree.
    change (replicate (S (S (length cs))) false ++ ls)
      with (false :: (replicate (S (length cs)) false ++ ls)).
    rewrite (pins_bind_Got _ _ _ _ _ (isBusHigh_cons false _ _)).
    rewrite (pins_bind_Got _ _ _ _ _ (getTimeUs_cons _ t _)).
    apply isBusFree_loop_true; try assumption; [|reflexivity].
    cbn [Pins.levels]. rewrite length_app, length_replicate. lia.
  - intros H. unfold Pins.isBusFree in H.
    apply pins_bind_inv in H. destruct H as (high & p1 & Hhigh & H).
    apply isBusHigh_inv in Hhigh. destruct Hhigh as (Hl & Hc).
    destruct high.
    + injection H as <-. left. auto.
    + right.
      apply pins_bind_inv in H. destruct H as (t & p2 & Ht & H).
      apply getTimeUs_inv in Ht. destruct Ht as (Hc2 & Hl2).
      apply isBusFree_loop_inv in H. destruct H as (cs & Hl3 & Hc3 & Hcs).
      exists t, cs. split; [|split]; try assumption.
      * rewrite Hl, <- Hl2, Hl3. reflexivity.
      * rewrite <- Hc, Hc2, Hc3. reflexivity.
  - destruct p as [pl pc], p' as [ls rest]. cbn [Pins.levels Pins.clock].
    intros [(-> & ->)|(t & cs & -> & -> & Hcs)]; [reflexivity|].
    unfold Pins.isBusFree.
    change (replicate (S (length cs)) false ++ true :: ls)
      with (false :: (replicate (length cs) false ++ true :: ls)).
    rewrite (pins_bind_Got _ _ _ _ _ (isBusHigh_cons false _ _)).
    rewrite (pins_bind_Got _ _ _ _ _ (getTimeUs_cons _ t _)).
    apply isBusFree_loop_false; try assumption; [|reflexivity].
    cbn [Pins.levels]. rewrite length_app, length_replicate. cbn [length]. lia.
Qed.

(** *** Waiting without a timeout *)

Lemma waitBusHigh_loop_idle (n : nat) :
  forall (fuel : nat) (cs : list Time),
    (n < fuel)%nat ->
    Pins.waitBusHigh_loop fuel (Pins.mkLine (replicate n false) cs) =
    Pins.Starved (Pins.mkLine [] cs).
Proof.
  induction n as [|n IH]; intros [|fuel] cs Hf; try lia.
  - reflexivity.
  - cbn [replicate Pins.waitBusHigh_loop].
    rewrite (pins_bind_Got _ _ _ _ _ (isBusLow_cons false _ cs)).
    apply IH. lia.
Qed.

Lemma waitBusLow_loop_stuck (n : nat) :
  forall (fuel : nat) (cs : list Time),
    (n < fuel)%nat ->
    Pins.waitBusLow_loop fuel (Pins.mkLine (replicate n true) cs) =
    Pins.Starved (Pins.mkLine [] cs).
Proof.
  induction n as [|n IH]; intros [|fuel] cs Hf; try lia.
  - reflexivity.
  - cbn [replicate Pins.waitBusLow_loop].
    rewrite (pins_bind_Got _ _ _ _ _ (isBusHigh_cons true _ cs)).
    apply IH. lia.
Qed.

(** X12: the receiver has no timeout.  However many samples show an idle
    (low) line, [receiveBit] and [receiveStartBit] take them all without
    returning and without reading the clock; and once the line is high,
    however many samples show it stuck high, they take them all without
    returning, having read the clock once. *)
Theorem receive_has_no_timeout (n i j : nat) (t0 : Time) (cs : list Time) :
  Pins.receiveBit (Pins.mkLine (replicate n false) cs) =
    Pins.Starved (Pins.mkLine [] cs) /\
  Pins.receiveStartBit (Pins.mkLine (replicate n false) cs) =
    Pins.Starved (Pins.mkLine [] cs) /\
  Pins.receiveBit (Pins.mkLine (replicate i false ++ replicate (S j) true) (t0 :: cs)) =
    Pins.Starved (Pins.mkLine [] cs) /\
  Pins.receiveStartBit
    (Pins.mkLine (replicate i false ++ replicate (S j) true) (t0 :: cs)) =
    Pins.Starved (Pins.mkLine [] cs).
Proof.
  assert (Hidle : Pins.waitBusHigh (Pins.mkLine (replicate n false) cs) =
                  Pins.Starved (Pins.mkLine [] cs)).
  { unfold Pins.waitBusHigh. apply waitBusHigh_loop_idle.
    cbn [Pins.levels]. rewrite length_replicate. lia. }
  assert (Hstuck : Pins.waitBusLow (Pins.mkLine (replicate j true) cs) =
                   Pins.Starved (Pins.mkLine [] cs)).
  { unfold Pins.waitBusLow. apply waitBusLow_loop_stuck.
    cbn [Pins.levels]. rewrite length_replicate. lia. }
  repeat split.
  - unfold Pins.receiveBit, Pins.bind at 1. rewrite Hidle. reflexivity.
  - unfold Pins.receiveStartBit. cbv zeta. unfold Pins.bind at 1.
    rewrite Hidle. reflexivity.
  - unfold Pins.receiveBit. cbn [replicate].
    rewrite (pins_bind_Got _ _ _ _ _ (waitBusHigh_run i _ _)).
    rewrite (pins_bind_Got _ _ _ _ _ (getTimeUs_cons _ t0 _)).
    unfold Pins.bind at 1. rewrite Hstuck. reflexivity.
  - unfold Pins.receiveStartBit. cbv zeta. cbn [replicate].
    rewrite (pins_bind_Got _ _ _ _ _ (waitBusHigh_run i _ _)).
    rewrite (pins_bind_Got _ _ _ _ _ (getTimeUs_cons _ t0 _)).
    unfold Pins.bind at 1. rewrite Hstuck. reflexivity.
Qed.

(** ** Single-bit errors on the line *)

Lemma testbit_above (v : Z) (n k : Z) :
  0 <= n -> 0 <= v < 2 ^ n -> n <= k -> Z.testbit v k = false.
Proof.
  intros Hn Hv Hk. rewrite <- (Z.mod_small v (2 ^ n)) by exact Hv.
  apply Z.mod_pow2_bits_high. lia.
Qed.

Lemma truthy_decodeBit_flip (w w' : Time) :
  decodeBit w' <> decodeBit w ->
  truthy (decodeBit w') = negb (truthy (decodeBit w)).
Proof.
  intros H. destruct (decodeBit_range w) as [E|E], (decodeBit_range w') as [E'|E'];
    rewrite E, E' in *; try reflexivity; congruence.
Qed.

(** Replacing the [i]-th pulse of a field by one of the other symbol flips
    bit [n - 1 - i] of the decoded value. *)
Lemma decoded_flip (ws : list Time) (i : nat) (w w' : Time) :
  ws !! i = Some w -> decodeBit w' <> decodeBit w ->
  decoded (<[i := w']> ws) =
  Z.lxor (decoded ws) (2 ^ Z.of_nat (length ws - 1 - i)).
Proof.
  intros Hi Hw. pose proof (lookup_lt_Some _ _ _ Hi) as Hlt.
  apply Z.bits_inj'. intros k Hk.
  rewrite Z.lxor_spec, Z.pow2_bits_eqb by lia.
  destruct (Z.lt_ge_cases k (Z.of_nat (length ws))) as [Hin|Hout].
  - set (j := (length ws - 1 - Z.to_nat k)%nat).
    assert (Hkj : k = Z.of_nat (length ws - 1 - j)) by (unfold j; lia).
    assert (Hj : (j < length ws)%nat) by (unfold j; lia).
    destruct (lookup_lt_is_Some_2 ws j Hj) as [wj Hwj].
    rewrite Hkj at 2. rewrite (decoded_testbit ws j wj Hwj).
    destruct (Nat.eq_dec i j) as [E|E].
    + subst j. rewrite <- E in *.
      assert (wj = w) by congruence. subst wj.
      rewrite Hkj.
      rewrite <- (length_insert ws i w') at 1.
      rewrite (decoded_testbit (<[i := w']> ws) i w')
        by (apply list_lookup_insert_eq; exact Hlt).
      rewrite Z.eqb_refl, (truthy_decodeBit_flip w w') by exact Hw.
      destruct (truthy (decodeBit w)); reflexivity.
    + rewrite Hkj at 1.
      rewrite <- (length_insert ws i w') at 1.
      rewrite (decoded_testbit (<[i := w']> ws) j wj)
        by (rewrite list_lookup_insert_ne by exact E; exact Hwj).
      destruct (Z.eqb_spec (Z.of_nat (length ws - 1 - i)) k) as [E2|E2];
        [exfalso; apply E; unfold j; lia|].
      rewrite xorb_false_r. reflexivity.
  - rewrite (testbit_above (decoded (<[i := w']> ws)) (Z.of_nat (length ws)) k);
      [|lia|rewrite <- (length_insert ws i w'); apply decoded_range|lia].
    rewrite (testbit_above (decoded ws) (Z.of_nat (length ws)) k);
      [|lia|apply decoded_range|lia].
    destruct (Z.eqb_spec (Z.of_nat (length ws - 1 - i)) k); [lia|reflexivity].
Qed.

(** A field that passed its parity check fails it once one of its bits is
    flipped on the line. *)
Lemma flipped_corrupt (n : nat) (f f' : RxField) :
  fieldChecked n f -> flipped f f' -> fieldCorrupt n f'.
Proof.
  intros (Hlen & Hpar) (_ & [(i & w & w' & Hi & Hw & Hv & Hp)|(Hv & Hp)]).
  - split; [rewrite Hv, length_insert; exact Hlen|].
    unfold fieldValue in *. rewrite Hv, Hp, Hpar.
    rewrite (decoded_flip _ i w w' Hi Hw), !calculateParity_xorBits, xorBits_flip.
    pose proof (lookup_lt_Some _ _ _ Hi) as Hlt.
    replace (length (valuePulses f) - 1 - i <? n)%nat with true
      by (symmetry; apply Nat.ltb_lt; lia).
    destruct (xorBits n (decoded (valuePulses f))); discriminate.
  - split; [rewrite Hv; exact Hlen|].
    unfold fieldValue in *. rewrite Hv, <- Hpar. exact Hp.
Qed.

(** X13: [readMessage] rejects every frame in which one bit of a
    parity-protected field was flipped on the line.  If the fields before it
    pass their checks and the field itself would pass but for one value
    pulse or its parity pulse having been replaced by a pulse of the other
    symbol, the call returns no message, having consumed the frame up to and
    including the handshake slot of that field.  This holds for the master
    address (first part) and for the slave address, control, length and
    payload fields (second part). *)
Theorem single_bit_error_rejected (m_address : Address) (b : Bus)
    (wS wB : Time) (rest : list Time) :
  m_isEnabled b = true -> isStartPulse wS ->
  (forall f f',
     fieldChecked 12 f -> flipped f f' ->
     rxPulses b = wS :: wB :: valuePulses f' ++ parityPulse f' :: rest ->
     exists b', readMessage m_address b = Ret None b' /\ rxPulses b' = rest) /\
  (forall mws mp good f f',
     length mws = 12%nat ->
     decodeBit mp = calculateParity (decoded mws) 12 ->
     (forall k g, good !! k = Some g -> fieldChecked (fieldWidth k) g) ->
     (forall fl, good !! 2%nat = Some fl ->
        Z.of_nat (length good) - 3 <
        if fieldValue fl =? 0 then 256 else fieldValue fl) ->
     fieldChecked (fieldWidth (length good)) f -> flipped f f' ->
     rxPulses b =
       wS :: wB :: mws ++ mp ::
       concat (map fieldPulses good) ++ fieldPulses f' ++ rest ->
     exists b', readMessage m_address b = Ret None b' /\ rxPulses b' = rest).
Proof.
  intros En HS. split.
  - intros f f' Hf Hflip Hrx.
    destruct (flipped_corrupt 12 f f' Hf Hflip) as (Hlen & Hbad).
    eexists. split.
    + apply (readMessage_master_corrupt m_address b wS wB (valuePulses f')
               (parityPulse f') rest En Hrx HS Hlen Hbad).
    + reflexivity.
  - intros mws mp good f f' Hlen Hmp Hgood Hfit Hf Hflip Hrx.
    destruct (readMessage_field_corrupt m_address b wS wB mws mp good f' rest
                En Hrx HS Hlen Hmp Hgood
                (flipped_corrupt _ f f' Hf Hflip) Hfit) as (b' & Hrest & Hread).
    exists b'. auto.
Qed.

Lemma single_bit_error_rejected_witness :
  exists b',
    readMessage 0x123
      (mkBus true
         (START_BIT_HIGH_US :: pulseOf 1 :: map pulseOf (msbBits 12 0x456) ++
          pulseOf (calculateParity 0x456 12) ::
          concat (map fieldPulses [wireField 12 0x123 0]) ++
          fieldPulses (mkRxField [33; 20; 20; 33] 20 33) ++ [33; 33])
         [] []) = Ret None b' /\
    rxPulses b' = [33; 33].
Proof.
  apply (proj2 (single_bit_error_rejected 0x123
                  (mkBus true
                     (START_BIT_HIGH_US :: pulseOf 1 ::
                      map pulseOf (msbBits 12 0x456) ++
                      pulseOf (calculateParity 0x456 12) ::
                      concat (map fieldPulses [wireField 12 0x123 0]) ++
                      fieldPulses (mkRxField [33; 20; 20; 33] 20 33) ++ [33; 33])
                     [] [])
                  START_BIT_HIGH_US (pulseOf 1) [33; 33] eq_refl
                  ltac:(unfold isStartPulse, START_BIT_HIGH_US; lia))
           (map pulseOf (msbBits 12 0x456)) (pulseOf (calculateParity 0x456 12))
           [wireField 12 0x123 0] (wireField 4 2 0)
           (mkRxField [33; 20; 20; 33] 20 33)).
  - reflexivity.
  - vm_compute. reflexivity.
  - intros k g H. destruct k as [|k]; [|destruct k; discriminate H].
    injection H as <-. split; [reflexivity|vm_compute; reflexivity].
  - intros fl H. discriminate H.
  - split; [reflexivity|vm_compute; reflexivity].
  - split; [reflexivity|]. left. exists 1%nat, 33, 20.
    split; [reflexivity|]. split; [vm_compute; discriminate|].
    split; reflexivity.
  - reflexivity.
Defined.

(** ** Size of a frame on the line *)

Lemma dataFields_pulses (fds : list RxField) :
  Forall (fieldChecked 8) fds ->
  length (concat (map fieldPulses fds)) = (10 * length fds)%nat.
Proof.
  induction 1 as [|f fds (Hlen & _) _ IH]; [reflexivity|].
  cbn [map concat length]. rewrite length_app, fieldPulses_length, Hlen, IH. lia.
Qed.

(** X14: a read that returns a message has measured exactly
    [45 + 10 * dataLength] pulses: the start bit, the broadcast bit, 13 for
    the master field, and a field, its parity bit and its handshake slot for
    the slave address (14), the control (6), the length (10) and every
    payload byte (10 each).  The pulses behind the frame are left for the
    next call. *)
Theorem readMessage_frame_size (m_address : Address) (b b' : Bus) (msg : Message) :
  readMessage m_address b = Ret (Some msg) b' ->
  exists ws,
    rxPulses b = ws ++ rxPulses b' /\
    Z.of_nat (length ws) = 45 + 10 * dataLength msg.
Proof.
  intros H. destruct (readMessage_Some m_address b b' msg H) as (fr & Hrx & Hchk & ->).
  exists (framePulses fr). split; [exact Hrx|].
  destruct Hchk as ((_ & Hm & _) & (Hs & _) & (Hc & _) & (Hl & _) & Hn & Hall).
  unfold framePulses, headerPulses.
  rewrite !length_app. cbn [length].
  rewrite !length_app, !fieldPulses_length, Hm, Hs, Hc, Hl, (dataFields_pulses _ Hall).
  cbn [frameMessage dataLength length]. lia.
Qed.

Lemma readMessage_frame_size_witness :
  exists ws,
    rxPulses exampleBus = ws ++ rxPulses (final (readMessage 0x123 exampleBus)) /\
    Z.of_nat (length ws) = 45 + 10 * dataLength (frameMessage exampleFrame).
Proof.
  apply (readMessage_frame_size 0x123 exampleBus
           (final (readMessage 0x123 exampleBus)) (frameMessage exampleFrame)).
  vm_compute. reflexivity.
Defined.

(** ** Fields wider than their place in the frame *)

Lemma calculateParity_mod (n : nat) (v : Z) :
  calculateParity (v mod 2 ^ Z.of_nat n) (Z.of_nat n) = calculateParity v (Z.of_nat n).
Proof. rewrite !calculateParity_xorBits, xorBits_mod by lia. reflexivity. Qed.

Lemma txField_mod (n : nat) (v : Z) : txField (v mod 2 ^ Z.of_nat n) n = txField v n.
Proof. unfold txField. rewrite msbBits_mod, calculateParity_mod by lia. reflexivity. Qed.

Lemma sendField_mod (v : Data) (n : nat) (k : M bool) (s : Bus) :
  sendField (v mod 2 ^ Z.of_nat n) (Z.of_nat n) k s = sendField v (Z.of_nat n) k s.
Proof. rewrite !sendField_run, txField_mod. reflexivity. Qed.

Lemma sendField_ext (v : Data) (n : nat) (k1 k2 : M bool) (s : Bus) :
  (forall s1, k1 s1 = k2 s1) ->
  sendField v (Z.of_nat n) k1 s = sendField v (Z.of_nat n) k2 s.
Proof.
  intros Hk. rewrite !sendField_run. destruct (rxPulses s); [reflexivity|].
  rewrite Hk. reflexivity.
Qed.

Lemma writeMessage_data_ext (m1 m2 : Message) (n : nat) :
  data m1 = data m2 ->
  forall (i : Size) (s : Bus), writeMessage_data m1 n i s = writeMessage_data m2 n i s.
Proof.
  intros Hd. induction n as [|n IH]; intros i s; [reflexivity|].
  rewrite !writeMessage_data_S, Hd.
  destruct (data m2 !! Z.to_nat i) as [x|]; [|reflexivity].
  apply (sendField_ext x 8). intros s1. apply IH.
Qed.

Lemma writeFrame_onWire (message : Message) (s : Bus) :
  writeFrame (onWire message) s = writeFrame message s.
Proof.
  unfold writeFrame, onWire. cbn [broadcast master slave control dataLength data].
  apply bind_ext. intros [] s1 _. apply bind_ext. intros [] s2 _.
  change 12 with (Z.of_nat 12). change 4 with (Z.of_nat 4).
  rewrite (bind_Ret (transmitBits (master message mod 2 ^ Z.of_nat 12) (Z.of_nat 12))
             _ s2 _ tt (transmitBits_run _ _ _)).
  rewrite (bind_Ret (transmitBits (master message) (Z.of_nat 12))
             _ s2 _ tt (transmitBits_run _ _ _)).
  cbv zeta. rewrite msbBits_mod, calculateParity_mod by lia.
  apply bind_ext. intros [] s3 _.
  rewrite sendField_mod. apply sendField_ext. intros s4.
  rewrite sendField_mod. apply sendField_ext. intros s5.
  apply (sendField_ext _ 8). intros s6.
  apply writeMessage_data_ext. reflexivity.
Qed.

(** X15: [writeMessage] does not check that the fields fit their places
    in the frame: it sends the low 12 bits of each address and the low 4
    bits of the control, with the parity of those bits, and drops the rest.
    The call behaves in every respect as the call for the message whose
    addresses and control are cut to those widths. *)
Theorem writeMessage_drops_high_bits (message : Message) (b : Bus) :
  writeMessage message b = writeMessage (onWire message) b.
Proof.
  destruct (m_isEnabled b) eqn:En.
  - destruct (existsb_id_cases (busFree b)) as [Hfree|Hfree].
    + rewrite !(writeMessage_free _ b En Hfree). symmetry. apply writeFrame_onWire.
    + rewrite !(writeMessage_busy _ b En Hfree). reflexivity.
  - rewrite !(writeMessage_disabled _ b En). reflexivity.
Qed.

(** ** The text form of a message *)

Lemma digit_cases (d : Z) :
  0 <= d < 16 ->
  d = 0 \/ d = 1 \/ d = 2 \/ d = 3 \/ d = 4 \/ d = 5 \/ d = 6 \/ d = 7 \/
  d = 8 \/ d = 9 \/ d = 10 \/ d = 11 \/ d = 12 \/ d = 13 \/ d = 14 \/ d = 15.
Proof. lia. Qed.

Ltac digit_split H :=
  apply digit_cases in H;
  repeat (destruct H as [H|H]; [subst|]); subst.

Lemma upperDigit_inj (a b : Z) :
  0 <= a < 16 -> 0 <= b < 16 -> Text.upperDigit a = Text.upperDigit b -> a = b.
Proof.
  intros Ha Hb. digit_split Ha; digit_split Hb; intros H;
    first [reflexivity | discriminate H].
Qed.

Lemma lowerDigit_inj (a b : Z) :
  0 <= a < 16 -> 0 <= b < 16 -> Text.lowerDigit a = Text.lowerDigit b -> a = b.
Proof.
  intros Ha Hb. digit_split Ha; digit_split Hb; intros H;
    first [reflexivity | discriminate H].
Qed.

Lemma formatUpper02_inj (x y : Byte) :
  0 <= x < 256 -> 0 <= y < 256 ->
  Text.formatUpper02 x = Text.formatUpper02 y -> x = y.
Proof.
  intros Hx Hy H. unfold Text.formatUpper02 in H. injection H as H1 H2.
  apply upperDigit_inj in H1; [|Z.to_euclidean_division_equations; lia..].
  apply upperDigit_inj in H2; [|Z.to_euclidean_division_equations; lia..].
  Z.to_euclidean_division_equations; lia.
Qed.

Lemma formatLower04_inj (x y : Z) :
  0 <= x < 256 -> 0 <= y < 256 ->
  Text.formatLower04 x = Text.formatLower04 y -> x = y.
Proof.
  intros Hx Hy H. unfold Text.formatLower04 in H. injection H as H1 H2.
  apply lowerDigit_inj in H1; [|Z.to_euclidean_division_equations; lia..].
  apply lowerDigit_inj in H2; [|Z.to_euclidean_division_equations; lia..].
  Z.to_euclidean_division_equations; lia.
Qed.

Lemma formatLower06_inj (x y : Z) :
  0 <= x < 65536 -> 0 <= y < 65536 ->
  Text.formatLower06 x = Text.formatLower06 y -> x = y.
Proof.
  intros Hx Hy H. unfold Text.formatLower06 in H. injection H as H1 H2 H3 H4.
  apply lowerDigit_inj in H1; [|Z.to_euclidean_division_equations; lia..].
  apply lowerDigit_inj in H2; [|Z.to_euclidean_division_equations; lia..].
  apply lowerDigit_inj in H3; [|Z.to_euclidean_division_equations; lia..].
  apply lowerDigit_inj in H4; [|Z.to_euclidean_division_equations; lia..].
  Z.to_euclidean_division_equations; lia.
Qed.

(** *** The payload in hexadecimal *)

Lemma formatBytesHex_loop_spec (bytes : list Byte) (n : nat) :
  forall (i : Size) (result : list Ascii.ascii),
    0 <= i -> (Z.to_nat i + n = length bytes)%nat ->
    Text.formatBytesHex_loop bytes (Z.of_nat (length bytes)) n i result =
    result ++ Text.hexDump (drop (Z.to_nat i) bytes).
Proof.
  induction n as [|n IH]; intros i result Hi Hn.
  - cbn [Text.formatBytesHex_loop]. rewrite drop_ge by lia.
    rewrite app_nil_r. reflexivity.
  - cbn [Text.formatBytesHex_loop].
    destruct (lookup_lt_is_Some_2 bytes (Z.to_nat i) ltac:(lia)) as [x Hx].
    rewrite Hx, (drop_S _ _ _ Hx).
    rewrite IH by lia.
    replace (Z.to_nat (i + 1)) with (S (Z.to_nat i)) by lia.
    cbn [Text.hexDump].
    destruct (drop (S (Z.to_nat i)) bytes) as [|y rest] eqn:Hrest.
    + assert (Hlen : length (drop (S (Z.to_nat i)) bytes) = 0%nat)
        by (rewrite Hrest; reflexivity).
      rewrite length_drop in Hlen.
      destruct (Z.ltb_spec i (Z.of_nat (length bytes) - 1)); [lia|].
      cbn [Text.hexDump]. rewrite <- app_assoc. reflexivity.
    + assert (Hlen : length (drop (S (Z.to_nat i)) bytes) = S (length rest))
        by (rewrite Hrest; reflexivity).
      rewrite length_drop in Hlen.
      destruct (Z.ltb_spec i (Z.of_nat (length bytes) - 1)); [|lia].
      rewrite <- !app_assoc. reflexivity.
Qed.

Lemma formatBytesHex_hexDump (bytes : list Byte) :
  Text.formatBytesHex bytes = Text.hexDump bytes.
Proof.
  unfold Text.formatBytesHex. cbv zeta.
  rewrite formatBytesHex_loop_spec by (cbn; lia). reflexivity.
Qed.

Lemma hexDump_length (bytes : list Byte) :
  length (Text.hexDump bytes) = (3 * length bytes - 1)%nat.
Proof.
  induction bytes as [|x [|y rest] IH]; [reflexivity|reflexivity|].
  change (Text.hexDump (x :: y :: rest))
    with (Text.formatUpper02 x ++ Ascii.Space :: Text.hexDump (y :: rest)).
  rewrite length_app. cbn [length Text.formatUpper02] in *. lia.
Qed.

Lemma hexDump_inj (xs : list Byte) :
  Forall (fun x => 0 <= x < 256) xs ->
  forall ys,
    Forall (fun x => 0 <= x < 256) ys ->
    Text.hexDump xs = Text.hexDump ys -> xs = ys.
Proof.
  induction 1 as [|x xs Hx Hxs IH]; intros ys Hys H.
  - destruct ys as [|y ys]; [reflexivity|]. discriminate H.
  - destruct ys as [|y ys]; [discriminate H|].
    inversion Hys as [|? ? Hy Hys']; subst.
    cbn [Text.hexDump] in H.
    apply app_inj_1 in H; [|reflexivity]. destruct H as (Hb & Ht).
    apply formatUpper02_inj in Hb; [|assumption..]. subst y. f_equal.
    destruct xs as [|x2 xs], ys as [|y2 ys]; try discriminate Ht; [reflexivity|].
    apply (f_equal (drop 1)) in Ht. change (drop 1 (?a :: ?l)) with l in Ht.
    apply IH; assumption.
Qed.

(** X16: [formatBytesHex] writes every byte of the array as two
    upper-case hexadecimal digits and separates neighbours by one space, with
    no space after the last byte: [3 * n - 1] characters for [n] bytes, 767
    for the array of a message, whatever its [dataLength].  The text
    determines the bytes. *)
Theorem formatBytesHex_shape (bytes : list Byte) :
  Text.formatBytesHex bytes = Text.hexDump bytes /\
  length (Text.formatBytesHex bytes) = (3 * length bytes - 1)%nat /\
  (Forall (fun x => 0 <= x < 256) bytes ->
   forall bytes',
     Forall (fun x => 0 <= x < 256) bytes' ->
     Text.formatBytesHex bytes = Text.formatBytesHex bytes' -> bytes = bytes').
Proof.
  split; [apply formatBytesHex_hexDump|].
  split; [rewrite formatBytesHex_hexDump; apply hexDump_length|].
  intros Hb bytes' Hb' H. rewrite !formatBytesHex_hexDump in H.
  apply (hexDump_inj bytes Hb bytes' Hb' H).
Qed.

(** *** The whole line *)

Lemma log2_div10 (v : Z) : 10 <= v -> Z.log2 (v / 10) < Z.log2 v.
Proof.
  intros Hv.
  assert (Ha : 0 < v / 10) by (Z.to_euclidean_division_equations; lia).
  pose proof (Z.log2_double (v / 10) Ha) as Hd.
  pose proof (Z.log2_le_mono (2 * (v / 10)) v
                ltac:(Z.to_euclidean_division_equations; lia)).
  lia.
Qed.

Lemma formatDecimal_digits_inj (f1 : nat) :
  forall (f2 : nat) (v1 v2 : Z),
    0 <= v1 -> 0 <= v2 ->
    Z.log2 v1 < Z.of_nat f1 -> Z.log2 v2 < Z.of_nat f2 ->
    Text.formatDecimal_digits f1 v1 = Text.formatDecimal_digits f2 v2 ->
    v1 = v2.
Proof.
  induction f1 as [|f1 IH]; intros f2 v1 v2 H1 H2 Hf1 Hf2 H.
  { pose proof (Z.log2_nonneg v1). lia. }
  destruct f2 as [|f2]; [pose proof (Z.log2_nonneg v2); lia|].
  cbn [Text.formatDecimal_digits] in H.
  apply app_inj_2 in H; [|reflexivity]. destruct H as (Hpre & Hlast).
  injection Hlast as Hlast.
  apply upperDigit_inj in Hlast; [|Z.to_euclidean_division_equations; lia..].
  destruct (Z.ltb_spec v1 10) as [L1|L1], (Z.ltb_spec v2 10) as [L2|L2].
  - Z.to_euclidean_division_equations; lia.
  - pose proof (log2_div10 v2 L2). pose proof (Z.log2_nonneg (v2 / 10)).
    destruct f2 as [|f2]; [lia|]. cbn [Text.formatDecimal_digits] in Hpre.
    symmetry in Hpre. apply app_eq_nil in Hpre. destruct Hpre as [_ Hx].
    discriminate Hx.
  - pose proof (log2_div10 v1 L1). pose proof (Z.log2_nonneg (v1 / 10)).
    destruct f1 as [|f1]; [lia|]. cbn [Text.formatDecimal_digits] in Hpre.
    apply app_eq_nil in Hpre. destruct Hpre as [_ Hx]. discriminate Hx.
  - pose proof (log2_div10 v1 L1). pose proof (log2_div10 v2 L2).
    apply IH in Hpre; [|Z.to_euclidean_division_equations; lia..|lia|lia].
    Z.to_euclidean_division_equations; lia.
Qed.

Lemma formatDecimal_inj (v1 v2 : Size) :
  0 <= v1 -> 0 <= v2 -> Text.formatDecimal v1 = Text.formatDecimal v2 -> v1 = v2.
Proof.
  intros H1 H2 H. unfold Text.formatDecimal in H.
  apply formatDecimal_digits_inj in H; try assumption.
  - pose proof (Z.log2_nonneg v1). lia.
  - pose proof (Z.log2_nonneg v2). lia.
Qed.

Lemma formatBroadcastType_inj (x y : BroadcastType) :
  Text.formatBroadcastType x = Text.formatBroadcastType y -> x = y.
Proof. destruct x, y; intros H; first [reflexivity | discriminate H]. Qed.

Lemma formatBroadcastType_length (x : BroadcastType) :
  length (Text.formatBroadcastType x) = 1%nat.
Proof. destruct x; reflexivity. Qed.

(** X17: [toString] shows every stored field of a message: two
    messages with the same text have the same broadcast flag, addresses,
    control, length and payload array.  The line is 795 characters and the
    decimal digits of [dataLength] long, since all 256 payload entries are
    printed, whatever [dataLength] is. *)
Theorem toString_determines_message (m1 m2 : Message) :
  storedMessage m1 -> storedMessage m2 ->
  Text.toString m1 = Text.toString m2 ->
  m1 = m2 /\
  length (Text.toString m1) =
  (795 + length (Text.formatDecimal (dataLength m1)))%nat.
Proof.
  intros (Hm1 & Hs1 & Hc1 & Hl1 & Hd1 & Hb1) (Hm2 & Hs2 & Hc2 & Hl2 & Hd2 & Hb2) H.
  split.
  - unfold Text.toString in H.
    apply app_inj_1 in H; [|rewrite !formatBroadcastType_length; reflexivity].
    destruct H as (Hbc & H). apply formatBroadcastType_inj in Hbc.
    apply app_inj_1 in H; [|reflexivity]. destruct H as (_ & H).
    apply app_inj_1 in H; [|reflexivity]. destruct H as (Hma & H).
    apply formatLower06_inj in Hma; [|assumption..].
    apply app_inj_1 in H; [|reflexivity]. destruct H as (_ & H).
    apply app_inj_1 in H; [|reflexivity]. destruct H as (Hsl & H).
    apply formatLower06_inj in Hsl; [|assumption..].
    apply app_inj_1 in H; [|reflexivity]. destruct H as (_ & H).
    apply app_inj_1 in H; [|reflexivity]. destruct H as (Hco & H).
    apply formatLower04_inj in Hco; [|assumption..].
    apply app_inj_1 in H; [|reflexivity]. destruct H as (_ & H).
    apply app_inj_2 in H.
    2:{ rewrite !length_app, !formatBytesHex_hexDump, !hexDump_length.
        unfold Byte in *. rewrite Hd1, Hd2. reflexivity. }
    destruct H as (Hdl & H). apply formatDecimal_inj in Hdl; [|assumption..].
    apply app_inj_1 in H; [|reflexivity]. destruct H as (_ & H).
    apply app_inj_2 in H; [|reflexivity]. destruct H as (Hda & _).
    rewrite !formatBytesHex_hexDump in Hda.
    apply hexDump_inj in Hda; [|assumption..].
    destruct m1, m2. cbn [broadcast master slave control dataLength data] in *.
    subst. reflexivity.
  - unfold Text.toString.
    rewrite !length_app, formatBroadcastType_length, formatBytesHex_hexDump,
      hexDump_length.
    unfold Byte in *. rewrite Hd1. cbn [length Text.formatLower06 Text.formatLower04].
    lia.
Qed.

Lemma toString_determines_message_witness :
  exampleMessage = exampleMessage /\
  length (Text.toString exampleMessage) =
  (795 + length (Text.formatDecimal (dataLength exampleMessage)))%nat.
Proof.
  assert (Hstored : storedMessage exampleMessage).
  { unfold storedMessage, exampleMessage.
    cbn [master slave control dataLength data].
    repeat (split; [lia|]). split; [reflexivity|].
    constructor; [lia|]. apply Forall_replicate. lia. }
  apply (toString_determines_message exampleMessage exampleMessage
           Hstored Hstored eq_refl).
Defined.
